(** * ordinal_tsf.session: experiment orchestration

    A shallow embedding of [src/ordinal_tsf/session.py] (the classes
    [Session] and [StrategyExperiment]) and the properties of its
    directory handling, prediction adaptation and grid search. *)

From Stdlib Require Import ZArith QArith Lia Ascii String.
From stdpp Require Import base option list strings pretty gmap.

Local Open Scope Z_scope.
Local Open Scope string_scope.
Set Warnings "-register-all,-clear-no-such-hyp".

(** ** Exceptions and results *)

(** The Python exceptions that the module can raise itself, plus
    [ExternalError] for whatever a collaborator (strategy, test, plot
    method) raises. *)
Inductive exn :=
| KeyError (key : string)
| IndexError
| TypeError
| AttributeError (attr : string)
| AssertionError
| FileExistsError (path : string)
| UnpicklingError
| ExternalError (what : string).

Inductive result (A : Type) :=
| Ok (a : A)
| Raise (e : exn).
Arguments Ok {A} a.
Arguments Raise {A} e.

Definition is_ok {A} (r : result A) : bool :=
  match r with Ok _ => true | Raise _ => false end.

(** ** Python values

    The values stored in raw predictions, argument bundles and dataset
    parameters are Python objects (numpy arrays, lists, quantisers,
    booleans).  The module only uses four operations on them. *)
Class PyValue (V : Type) := {
  truthy : V -> bool;                (* bool(v), as tested by [if v:] *)
  py_len : V -> result nat;          (* len(v) *)
  getitem : V -> nat -> result V;    (* v[i] *)
  take_last : V -> result V          (* v.take(-1, axis=-1) *)
}.

(** ** Insertion-ordered dictionaries with string keys *)

Definition dict (A : Type) : Type := list (string * A).

Fixpoint dict_get {A} (d : dict A) (k : string) : option A :=
  match d with
  | [] => None
  | (k', v) :: d' => if decide (k = k') then Some v else dict_get d' k
  end.

(** [d[k] = v]: an existing key keeps its position, a new one goes last. *)
Fixpoint dict_set {A} (d : dict A) (k : string) (v : A) : dict A :=
  match d with
  | [] => [(k, v)]
  | (k', v') :: d' =>
      if decide (k = k') then (k, v) :: d' else (k', v') :: dict_set d' k v
  end.

Definition dict_keys {A} (d : dict A) : list string := d.*1.

(** [d.get(k, False)] used as a condition. *)
Definition flag `{PyValue V} (d : dict V) (k : string) : bool :=
  match dict_get d k with
  | Some v => truthy v
  | None => false
  end.

(** ** A state-and-exception monad with an event log

    Python statements run against a mutable state, may raise, and leave
    side effects behind even when they raise. *)
Section Monad.
Context {E S : Type}.

Record outcome (A : Type) := Outcome {
  res : result A;
  final : S;
  log : list E
}.
Global Arguments Outcome {A} res final log.
Global Arguments res {A} o.
Global Arguments final {A} o.
Global Arguments log {A} o.

Definition SE (A : Type) : Type := S -> outcome A.

Definition ret {A} (a : A) : SE A := fun s => Outcome (Ok a) s [].

Definition bind {A B} (m : SE A) (k : A -> SE B) : SE B :=
  fun s =>
    let o := m s in
    match res o with
    | Ok a => let o' := k a (final o) in
              Outcome (res o') (final o') (log o ++ log o')
    | Raise e => Outcome (Raise e) (final o) (log o)
    end.

Definition raise {A} (e : exn) : SE A := fun s => Outcome (Raise e) s [].
Definition lift {A} (r : result A) : SE A := fun s => Outcome r s [].
Definition get : SE S := fun s => Outcome (Ok s) s [].
Definition put (s : S) : SE unit := fun _ => Outcome (Ok tt) s [].
Definition emit (e : E) : SE unit := fun s => Outcome (Ok tt) s [e].

(** [try: body except: handler] with a bare [except]. *)
Definition try_except {A} (body : SE A) (handler : SE A) : SE A :=
  fun s =>
    let o := body s in
    match res o with
    | Ok a => o
    | Raise _ => let o' := handler (final o) in
                 Outcome (res o') (final o') (log o ++ log o')
    end.

(** An outcome with events logged before it. *)
Definition logged {A} (l : list E) (o : outcome A) : outcome A :=
  Outcome (res o) (final o) (l ++ log o).

(** [for x in xs: body x], threading the loop-carried variables. *)
Fixpoint for_each {A L} (xs : list A) (body : A -> L -> SE L) (l : L) : SE L :=
  match xs with
  | [] => ret l
  | x :: xs' => bind (body x l) (for_each xs' body)
  end.
End Monad.
Arguments SE : clear implicits.
Arguments outcome : clear implicits.

Notation "'let!' x ':=' m 'in' k" := (bind m (fun x => k))
  (at level 10, x name, m at level 100, k at level 200, only parsing).
Notation "'run!' m 'in' k" := (bind m (fun _ => k))
  (at level 10, m at level 100, k at level 200, only parsing).

(** ** Prediction adapters and datasets *)

Section Predictions.
Context {V : Type} `{PyValue V}.

(** Positional arguments of a constructor call. *)
Inductive arg :=
| ANone
| AVal (v : V)
| ADict (d : dict V).

(** Modelled from the spec: the prediction classes of
    [ordinal_tsf.dataset] are imported, not defined, by the module:
    "Prediction adapters (external): wrap raw model output into typed
    prediction objects" with "variants: ordinal, Gaussian, multivariate
    ordinal, array, list, mixture".  A prediction object is the record
    of the constructor call that made it: the class, the positional
    arguments and the keyword arguments. *)
Inductive Prediction :=
| MultivarVBGMMPrediction (draws x_ranges : V)
| MultivariateOrdinalPrediction (quant : V) (kwargs : dict V)
| OrdinalPrediction (args : list arg) (kwargs : dict V)
| PredictionList (preds : list Prediction)
| OrdinalArrayPrediction (kwargs : dict V)
| GaussianPrediction (args : list arg) (kwargs : dict V).

(** Modelled from the spec: "Dataset exposes train_frames, val_ts,
    test_ts, optional_params (flags dict), optional_params_list". *)
Record Dataset := {
  train_frames : V;
  val_ts : list V;
  test_ts : list V;
  optional_params : dict V;
  optional_params_list : list (dict V)
}.

(** [d[k]] on a dictionary that is not the state. *)
Definition subscript (d : dict V) (k : string) : result V :=
  match dict_get d k with
  | Some v => Ok v
  | None => Raise (KeyError k)
  end.

Definition list_index {A} (l : list A) (i : nat) : result A :=
  match l !! i with
  | Some x => Ok x
  | None => Raise IndexError
  end.

Definition bind_result {A B} (r : result A) (k : A -> result B) : result B :=
  match r with
  | Ok a => k a
  | Raise e => Raise e
  end.

(** The conditional bodies of [build_prediction], by the key tested. *)
Inductive branch :=
| MvarXRanges
| ArQuant
| IsList
| IsArray
| Centroids
| IsSarimax
| IsAttractor
| IsOrdinal.

(** The monad of [build_prediction]: the state is the caller's raw
    prediction dictionary, which the method updates in place; the log
    records the conditional bodies that are entered. *)
Definition BP := SE branch (dict V).

(** [prediction[k]] *)
Definition pred_item (k : string) : BP V :=
  let! prediction := get in lift (subscript prediction k).

(** [prediction[k] = v] *)
Definition pred_setitem (k : string) (v : V) : BP unit :=
  let! prediction := get in put (dict_set prediction k v).

(** The comprehension of lines 71-74, one element per [i_ar]. *)
Definition ordinal_at (ds : Dataset) (i_ar : nat) : BP Prediction :=
  let! pdf := pred_item "ordinal_pdf" in
  let! pdf_i := lift (getitem pdf i_ar) in
  let! draws := pred_item "draws" in
  let! draws_i := lift (getitem draws i_ar) in
  let! params := lift (list_index (optional_params_list ds) i_ar) in
  let! bins := lift (subscript params "bins") in
  ret (OrdinalPrediction [AVal pdf_i; AVal draws_i; AVal bins] []).

Fixpoint comprehension {A B} (f : A -> BP B) (xs : list A) : BP (list B) :=
  match xs with
  | [] => ret []
  | x :: xs' =>
      let! y := f x in
      let! ys := comprehension f xs' in
      ret (y :: ys)
  end.

(** Lines 87-88: [for k, v in prediction.items(): prediction[k] = v.take(-1, axis=-1)]. *)
Definition take_last_step (kv : string * V) : BP unit :=
  let! v' := lift (take_last kv.2) in
  pred_setitem kv.1 v'.

Fixpoint for_items (items : list (string * V)) : BP unit :=
  match items with
  | [] => ret tt
  | kv :: items' => run! take_last_step kv in for_items items'
  end.

(** [StrategyExperiment.build_prediction(self, prediction, pred_args)],
    lines 58-94; [ds] is [self.dataset]. *)
Definition build_prediction (ds : Dataset) (pred_args : dict V) : BP Prediction :=
  let! prediction := get in
  if flag prediction "mvar_x_ranges" then
    run! emit MvarXRanges in
    let! draws := pred_item "draws" in
    let! ranges := pred_item "mvar_x_ranges" in
    ret (MultivarVBGMMPrediction draws ranges)
  else if flag pred_args "ar_quant" then
    run! emit ArQuant in
    let! pdf := pred_item "ordinal_pdf" in
    let! pdf0 := lift (getitem pdf 0) in
    run! pred_setitem "ordinal_pdf" pdf0 in
    let! draws := pred_item "draws" in
    let! draws0 := lift (getitem draws 0) in
    run! pred_setitem "draws" draws0 in
    let! quant := lift (subscript pred_args "ar_quant") in
    let! kwargs := get in
    ret (MultivariateOrdinalPrediction quant kwargs)
  else if flag (optional_params ds) "is_list" then
    run! emit IsList in
    let! pdf := pred_item "ordinal_pdf" in
    let! n_ar := lift (py_len pdf) in
    let! preds := comprehension (ordinal_at ds) (seq 0 n_ar) in
    ret (PredictionList preds)
  else if flag (optional_params ds) "is_array" then
    run! emit IsArray in
    let! bins := lift (subscript (optional_params ds) "bins") in
    run! pred_setitem "bins" bins in
    let! kwargs := get in
    ret (OrdinalArrayPrediction kwargs)
  else if flag (optional_params ds) "centroids" then
    run! emit Centroids in
    let! quant := lift (subscript pred_args "quant") in
    let! kwargs := get in
    ret (MultivariateOrdinalPrediction quant kwargs)
  else if flag (optional_params ds) "is_sarimax" then
    run! emit IsSarimax in
    let! d := get in
    ret (GaussianPrediction [ANone; ADict d] [])
  else
    run! (if flag (optional_params ds) "is_attractor"
          then
            run! emit IsAttractor in
            let! d := get in
            for_items d
          else ret tt) in
    if flag (optional_params ds) "is_ordinal" then
      run! emit IsOrdinal in
      let! bins := lift (subscript (optional_params ds) "bins") in
      run! pred_setitem "bins" bins in
      let! kwargs := get in
      ret (OrdinalPrediction [] kwargs)
    else
      let! kwargs := get in
      ret (GaussianPrediction [] kwargs).
End Predictions.
Arguments Prediction V : clear implicits.
Arguments Dataset V : clear implicits.
Arguments arg V : clear implicits.

(** ** The experiment: disk, heap and collaborators *)

Section Experiment.
Context {V : Type} `{PyValue V} {M : Type}.

(** A spec maps hyperparameter names to their values and, once
    evaluated, metric names to scores. *)
Inductive specval :=
| Hyper (v : V)
| Score (q : Q).

(** The objects that are pickled: specs (dictionaries) and predictions. *)
Inductive pyobj :=
| OSpec (s : gmap string specval)
| OPred (p : Prediction V).

(** A file holds a pickle, or bytes that [pickle.load] rejects. *)
Inductive file :=
| Pickle (o : pyobj)
| Raw (bytes : string).

Inductive message :=
| MsgPath (path : string)
| MsgLoadError
| MsgTraining (o : pyobj)
| MsgNewBest
| MsgMetric (metric : string) (score : Q)
| MsgPlotUnavailable (plot_key : string)
| MsgBestHeader
| MsgBest (metric : string) (score : option Q) (owner : option nat).

(** What the run does to the outside: console output and calls of the
    collaborators, in program order. *)
Inductive event :=
| Print (m : message)
| StrategyLoad (fname : string)
| StrategyNew (s : gmap string specval)
| Fit
| Save (dir : string)
| Predict (input : list (list V)) (horizon : Z)
| Evaluated (metric : string) (score : result Q)
| PlotCall (plot_key : string)
| Savefig (fname : string)
| Clf.

(** Modelled from the spec: "Strategy exposes id (class-level name),
    get_filename(spec), load(path), constructor taking spec kwargs,
    fit(frames, **kwargs), predict(input, predictive_horizon, **kwargs),
    save(dir), seed_length (int)".  Every call may raise. *)
Record StrategyClass := {
  strategy_id : string;
  get_filename : gmap string specval -> string;
  strategy_load : string -> gmap string file -> result M;
  strategy_new : gmap string specval -> result M;
  fit : M -> V -> dict V -> result M;
  save : M -> string -> gmap string file -> result (gmap string file);
  seed_length : M -> Z;
  predict : M -> list (list V) -> Z -> dict V -> result (dict V)
}.

(** Modelled from the spec: "TestDefinition exposes metric (name), id,
    eval(prediction), compare(new,best), eval_kwargs". *)
Record TestDefinition := {
  metric : string;
  test_id : string;
  eval : pyobj -> result Q;
  compare : Q -> Q -> bool;
  test_eval_kwargs : dict V
}.

(** The [plots] argument: the signature's default is a list, the body
    iterates over [plots.items()]. *)
Inductive plots_arg :=
| PlotsList (l : list string)
| PlotsDict (d : dict (dict V)).

(** The disk, the heap of spec objects and the local variables of
    [choose_model]. *)
Record frame := Frame {
  fs : gmap string file;
  heap : list pyobj;
  best_results : gmap string (option Q);
  best_strategy : gmap string (option nat);
  model_input : option (list (list V));
  spec : option nat;
  prediction : option pyobj;
  pred_loaded_successfully : bool;
  model : option M
}.

Definition set_fs (x : gmap string file) (s : frame) : frame :=
  Frame x (heap s) (best_results s) (best_strategy s) (model_input s)
        (spec s) (prediction s) (pred_loaded_successfully s) (model s).
Definition set_heap (x : list pyobj) (s : frame) : frame :=
  Frame (fs s) x (best_results s) (best_strategy s) (model_input s)
        (spec s) (prediction s) (pred_loaded_successfully s) (model s).
Definition set_best_results (x : gmap string (option Q)) (s : frame) : frame :=
  Frame (fs s) (heap s) x (best_strategy s) (model_input s)
        (spec s) (prediction s) (pred_loaded_successfully s) (model s).
Definition set_best_strategy (x : gmap string (option nat)) (s : frame) : frame :=
  Frame (fs s) (heap s) (best_results s) x (model_input s)
        (spec s) (prediction s) (pred_loaded_successfully s) (model s).
Definition set_model_input (x : option (list (list V))) (s : frame) : frame :=
  Frame (fs s) (heap s) (best_results s) (best_strategy s) x
        (spec s) (prediction s) (pred_loaded_successfully s) (model s).
Definition set_spec (x : option nat) (s : frame) : frame :=
  Frame (fs s) (heap s) (best_results s) (best_strategy s) (model_input s)
        x (prediction s) (pred_loaded_successfully s) (model s).
Definition set_prediction (x : option pyobj) (s : frame) : frame :=
  Frame (fs s) (heap s) (best_results s) (best_strategy s) (model_input s)
        (spec s) x (pred_loaded_successfully s) (model s).
Definition set_pred_loaded (x : bool) (s : frame) : frame :=
  Frame (fs s) (heap s) (best_results s) (best_strategy s) (model_input s)
        (spec s) (prediction s) x (model s).
Definition set_model (x : option M) (s : frame) : frame :=
  Frame (fs s) (heap s) (best_results s) (best_strategy s) (model_input s)
        (spec s) (prediction s) (pred_loaded_successfully s) x.

Definition CM := SE event frame.

Definition modify (f : frame -> frame) : CM unit :=
  fun s => Outcome (Ok tt) (f s) [].

Definition read {A} (f : frame -> A) : CM A :=
  fun s => Outcome (Ok (f s)) s [].

(** Reading a local variable that may be unbound. *)
Definition local {A} (name : string) (f : frame -> option A) : CM A :=
  let! x := read f in
  match x with
  | Some a => ret a
  | None => raise (ExternalError ("UnboundLocalError: " ++ name))
  end.

(** *** Files *)

Definition isfile (name : string) : CM bool :=
  let! d := read fs in
  ret (match d !! name with Some _ => true | None => false end).

(** [with open(name, 'rb') as f: pickle.load(f, fix_imports=True)] *)
Definition pickle_load (name : string) : CM pyobj :=
  let! d := read fs in
  match d !! name with
  | Some (Pickle o) => ret o
  | Some (Raw _) => raise UnpicklingError
  | None => raise (ExternalError "FileNotFoundError")
  end.

(** [with open(name, 'wb') as f: pickle.dump(o, f)] *)
Definition pickle_dump (o : pyobj) (name : string) : CM unit :=
  let! d := read fs in
  modify (set_fs (<[name := Pickle o]> d)).

(** *** Objects *)

Definition alloc (o : pyobj) : CM nat :=
  let! h := read heap in
  run! modify (set_heap (h ++ [o])) in
  ret (length h).

Definition deref (l : nat) : CM pyobj :=
  let! h := read heap in
  lift (list_index h l).

(** [spec[k] = v] on the object the variable [spec] refers to. *)
Definition spec_setitem (k : string) (v : specval) : CM unit :=
  let! l := local "spec" spec in
  let! o := deref l in
  match o with
  | OSpec d =>
      let! h := read heap in
      modify (set_heap (<[l := OSpec (<[k := v]> d)]> h))
  | OPred _ => raise TypeError
  end.

(** [{k: v for k, v in zip(keys, values)}]: a later pair overrides an
    earlier one with the same key. *)
Definition dict_of_zip (keys : list string) (values : list V) : gmap string specval :=
  foldl (fun d kv => <[kv.1 := Hyper kv.2]> d) ∅ (zip keys values).
End Experiment.
Arguments specval V : clear implicits.
Arguments pyobj V : clear implicits.
Arguments file V : clear implicits.
Arguments message V : clear implicits.
Arguments event V : clear implicits.
Arguments StrategyClass V M : clear implicits.
Arguments TestDefinition V : clear implicits.
Arguments plots_arg V : clear implicits.
Arguments frame V M : clear implicits.
Arguments CM V M : clear implicits.

(** ** StrategyExperiment *)

(** Python's [l[start:stop]] for integer bounds. *)
Definition slice_bound (n i : Z) : Z :=
  if (i <? 0)%Z then Z.max 0 (i + n) else Z.min i n.

Definition py_slice {A} (l : list A) (start stop : Z) : list A :=
  let n := Z.of_nat (length l) in
  let a := slice_bound n start in
  let b := slice_bound n stop in
  take (Z.to_nat (b - a)) (drop (Z.to_nat a) l).

Section GridSearch.
Context {V : Type} `{PyValue V} {M : Type}.

(** [self.dataset], [self.folder], [self.Strategy]. *)
Record StrategyExperiment := {
  dataset : Dataset V;
  folder : string;
  Strategy : StrategyClass V M
}.

(** Modelled from the spec: plot methods belong to the external
    prediction classes ("look up a same-named method on the prediction
    object; skip ... if absent or non-callable").  [plot_method p key]
    is the callable attribute [key] of [p], if there is one; calling it
    with the keyword arguments may raise. *)
Variable plot_method : pyobj V -> string -> option (dict V -> result unit).

Variable self : StrategyExperiment.

Local Abbreviation CM := (CM V M).

(** Lines 137-144: the body of the [try]. *)
Definition load_body (spec_fname prediction_fname : string) : CM unit :=
  run! (let! present := isfile spec_fname in
        if present : bool then
          let! o := pickle_load spec_fname in
          let! l := alloc o in
          modify (set_spec (Some l))
        else ret tt) in
  let! present := isfile prediction_fname in
  if present : bool then
    let! o := pickle_load prediction_fname in
    run! modify (set_prediction (Some o)) in
    modify (set_pred_loaded true)
  else ret tt.

(** Lines 136-146. *)
Definition load_cached (spec_fname prediction_fname : string) : CM unit :=
  try_except (load_body spec_fname prediction_fname) (emit (Print MsgLoadError)).

(** Lines 149-155. *)
Definition obtain_model (fit_kwargs : dict V) (model_fname : string) : CM unit :=
  let! present := isfile model_fname in
  if present : bool then
    run! emit (StrategyLoad model_fname) in
    let! d := read fs in
    let! m := lift (strategy_load (Strategy self) model_fname d) in
    modify (set_model (Some m))
  else
    let! l := local "spec" spec in
    let! o := deref l in
    run! emit (Print (MsgTraining o)) in
    let! m := match o with
              | OSpec s =>
                  run! emit (StrategyNew s) in
                  lift (strategy_new (Strategy self) s)
              | OPred _ => raise TypeError
              end in
    run! modify (set_model (Some m)) in
    run! emit Fit in
    let! m' := lift (fit (Strategy self) m (train_frames (dataset self)) fit_kwargs) in
    run! modify (set_model (Some m')) in
    run! emit (Save (folder self ++ "models/")) in
    let! d := read fs in
    let! d' := lift (save (Strategy self) m' (folder self ++ "models/") d) in
    modify (set_fs d').

(** Lines 159-173. *)
Definition predict_and_store (eval_ts : list V) (prediction_index predictive_horizon : Z)
    (eval_kwargs pred_kwargs : dict V) (prediction_fname : string) : CM unit :=
  let! m := local "model" model in
  let seed_start := prediction_index - seed_length (Strategy self) m in
  run! (let! mi := read model_input in
        match mi with
        | None => modify (set_model_input (Some [py_slice eval_ts seed_start prediction_index]))
        | Some _ => ret tt
        end) in
  run! (if (0 <=? seed_start)%Z then ret tt else raise AssertionError) in
  let! input := local "model_input" model_input in
  run! emit (Predict input predictive_horizon) in
  let! raw := lift (predict (Strategy self) m input predictive_horizon eval_kwargs) in
  let! p := lift (res (build_prediction (dataset self) pred_kwargs raw)) in
  run! modify (set_prediction (Some (OPred p))) in
  pickle_dump (OPred p) prediction_fname.

(** Lines 175-184, one test. *)
Definition score_test (test : TestDefinition V) : CM unit :=
  let! p := local "prediction" prediction in
  run! emit (Evaluated (metric test) (eval test p)) in
  let! score := lift (eval test p) in
  run! spec_setitem (metric test) (Score score) in
  let! br := read best_results in
  let! best := lift (match br !! metric test with
                     | Some b => Ok b
                     | None => Raise (KeyError (metric test))
                     end) in
  if match best with
     | None => true
     | Some b => compare test score b
     end
  then
    run! emit (Print MsgNewBest) in
    run! emit (Print (MsgMetric (metric test) score)) in
    let! l := local "spec" spec in
    let! bs := read best_strategy in
    run! modify (set_best_strategy (<[metric test := Some l]> bs)) in
    let! br := read best_results in
    modify (set_best_results (<[metric test := Some score]> br))
  else ret tt.

(** Lines 186-187. *)
Definition persist_spec (spec_fname : string) : CM unit :=
  let! l := local "spec" spec in
  let! o := deref l in
  pickle_dump o spec_fname.

(** Lines 190-199, one requested plot. *)
Definition render_plot (mode fname : string) (item : string * dict V) : CM unit :=
  let! p := local "prediction" prediction in
  match plot_method p item.1 with
  | None => emit (Print (MsgPlotUnavailable item.1))
  | Some plot_eval =>
      run! emit (PlotCall item.1) in
      run! lift (plot_eval item.2) in
      run! emit (Savefig (folder self ++ "plots/" ++ item.1 ++ "_" ++ mode ++ "_" ++ fname ++ ".pdf")) in
      emit Clf
  end.

(** Line 189: [plots.items()]. *)
Definition plot_items (plots : plots_arg V) : CM (list (string * dict V)) :=
  match plots with
  | PlotsList _ => raise (AttributeError "items")
  | PlotsDict d => ret d
  end.

Definition seq_each {A} (xs : list A) (body : A -> CM unit) : CM unit :=
  for_each xs (fun x _ => body x) tt.

(** The file names of a grid point, lines 127-131. *)
Definition model_fname (fname : string) : string :=
  folder self ++ "models/" ++ fname.

Definition spec_fname (mode fname : string) : string :=
  folder self ++ "logs/" ++ fname ++ "_" ++ mode ++ "_report".

Definition prediction_fname (mode : string) (prediction_index predictive_horizon : Z)
    (fname : string) : string :=
  folder self ++ "predictions/" ++ fname ++ "_" ++ mode ++ "_pred_index_"
    ++ pretty prediction_index ++ "_pred_horizon_" ++ pretty predictive_horizon.

(** Lines 126-146: the fresh spec and the attempt to load the cache. *)
Definition begin_point (hypergrid_keys : list string) (prediction_index predictive_horizon : Z)
    (mode : string) (next_config : list V) : CM unit :=
  let spec0 := dict_of_zip hypergrid_keys next_config in
  let! l := alloc (OSpec spec0) in
  run! modify (set_spec (Some l)) in
  let fname := get_filename (Strategy self) spec0 in
  run! modify (set_pred_loaded false) in
  run! emit (Print (MsgPath (model_fname fname))) in
  load_cached (spec_fname mode fname)
              (prediction_fname mode prediction_index predictive_horizon fname).

(** Lines 149-173: the body of [if not pred_loaded_successfully]. *)
Definition recompute (prediction_index predictive_horizon : Z)
    (fit_kwargs eval_kwargs : dict V) (mode : string) (pred_kwargs : dict V)
    (eval_ts : list V) (fname : string) : CM unit :=
  run! obtain_model fit_kwargs (model_fname fname) in
  predict_and_store eval_ts prediction_index predictive_horizon eval_kwargs pred_kwargs
                    (prediction_fname mode prediction_index predictive_horizon fname).

(** Lines 175-199: scoring, the spec report and the plots. *)
Definition finish_point (tests : list (TestDefinition V)) (plots : plots_arg V)
    (mode fname : string) : CM unit :=
  run! seq_each tests score_test in
  run! persist_spec (spec_fname mode fname) in
  let! items := plot_items plots in
  seq_each items (render_plot mode fname).

(** Lines 126-199: the body of the loop over the grid. *)
Definition grid_point (tests : list (TestDefinition V)) (hypergrid_keys : list string)
    (prediction_index predictive_horizon : Z) (plots : plots_arg V)
    (fit_kwargs eval_kwargs : dict V) (mode : string) (pred_kwargs : dict V)
    (eval_ts : list V) (next_config : list V) : CM unit :=
  let fname := get_filename (Strategy self) (dict_of_zip hypergrid_keys next_config) in
  run! begin_point hypergrid_keys prediction_index predictive_horizon mode next_config in
  let! loaded := read pred_loaded_successfully in
  run! (if loaded : bool then ret tt
        else recompute prediction_index predictive_horizon fit_kwargs eval_kwargs
                       mode pred_kwargs eval_ts fname) in
  finish_point tests plots mode fname.

Definition report_best (test : TestDefinition V) : CM unit :=
  let! br := read best_results in
  let! bs := read best_strategy in
  match br !! metric test, bs !! metric test with
  | Some r, Some o => emit (Print (MsgBest (metric test) r o))
  | _, _ => raise (KeyError (metric test))
  end.

(** Lines 118-119: the series that is forecast. *)
Definition series_for (mode : string) (eval_ts : option (list V)) : list V :=
  match eval_ts with
  | None => if decide (mode = "val") then val_ts (dataset self) else test_ts (dataset self)
  | Some ts => ts
  end.

(** Lines 121-123, one test. *)
Definition init_best (test : TestDefinition V) : CM unit :=
  let! br := read best_results in
  run! modify (set_best_results (<[metric test := None]> br)) in
  let! bs := read best_strategy in
  modify (set_best_strategy (<[metric test := None]> bs)).

(** The local variables at entry, lines 115-116 and the parameters. *)
Definition entry (d : gmap string (file V)) (h : list (pyobj V))
    (model_input : option (list (list V))) : frame V M :=
  Frame d h ∅ ∅ model_input None None false None.

(** [StrategyExperiment.choose_model], lines 96-205. *)
Definition choose_model (tests : list (TestDefinition V)) (hypergrid_keys : list string)
    (expanded_hypergrid : list (list V)) (prediction_index predictive_horizon : Z)
    (plots : plots_arg V) (fit_kwargs eval_kwargs : dict V) (mode : string)
    (pred_kwargs : dict V) (eval_ts : option (list V)) : CM (gmap string (option nat)) :=
  let eval_ts := series_for mode eval_ts in
  run! seq_each tests init_best in
  run! seq_each expanded_hypergrid
         (grid_point tests hypergrid_keys prediction_index predictive_horizon plots
                     fit_kwargs eval_kwargs mode pred_kwargs eval_ts) in
  run! emit (Print MsgBestHeader) in
  run! seq_each tests report_best in
  read best_strategy.
End GridSearch.
Arguments StrategyExperiment V M : clear implicits.

(** ** Session: the directory tree *)

(** A path is compared by whether it is absolute and by its components;
    empty components (doubled or trailing slashes) do not count.  The
    components "." and ".." are not interpreted. *)
Definition flush (cur : string) : list string :=
  if decide (cur = "") then [] else [cur].

Fixpoint split_path (s cur : string) : list string :=
  match s with
  | "" => flush cur
  | String c s' =>
      if decide (c = "/"%char) then flush cur ++ split_path s' ""
      else split_path s' (cur ++ String c "")
  end.

Definition path_parts (p : string) : list string := split_path p "".

Definition is_abs (p : string) : bool :=
  match p with
  | String c _ => bool_decide (c = "/"%char)
  | "" => false
  end.

Definition norm_path (p : string) : bool * list string := (is_abs p, path_parts p).

(** The directories that exist.  Regular files are kept elsewhere. *)
Definition tree : Type := gset (bool * list string).

Definition is_dir (n : bool * list string) (t : tree) : bool :=
  bool_decide (n = (true, []) ∨ n ∈ t).

(** The non-empty prefixes of a component list, the list itself included. *)
Fixpoint ancestors (l : list string) : list (list string) :=
  match l with
  | [] => []
  | x :: l' => [x] :: map (cons x) (ancestors l')
  end.

Inductive dir_event :=
| Makedirs (path : string)
| Say (text : string).

Definition FS := SE dir_event tree.

(** [os.path.isdir(p)] *)
Definition isdir (p : string) : FS bool :=
  let! t := get in ret (is_dir (norm_path p) t).

(** [os.makedirs(p)]: creates the missing ancestors and then the leaf,
    which must not exist. *)
Definition makedirs (p : string) : FS unit :=
  run! emit (Makedirs p) in
  let! t := get in
  let n := norm_path p in
  if decide (n.2 = []) then
    raise (if n.1 then FileExistsError p else ExternalError "FileNotFoundError")
  else if is_dir n t then raise (FileExistsError p)
  else put (t ∪ list_to_set (map (pair n.1) (ancestors n.2))).

Section Session.
Context {V : Type} `{PyValue V} {M : Type}.

Record Session := {
  directory : string;
  experiments_directory : string;
  datasets_directory : string
}.

Definition last_char (s : string) : option ascii :=
  last (String.list_ascii_of_string s).

(** [Session.__init__], lines 16-32. *)
Definition Session_init (directory : string) : FS Session :=
  let! c := lift (match last_char directory with
                  | Some c => Ok c
                  | None => Raise IndexError
                  end) in
  let directory := if decide (c = "/"%char) then directory else directory ++ "/" in
  let! present := isdir directory in
  run! (if present : bool then ret tt
        else
          run! emit (Say ("Creating new session: " ++ directory ++ "...")) in
          run! makedirs directory in
          makedirs (directory ++ "datasets/")) in
  run! emit (Say ("Opening session: " ++ directory ++ "...")) in
  ret {| directory := directory;
         experiments_directory := directory ++ "experiments/";
         datasets_directory := directory ++ "datasets/" |}.

(** [Session.start_experiment], lines 34-45. *)
Definition start_experiment (self : Session) (dataset : Dataset V)
    (StrategyClass : StrategyClass V M) : FS (StrategyExperiment V M) :=
  let id := strategy_id StrategyClass in
  let! present := isdir (directory self ++ id) in
  run! (if present : bool then ret tt
        else
          run! makedirs (directory self ++ id) in
          run! makedirs (directory self ++ id ++ "/models/") in
          run! makedirs (directory self ++ id ++ "/logs/") in
          run! makedirs (directory self ++ id ++ "/predictions/") in
          makedirs (directory self ++ id ++ "/plots/")) in
  ret {| dataset := dataset;
         folder := directory self ++ id ++ "/";
         Strategy := StrategyClass |}.
End Session.

(** ** A concrete universe of values

    Nested lists stand for arrays; used to run the definitions. *)
Inductive pyval :=
| PNone
| PBool (b : bool)
| PInt (z : Z)
| PStr (s : string)
| PList (l : list pyval).

Definition pyval_truthy (v : pyval) : bool :=
  match v with
  | PNone => false
  | PBool b => b
  | PInt z => negb (z =? 0)%Z
  | PStr s => negb (bool_decide (s = ""))
  | PList l => negb (bool_decide (l = []))
  end.

Definition pyval_len (v : pyval) : result nat :=
  match v with
  | PStr s => Ok (String.length s)
  | PList l => Ok (length l)
  | _ => Raise TypeError
  end.

Definition pyval_getitem (v : pyval) (i : nat) : result pyval :=
  match v with
  | PList l => list_index l i
  | _ => Raise TypeError
  end.

(** The last entry along the last axis: of a flat list its last element,
    of a list of lists the list of the rows' results. *)
Fixpoint pyval_take_last (v : pyval) : result pyval :=
  match v with
  | PList l =>
      match l with
      | [] => Raise IndexError
      | PList _ :: _ =>
          bind_result
            ((fix rows (xs : list pyval) : result (list pyval) :=
                match xs with
                | [] => Ok []
                | x :: xs' =>
                    bind_result (pyval_take_last x) (fun y =>
                    bind_result (rows xs') (fun ys => Ok (y :: ys)))
                end) l)
            (fun ys => Ok (PList ys))
      | _ => match last l with
             | Some x => Ok x
             | None => Raise IndexError
             end
      end
  | _ => Raise (AttributeError "take")
  end.

#[export] Instance pyval_PyValue : PyValue pyval := {
  truthy := pyval_truthy;
  py_len := pyval_len;
  getitem := pyval_getitem;
  take_last := pyval_take_last
}.

(** ** The documented selection policy of [build_prediction] *)

Section Selection.
Context {V : Type} `{PyValue V}.



(** Whether the flag of a level is set for a call. *)
Definition satisfied (ds : Dataset V) (pred_args prediction : dict V) (b : branch) : bool :=
  match b with
  | MvarXRanges => flag prediction "mvar_x_ranges"
  | ArQuant => flag pred_args "ar_quant"
  | IsList => flag (optional_params ds) "is_list"
  | IsArray => flag (optional_params ds) "is_array"
  | Centroids => flag (optional_params ds) "centroids"
  | IsSarimax => flag (optional_params ds) "is_sarimax"
  | IsAttractor => flag (optional_params ds) "is_attractor"
  | IsOrdinal => flag (optional_params ds) "is_ordinal"
  end.

(** The priority order as the specification lists it: "mixture-model
    ranges, autoregressive-quantile flag, list representation, array
    representation, centroid representation, SARIMAX flag, attractor
    flag, ordinal flag", and the Gaussian default after them. *)
Definition priority_order : list branch :=
  [MvarXRanges; ArQuant; IsList; IsArray; Centroids; IsSarimax; IsAttractor; IsOrdinal].


(** First match in the documented order. *)
Definition first_satisfied (ds : Dataset V) (pred_args prediction : dict V) : option branch :=
  List.find (satisfied ds pred_args prediction) priority_order.


(** The bodies entered when exactly one branch fires: the first match
    and nothing after it. *)
Definition first_match_only (ds : Dataset V) (pred_args prediction : dict V) : list branch :=
  option_list (first_satisfied ds pred_args prediction).

(** The bodies the cascade can enter: the attractor body does not
    return, the ordinal test follows it. *)
Definition bodies_entered (ds : Dataset V) (pred_args prediction : dict V) : list branch :=
  match first_satisfied ds pred_args prediction with
  | Some IsAttractor =>
      if satisfied ds pred_args prediction IsOrdinal then [IsAttractor; IsOrdinal]
      else [IsAttractor]
  | Some b => [b]
  | None => []
  end.

(** "Exactly one branch fires (first match wins)": the bodies a call
    enters are those of [first_match_only]. *)
Definition exactly_one_branch_fires (ds : Dataset V) (pred_args prediction : dict V) : Prop :=
  log (build_prediction ds pred_args prediction) = first_match_only ds pred_args prediction.

(** Every field replaced by its last time step. *)
Fixpoint last_steps (d : dict V) : result (dict V) :=
  match d with
  | [] => Ok []
  | (k, v) :: d' =>
      bind_result (take_last v) (fun v' =>
      bind_result (last_steps d') (fun d'' => Ok ((k, v') :: d'')))
  end.
End Selection.

(** ** Sample inputs *)

Definition sample_bins : pyval := PList [PInt 0; PInt 1; PInt 2].

Definition sample_dataset (params : dict pyval) : Dataset pyval :=
  {| train_frames := PList [PInt 1; PInt 2; PInt 3];
     val_ts := [PInt 10; PInt 11; PInt 12; PInt 13; PInt 14; PInt 15];
     test_ts := [PInt 20; PInt 21; PInt 22; PInt 23];
     optional_params := params;
     optional_params_list := [] |}.

(** An ordinal dataset. *)
Definition ordinal_dataset : Dataset pyval :=
  sample_dataset [("is_ordinal", PBool true); ("bins", sample_bins)].

(** An attractor dataset with an ordinal representation. *)
Definition attractor_ordinal_dataset : Dataset pyval :=
  sample_dataset [("is_attractor", PBool true); ("is_ordinal", PBool true); ("bins", sample_bins)].

(** An array dataset. *)
Definition array_dataset : Dataset pyval :=
  sample_dataset [("is_array", PBool true); ("bins", sample_bins)].

(** Two fields over two time steps. *)
Definition raw_fields : dict pyval :=
  [("ordinal_pdf", PList [PList [PInt 1; PInt 2]; PList [PInt 3; PInt 4]]);
   ("draws", PList [PInt 7; PInt 8])].

(** The raw output of a mixture model. *)
Definition raw_mixture : dict pyval :=
  [("draws", PList [PInt 7; PInt 8]);
   ("mvar_x_ranges", PList [PList [PInt 0; PInt 1]])].

(** ** The directory layout of an experiment *)

Definition subdirectories : list string := ["models"; "logs"; "predictions"; "plots"].

(** A directory tree contains the parent of every directory in it. *)
Definition has_parent (t : tree) (n : bool * list string) : bool :=
  (length n.2 <=? 1)%nat || bool_decide ((n.1, removelast n.2) ∈ t).

Definition prefix_closed (t : tree) : Prop :=
  forallb (has_parent t) (elements t) = true.

Section Layout.
Context {V : Type} {M : Type}.

(** "[start_experiment] ensures the four subdirectories exist": after
    the call each of them is a directory. *)
Definition ensures_subdirectories (self : Session) (dataset : Dataset V)
    (StrategyClass : StrategyClass V M) (t : tree) : Prop :=
  forall sub, sub ∈ subdirectories ->
    is_dir (norm_path (directory self ++ strategy_id StrategyClass ++ "/" ++ sub ++ "/"))
           (final (start_experiment self dataset StrategyClass t)) = true.
End Layout.

(** ** Event logs *)

Section Logs.
Context {V : Type}.

(** Calls into the strategy. *)
Definition is_model_call (e : event V) : bool :=
  match e with
  | StrategyLoad _ | StrategyNew _ | Fit | Save _ | Predict _ _ => true
  | _ => false
  end.

Definition is_fit_or_predict (e : event V) : bool :=
  match e with
  | Fit | Predict _ _ => true
  | _ => false
  end.

(** "The failure occurs before any model call". *)
Definition fails_before_any_model_call {S A} (o : outcome (event V) S A) : Prop :=
  res o = Raise AssertionError /\ forallb (fun e => negb (is_model_call e)) (log o) = true.

(** The inputs handed to [predict], in call order. *)
Fixpoint predict_inputs (l : list (event V)) : list (list (list V)) :=
  match l with
  | [] => []
  | Predict input _ :: l' => input :: predict_inputs l'
  | _ :: l' => predict_inputs l'
  end.

(** The scores a metric was given, in evaluation order. *)
Fixpoint scores_of (m : string) (l : list (event V)) : list Q :=
  match l with
  | [] => []
  | Evaluated m' (Ok q) :: l' => if decide (m = m') then q :: scores_of m l' else scores_of m l'
  | _ :: l' => scores_of m l'
  end.
End Logs.



(** ** A sample strategy, test and experiment *)

Record toy_model := {
  toy_seed : Z;
  toy_name : string;
  toy_fitted : bool
}.

Fixpoint unary (n : nat) : string :=
  match n with
  | O => ""
  | S n' => String "x" (unary n')
  end.

Definition toy_filename (s : gmap string (specval pyval)) : string :=
  match s !! "seed" with
  | Some (Hyper (PInt z)) => "toy_seed_" ++ pretty z
  | _ => "toy"
  end.

(** A strategy whose only hyperparameter is its seed length; its model
    file holds the seed length in unary, its forecast repeats the input
    and names the seed length. *)
Definition toy_strategy : StrategyClass pyval toy_model := {|
  strategy_id := "toy";
  get_filename := toy_filename;
  strategy_load := fun fname d =>
    match d !! fname with
    | Some (Raw bytes) =>
        Ok {| toy_seed := Z.of_nat (String.length bytes); toy_name := fname; toy_fitted := true |}
    | _ => Raise (ExternalError "load")
    end;
  strategy_new := fun s =>
    match s !! "seed" with
    | Some (Hyper (PInt z)) =>
        Ok {| toy_seed := z; toy_name := toy_filename s; toy_fitted := false |}
    | _ => Raise TypeError
    end;
  fit := fun m _ _ =>
    Ok {| toy_seed := toy_seed m; toy_name := toy_name m; toy_fitted := true |};
  save := fun m dir d => Ok (<[dir ++ toy_name m := Raw (unary (Z.to_nat (toy_seed m)))]> d);
  seed_length := toy_seed;
  predict := fun m input _ _ =>
    Ok [("mean", PList (map PList input)); ("seed", PInt (toy_seed m))]
|}.

(** The same strategy with a [fit] that raises. *)
Definition unfittable_strategy : StrategyClass pyval toy_model := {|
  strategy_id := "toy";
  get_filename := toy_filename;
  strategy_load := strategy_load toy_strategy;
  strategy_new := strategy_new toy_strategy;
  fit := fun _ _ _ => Raise (ExternalError "fit");
  save := save toy_strategy;
  seed_length := toy_seed;
  predict := predict toy_strategy
|}.

(** The same strategy with a [predict] that raises. *)
Definition unpredictable_strategy : StrategyClass pyval toy_model := {|
  strategy_id := "toy";
  get_filename := toy_filename;
  strategy_load := strategy_load toy_strategy;
  strategy_new := strategy_new toy_strategy;
  fit := fit toy_strategy;
  save := save toy_strategy;
  seed_length := toy_seed;
  predict := fun _ _ _ _ => Raise (ExternalError "predict")
|}.

Definition Qgtb (new best : Q) : bool := negb (Qle_bool new best).

(** A test that scores a forecast by the seed length it names: 0.4 for
    seed 1, 0.9 for seed 2, 0.6 for seed 3; higher is better. *)
Definition seed_score (o : pyobj pyval) : result Q :=
  match o with
  | OPred (GaussianPrediction _ kwargs) =>
      match dict_get kwargs "seed" with
      | Some (PInt 1) => Ok (4 # 10)
      | Some (PInt 2) => Ok (9 # 10)
      | Some (PInt 3) => Ok (6 # 10)
      | Some (PInt z) => Ok (inject_Z z)
      | _ => Raise TypeError
      end
  | _ => Raise TypeError
  end.

Definition seed_test : TestDefinition pyval := {|
  metric := "score";
  test_id := "seed_test";
  eval := seed_score;
  compare := Qgtb;
  test_eval_kwargs := []
|}.

(** Predictions without plot methods. *)
Definition no_plot_method (p : pyobj pyval) (plot_key : string)
  : option (dict pyval -> result unit) := None.

Definition toy_experiment (S : StrategyClass pyval toy_model) : StrategyExperiment pyval toy_model :=
  {| dataset := sample_dataset []; folder := "s/toy/"; Strategy := S |}.

Definition toy_session : Session :=
  {| directory := "s/";
     experiments_directory := "s/experiments/";
     datasets_directory := "s/datasets/" |}.

(** A session directory in which the strategy's directory exists and is
    empty. *)
Definition tree_with_empty_home : tree := {[ (false, ["s"]); (false, ["s"; "toy"]) ]}.

(** A run of [choose_model] of the toy experiment with the seed test on
    an empty disk, no plots requested. *)
Definition toy_run (S : StrategyClass pyval toy_model) (seeds : list Z) (prediction_index : Z)
  : outcome (event pyval) (frame pyval toy_model) (gmap string (option nat)) :=
  choose_model no_plot_method (toy_experiment S) [seed_test] ["seed"]
               (map (fun z => [PInt z]) seeds) prediction_index 2 (PlotsDict [])
               [] [] "val" [] None (entry ∅ [] None).

(** ** Frame conditions

    A relation between the state before, the state after and the events
    logged in between; a computation respects it when every run, whether
    it returns or raises, is in the relation. *)
Definition respects {E S A : Type} (R : S -> S -> list E -> Prop) (m : SE E S A) : Prop :=
  forall s, R s (final (m s)) (log (m s)).

(** The relation holds of doing nothing and of doing one thing after
    another. *)
Class Composable {E S : Type} (R : S -> S -> list E -> Prop) : Prop := {
  composable_refl : forall s, R s s [];
  composable_trans : forall s s' s'' l l',
      R s s' l -> R s' s'' l' -> R s s'' (l ++ l')%list
}.

(** The computation leaves a projection of the state as it found it and
    logs only events of a class. *)
Definition unchanged {E S X : Type} (proj : S -> X) (quiet : E -> bool)
  : S -> S -> list E -> Prop :=
  fun s s' l => proj s' = proj s /\ forallb quiet l = true.

(** The model input of [choose_model] is assigned at most once, and every
    [predict] call is given the value it then has. *)
Definition single_input {V M : Type} : frame V M -> frame V M -> list (event V) -> Prop :=
  fun s s' l =>
    match model_input s with
    | Some x => model_input s' = Some x /\ Forall (eq x) (predict_inputs l)
    | None => (model_input s' = None /\ predict_inputs l = []) \/
              (exists x, model_input s' = Some x /\ Forall (eq x) (predict_inputs l))
    end.

(** ** The input of [predict] *)

Definition not_predict {V : Type} (e : event V) : bool :=
  match e with Predict _ _ => false | _ => true end.

Section ModelInputs.
Context {V : Type} `{PyValue V} {M : Type}.
Context (self : StrategyExperiment V M).

(** The input that [predict] is given at a grid point: the stored one
    if there is one, else the seed window of this point's model. *)
Definition input_for (ts : list V) (idx : Z) (m : M) (s : frame V M) : list (list V) :=
  match model_input s with
  | Some x => x
  | None => [py_slice ts (idx - seed_length (Strategy self) m) idx]
  end.

Definition with_input (ts : list V) (idx : Z) (m : M) (s : frame V M) : frame V M :=
  match model_input s with
  | Some _ => s
  | None => set_model_input (Some (input_for ts idx m s)) s
  end.
End ModelInputs.

(** ** The cache of a grid point *)

Section Cache.
Context {V : Type} `{PyValue V} {M : Type}.

Definition is_raw (o : option (file V)) : bool :=
  match o with Some (Raw _) => true | _ => false end.

(** The frame after the spec report was looked for. *)
Definition spec_loaded (o : option (file V)) (s : frame V M) : frame V M :=
  match o with
  | Some (Pickle ob) => set_spec (Some (length (heap s))) (set_heap (heap s ++ [ob])%list s)
  | _ => s
  end.

(** The frame after the fresh spec of a grid point was bound. *)
Definition fresh_spec (spec0 : gmap string (specval V)) (s : frame V M) : frame V M :=
  set_pred_loaded false
    (set_spec (Some (length (heap s))) (set_heap (heap s ++ [OSpec spec0])%list s)).

(** A disk on which what cannot be loaded is absent. *)
Definition without_unreadable (sf pf : string) (d : gmap string (file V))
  : gmap string (file V) :=
  if is_raw (d !! sf) then delete sf (delete pf d) else delete pf d.
End Cache.

(** ** Scoring *)

Section Scoring.
Context {V : Type} `{PyValue V} {M : Type}.

(** [best is None or test.compare(new, best)] *)
Definition improves (t : TestDefinition V) (best : option Q) (q : Q) : bool :=
  match best with
  | None => true
  | Some b => compare t q b
  end.

(** The frame after a test scored [q] on the spec at [l]. *)
Definition scored_frame (t : TestDefinition V) (l : nat) (sp : gmap string (specval V))
    (q : Q) (best : option Q) (s : frame V M) : frame V M :=
  let s1 := set_heap (<[l := OSpec (<[metric t := Score q]> sp)]> (heap s)) s in
  if improves t best q
  then set_best_results (<[metric t := Some q]> (best_results s))
                        (set_best_strategy (<[metric t := Some l]> (best_strategy s)) s1)
  else s1.

Definition score_events (t : TestDefinition V) (q : Q) (best : option Q) : list (event V) :=
  Evaluated (metric t) (Ok q)
    :: (if improves t best q
        then [Print MsgNewBest; Print (MsgMetric (metric t) q)]
        else []).

(** The local variables that fitting and predicting do not assign. *)
Definition locals (s : frame V M) :=
  (heap s, spec s, best_results s, best_strategy s, prediction s,
   pred_loaded_successfully s, model_input s).
End Scoring.

(** ** What a grid point leaves in the spec report *)

Section Reports.
Context {V : Type} `{PyValue V} {M : Type}.
Context (plot_method : pyobj V -> string -> option (dict V -> result unit)).

(** The spec after every test stored its score of prediction [op]. *)
Definition with_scores (tests : list (TestDefinition V)) (op : pyobj V)
    (sp : gmap string (specval V)) : gmap string (specval V) :=
  foldl (fun d t => match eval t op with
                    | Ok q => <[metric t := Score q]> d
                    | Raise _ => d
                    end) sp tests.

Definition scored_object (tests : list (TestDefinition V)) (op ob : pyobj V) : pyobj V :=
  match ob with
  | OSpec sp => OSpec (with_scores tests op sp)
  | OPred _ => ob
  end.

Definition is_dict (ob : pyobj V) : bool :=
  match ob with OSpec _ => true | OPred _ => false end.

(** The requested plots can all be drawn, or are unavailable. *)
Definition plot_ok (op : pyobj V) (item : string * dict V) : bool :=
  match plot_method op item.1 with
  | Some plot_eval => is_ok (plot_eval item.2)
  | None => true
  end.

Definition plots_ok (plots : plots_arg V) (op : pyobj V) : bool :=
  match plots with
  | PlotsList _ => false
  | PlotsDict d => forallb (plot_ok op) d
  end.

(** The local variables that scoring and plotting do not assign. *)
Definition outside_scoring (s : frame V M) :=
  (fs s, spec s, prediction s, pred_loaded_successfully s, model s, model_input s).
End Reports.

Section CachedObjects.
Context {V : Type} `{PyValue V} {M : Type}.

(** The prediction that the load step binds, if it binds one. *)
Definition cached_prediction (sf pf : string) (d : gmap string (file V)) : option (pyobj V) :=
  if is_raw (d !! sf) then None
  else match d !! pf with
       | Some (Pickle o) => Some o
       | _ => None
       end.

(** The object that [spec] refers to after the load step. *)
Definition spec_object (spec0 : gmap string (specval V)) (sf : string)
    (d : gmap string (file V)) : pyobj V :=
  match d !! sf with
  | Some (Pickle ob) => ob
  | _ => OSpec spec0
  end.

(** The part of the frame that the load step leaves as it is. *)
Definition outside_load (s : frame V M) :=
  (fs s, best_results s, best_strategy s, model_input s, model s).
End CachedObjects.

Section EvaluationLog.
Context {V : Type}.

(** The evaluations of the tests, in call order. *)
Fixpoint evaluations (l : list (event V)) : list (string * result Q) :=
  match l with
  | [] => []
  | Evaluated m r :: l' => (m, r) :: evaluations l'
  | _ :: l' => evaluations l'
  end.

Definition not_evaluation (e : event V) : bool :=
  match e with Evaluated _ _ => false | _ => true end.
End EvaluationLog.

(** "No error is ever raised out of the loop except the seed-length
    assertion". *)
Definition only_seed_assertion_escapes {E S A} (o : outcome E S A) : Prop :=
  forall e, res o = Raise e -> e = AssertionError.

(** [best is None or compare(new, best)], over the scores in evaluation
    order, from the best stored before them. *)
Definition track_best (compare : Q -> Q -> bool) (best : option Q) (scores : list Q)
  : option Q :=
  foldl (fun best q => match best with
                       | None => Some q
                       | Some b => if compare q b then Some q else best
                       end) best scores.

(** ** Runs that return *)

(** The relation holds of every run that returns. *)
Definition respects_ok {E S A : Type} (R : S -> S -> list E -> Prop) (m : SE E S A) : Prop :=
  forall s, is_ok (res (m s)) = true -> R s (final (m s)) (log (m s)).

Section BestTracking.
Context {V M : Type}.

(** The best score of a test's metric follows the scores the metric is
    given. *)
Definition tracks_best (t : TestDefinition V)
  : frame V M -> frame V M -> list (event V) -> Prop :=
  fun s s' l =>
    forall b, best_results s !! metric t = Some b ->
              best_results s' !! metric t
              = Some (track_best (compare t) b (scores_of (metric t) l)).

(** The two tables of [choose_model] have the same keys and keep them. *)
Definition keeps_keys : frame V M -> frame V M -> list (event V) -> Prop :=
  fun s s' _ =>
    dom (best_strategy s) = dom (best_results s) ->
    dom (best_results s') = dom (best_results s) /\
    dom (best_strategy s') = dom (best_strategy s).
End BestTracking.

Section Tables.
Context {V : Type}.

(** A table of [choose_model] after lines 121-123. *)
Definition init_table {A} (tests : list (TestDefinition V)) (m : gmap string (option A))
  : gmap string (option A) :=
  foldl (fun m t => <[metric t := None]> m) m tests.
End Tables.

(** A property of the state that a run keeps. *)
Definition preserves {E S : Type} (P : S -> Prop) : S -> S -> list E -> Prop :=
  fun s s' _ => P s -> P s'.

Section Ownership.
Context {V M : Type}.



End Ownership.

(** The file name of the toy spec with seed 1, and the files of its grid
    point with forecast start 4 and horizon 2. *)
Abbreviation toy_fname :=
  (get_filename (Strategy (toy_experiment toy_strategy)) (dict_of_zip ["seed"] [PInt 1])).

Abbreviation toy_spec_file :=
  (spec_fname (toy_experiment toy_strategy) "val" toy_fname).

Abbreviation toy_prediction_file :=
  (prediction_fname (toy_experiment toy_strategy) "val" 4 2 toy_fname).

(** A disk on which the prediction file is not a pickle. *)
Definition corrupt_prediction_disk : gmap string (file pyval) :=
  {[ toy_prediction_file := Raw "garbage" ]}.

(** The local variables of the toy run before its first grid point. *)
Definition toy_frame (d : gmap string (file pyval)) : frame pyval toy_model :=
  final (seq_each [seed_test] init_best (entry d [] None)).

(** The toy grid point with seed 1, forecast start 4 and horizon 2. *)
Abbreviation toy_point :=
  (grid_point no_plot_method (toy_experiment toy_strategy) [seed_test] ["seed"] 4 2
              (PlotsDict []) [] [] "val" []
              (series_for (toy_experiment toy_strategy) "val" None) [PInt 1]).

(** ** [run_tests] *)

Section RunTests.
Context {V : Type} `{PyValue V} {M : Type}.

(** What [run_tests] does to the outside, in program order. *)
Inductive test_event :=
| TPredict (kwargs : dict V)
| TEvaluated (key : string) (score : result Q)
| TPlotUnavailable (plot_key : string)
| TPlotCall (plot_key : string)
| TSavefig (fname : string)
| TClf
| TPprint (res : dict Q).

(** The state of [run_tests] is the disk; [res] is carried by the loop. *)
Definition RT := SE test_event (gmap string (file V)).

Variable plot_method : pyobj V -> string -> option (dict V -> result unit).

(** Line 223: the model is an argument of [run_tests], and its
    [predict] is called with the keyword arguments [test.eval_kwargs]
    only. *)
Variable predict_kw : M -> dict V -> result (dict V).

Variable self : StrategyExperiment V M.

Definition rt_isfile (name : string) : RT bool :=
  let! d := get in
  ret (match d !! name with Some _ => true | None => false end).

Definition rt_load (name : string) : RT (pyobj V) :=
  let! d := get in
  match d !! name with
  | Some (Pickle o) => ret o
  | Some (Raw _) => raise UnpicklingError
  | None => raise (ExternalError "FileNotFoundError")
  end.

Definition rt_dump (o : pyobj V) (name : string) : RT unit :=
  let! d := get in
  put (<[name := Pickle o]> d).

(** Line 218. *)
Definition test_prediction_fname (test : TestDefinition V) : string :=
  folder self ++ "predictions/" ++ test_id test.

(** Line 229: ['{}_{}'.format(test.metric, test.id)]. *)
Definition result_key (test : TestDefinition V) : string :=
  metric test ++ "_" ++ test_id test.

(** Lines 219-227. *)
Definition test_prediction (model : M) (pred_kwargs : dict V) (test : TestDefinition V)
  : RT (pyobj V) :=
  let pred_fname := test_prediction_fname test in
  let! present := rt_isfile pred_fname in
  if present : bool then rt_load pred_fname
  else
    run! emit (TPredict (test_eval_kwargs test)) in
    let! raw := lift (predict_kw model (test_eval_kwargs test)) in
    let! p := lift (res (build_prediction (dataset self) pred_kwargs raw)) in
    run! rt_dump (OPred p) pred_fname in
    ret (OPred p).

(** Lines 232-241, one requested plot. *)
Definition test_plot (test : TestDefinition V) (prediction : pyobj V)
    (item : string * dict V) : RT unit :=
  match plot_method prediction item.1 with
  | None => emit (TPlotUnavailable item.1)
  | Some plot_eval =>
      run! emit (TPlotCall item.1) in
      run! lift (plot_eval item.2) in
      run! emit (TSavefig (folder self ++ "plots/" ++ item.1 ++ "_" ++ test_id test ++ ".pdf")) in
      emit TClf
  end.

(** Lines 218-241: the body of the loop over the tests. *)
Definition test_step (model : M) (plots : plots_arg V) (pred_kwargs : dict V)
    (test : TestDefinition V) (res : dict Q) : RT (dict Q) :=
  let! prediction := test_prediction model pred_kwargs test in
  run! emit (TEvaluated (result_key test) (eval test prediction)) in
  let! score := lift (eval test prediction) in
  let res := dict_set res (result_key test) score in
  let! items := match plots with
                | PlotsList _ => raise (AttributeError "items")
                | PlotsDict d => ret d
                end in
  run! for_each items (fun item _ => test_plot test prediction item) tt in
  ret res.

(** [StrategyExperiment.run_tests], lines 207-246. *)
Definition run_tests (model : M) (tests : list (TestDefinition V)) (plots : plots_arg V)
    (pred_kwargs : dict V) : RT (dict Q) :=
  let! res := for_each tests (test_step model plots pred_kwargs) [] in
  run! emit (TPprint res) in
  ret res.
End RunTests.
Arguments test_event V : clear implicits.
Arguments RT V : clear implicits.

Definition is_test_predict {V : Type} (e : test_event V) : bool :=
  match e with TPredict _ => true | _ => false end.

Section RunTestsFrame.
Context {V : Type} `{PyValue V} {M : Type}.
Context (self : StrategyExperiment V M).

(** What a run of [run_tests] over [tests] may do to the disk and when it
    may call [predict]: files are only added, a new file is the pickled
    prediction of a test, and [predict] is called only for a test whose
    prediction file is missing. *)
Definition fills_cache (tests : list (TestDefinition V))
  : gmap string (file V) -> gmap string (file V) -> list (test_event V) -> Prop :=
  fun d d' l =>
    d ⊆ d' /\
    (forall name f, d !! name = None -> d' !! name = Some f ->
       exists t p, In t tests /\ name = test_prediction_fname self t /\ f = Pickle (OPred p)) /\
    (forall kw, In (TPredict kw) l ->
       exists t, In t tests /\ kw = test_eval_kwargs t /\
                 d !! test_prediction_fname self t = None).
End RunTestsFrame.

(** The calls that train a new model. *)
Definition is_training {V : Type} (e : event V) : bool :=
  match e with
  | StrategyNew _ | Fit | Save _ => true
  | _ => false
  end.

(** ** The session directory *)

(** Lines 17-18: the directory name with its closing slash. *)
Definition with_slash (directory : string) : string :=
  match last_char directory with
  | Some c => if decide (c = "/"%char) then directory else directory ++ "/"
  | None => directory
  end.

(** The session object of a directory name, lines 20 and 31-32. *)
Definition session_at (directory : string) : Session :=
  {| directory := directory;
     experiments_directory := directory ++ "experiments/";
     datasets_directory := directory ++ "datasets/" |}.

(** ** Sample inputs of [run_tests] and of the plot loop *)

(** A [predict] that is given keyword arguments only: the forecast names
    the model's seed length and repeats the arguments. *)
Definition toy_predict_kw (m : toy_model) (kwargs : dict pyval) : result (dict pyval) :=
  Ok (("seed", PInt (toy_seed m)) :: kwargs).

Definition fitted_toy : toy_model :=
  {| toy_seed := 2; toy_name := "toy_seed_2"; toy_fitted := true |}.


(** [run_tests] of the toy experiment with the seed test, no plots. *)
Abbreviation toy_tests_run model d :=
  (run_tests no_plot_method toy_predict_kw (toy_experiment toy_strategy) model
             [seed_test] (PlotsDict []) [] d).

(** A disk on which the prediction file of the seed test is not a pickle. *)
Definition unreadable_test_disk : gmap string (file pyval) :=
  {[ test_prediction_fname (toy_experiment toy_strategy) seed_test := Raw "garbage" ]}.

(** A disk that holds a report of the toy grid point naming seed 3. *)
Definition reported_disk : gmap string (file pyval) :=
  {[ toy_spec_file := Pickle (OSpec {[ "seed" := Hyper (PInt 3) ]}) ]}.

(** A disk that holds the model file of the toy grid point. *)
Definition saved_model_disk : gmap string (file pyval) :=
  {[ model_fname (toy_experiment toy_strategy) toy_fname := Raw "x" ]}.

(** Predictions whose only plot method, [bad], raises. *)
Definition failing_plot_method (p : pyobj pyval) (plot_key : string)
  : option (dict pyval -> result unit) :=
  if decide (plot_key = "bad") then Some (fun _ => Raise (ExternalError "plot")) else None.

(** The frame after the toy grid point ran on an empty disk, and the
    prediction and the spec it leaves. *)
Abbreviation toy_scored := (final (toy_point (toy_frame ∅))).

Definition toy_prediction : pyobj pyval :=
  OPred (GaussianPrediction [] [("mean", PList [PList [PInt 13]]); ("seed", PInt 1)]).

Definition toy_scored_spec : pyobj pyval :=
  OSpec (<["score" := Score (4 # 10)]> (dict_of_zip ["seed"] [PInt 1])).

(** A dataset of two series with their own bins. *)
Definition list_dataset : Dataset pyval :=
  {| train_frames := PList [];
     val_ts := [];
     test_ts := [];
     optional_params := [("is_list", PBool true)];
     optional_params_list := [[("bins", sample_bins)]; [("bins", PList [PInt 5])]] |}.

(** * Properties *)

Local Open Scope list_scope.

(** ** The monad *)

Section MonadFacts.
Context {E S : Type}.
Implicit Types (s : S).

Lemma outcome_eta {A} (o : outcome E S A) : Outcome (res o) (final o) (log o) = o.
Proof. destruct o; reflexivity. Qed.

Lemma bind_res_ok {A B} (m : SE E S A) (k : A -> SE E S B) s b :
  res (bind m k s) = Ok b ->
  exists a, res (m s) = Ok a /\ res (k a (final (m s))) = Ok b.
Proof.
  unfold bind. destruct (res (m s)) as [a|e] eqn:Hm; simpl; [eauto | discriminate].
Qed.

Lemma bind_ok {A B} (m : SE E S A) (k : A -> SE E S B) s a :
  res (m s) = Ok a ->
  bind m k s = Outcome (res (k a (final (m s)))) (final (k a (final (m s))))
                       (log (m s) ++ log (k a (final (m s)))).
Proof. unfold bind. intros ->. reflexivity. Qed.

Lemma bind_raise {A B} (m : SE E S A) (k : A -> SE E S B) s e :
  res (m s) = Raise e ->
  bind m k s = Outcome (Raise e) (final (m s)) (log (m s)).
Proof. unfold bind. intros ->. reflexivity. Qed.

Lemma bind_get {B} (k : S -> SE E S B) s : bind get k s = k s s.
Proof. unfold bind, get. simpl. apply outcome_eta. Qed.

Lemma bind_ret {A B} (a : A) (k : A -> SE E S B) s : bind (ret a) k s = k a s.
Proof. unfold bind, ret. simpl. apply outcome_eta. Qed.

Lemma bind_put {B} (k : unit -> SE E S B) s s' : bind (put s') k s = k tt s'.
Proof. unfold bind, put. simpl. apply outcome_eta. Qed.

Lemma bind_lift_ok {A B} (a : A) (k : A -> SE E S B) s : bind (lift (Ok a)) k s = k a s.
Proof. unfold bind, lift. simpl. apply outcome_eta. Qed.

Lemma bind_lift_raise {A B} e (k : A -> SE E S B) s :
  bind (lift (Raise e)) k s = Outcome (Raise e) s [].
Proof. reflexivity. Qed.

Lemma bind_emit {B} (e : E) (k : unit -> SE E S B) s :
  bind (emit e) k s = Outcome (res (k tt s)) (final (k tt s)) (e :: log (k tt s)).
Proof. reflexivity. Qed.

Lemma bind_assoc {A B C} (m : SE E S A) (k : A -> SE E S B) (h : B -> SE E S C) s :
  bind (bind m k) h s = bind m (fun a => bind (k a) h) s.
Proof.
  unfold bind. destruct (res (m s)); simpl; [|reflexivity].
  destruct (res (k a (final (m s)))); simpl; [|reflexivity].
  by rewrite app_assoc.
Qed.
End MonadFacts.

(** ** Dictionaries *)

Section DictFacts.
Context {A : Type}.
Implicit Types (d : dict A) (k : string).

Lemma dict_get_set_eq d k v : dict_get (dict_set d k v) k = Some v.
Proof.
  induction d as [|[k' v'] d IH]; simpl.
  - by rewrite decide_True.
  - destruct (decide (k = k')) as [->|Hne]; simpl.
    + by rewrite decide_True.
    + by rewrite decide_False.
Qed.

Lemma dict_get_set_ne d k k' v : k <> k' -> dict_get (dict_set d k v) k' = dict_get d k'.
Proof.
  intros Hne. induction d as [|[k0 v0] d IH]; simpl.
  - by rewrite decide_False.
  - destruct (decide (k = k0)) as [->|Hne0]; simpl.
    + by rewrite !decide_False.
    + by rewrite IH.
Qed.

(** Assigning to a key that sits behind a prefix without it. *)
Lemma dict_set_behind (pre rest : dict A) k v v' :
  k ∉ dict_keys pre ->
  dict_set (pre ++ (k, v) :: rest) k v' = pre ++ (k, v') :: rest.
Proof.
  unfold dict_keys. induction pre as [|[k0 v0] pre IH]; simpl; intros Hk.
  - by rewrite decide_True.
  - apply not_elem_of_cons in Hk as [Hne Hk].
    rewrite decide_False by done. f_equal. by apply IH.
Qed.
End DictFacts.

(** ** [build_prediction] *)

Section BuildPredictionFacts.
Context {V : Type} `{PyValue V}.
Implicit Types (ds : Dataset V) (p args : dict V).

Local Arguments flag : simpl never.

Lemma subscript_set_ne p k k' v : k <> k' -> subscript (dict_set p k v) k' = subscript p k'.
Proof. intros Hne. unfold subscript. by rewrite dict_get_set_ne. Qed.

Lemma flag_true_get p k : flag p k = true -> exists v, dict_get p k = Some v.
Proof. unfold flag. destruct (dict_get p k); [eauto | discriminate]. Qed.

(** The attractor loop writes nothing to the log. *)
Lemma for_items_log (items : list (string * V)) p : log (for_items items p) = [].
Proof.
  revert p. induction items as [|[k v] items IH]; intros p; [reflexivity|].
  simpl. unfold take_last_step. rewrite bind_assoc. simpl.
  destruct (take_last v) as [v'|e]; [|reflexivity].
  rewrite bind_lift_ok. unfold pred_setitem. rewrite bind_assoc, bind_get, bind_put.
  apply IH.
Qed.

(** On a dictionary (no key twice) the loop replaces every value by its
    last time step, in place. *)
Lemma for_items_ok (pre items items' : dict V) :
  NoDup (dict_keys (pre ++ items)) ->
  last_steps items = Ok items' ->
  for_items items (pre ++ items) = Outcome (Ok tt) (pre ++ items') [].
Proof.
  revert pre items'. induction items as [|[k v] items IH]; intros pre items' Hnd Hls.
  - simpl in Hls. injection Hls as <-. reflexivity.
  - simpl in Hls. destruct (take_last v) as [v'|e] eqn:Hv; [|discriminate].
    simpl in Hls. destruct (last_steps items) as [items0|e] eqn:Hrest; [|discriminate].
    simpl in Hls. injection Hls as <-.
    simpl. unfold take_last_step. rewrite bind_assoc. simpl. rewrite Hv, bind_lift_ok.
    unfold pred_setitem. rewrite bind_assoc, bind_get, bind_put.
    assert (Hk : k ∉ dict_keys pre).
    { unfold dict_keys in *. rewrite fmap_app in Hnd.
      apply NoDup_app in Hnd as (_ & Hdisj & _). intros Hin.
      apply (Hdisj _ Hin). simpl. left. }
    rewrite dict_set_behind by done.
    replace (pre ++ (k, v') :: items) with ((pre ++ [(k, v')]) ++ items)
      by (by rewrite <- app_assoc).
    rewrite IH with (items' := items0); [by rewrite <- app_assoc | | done].
    unfold dict_keys in *. rewrite <- app_assoc. simpl.
    rewrite !fmap_app in *. simpl in *. done.
Qed.

(** When a field has no last time step the loop raises. *)
Lemma for_items_raise (pre items : dict V) e :
  NoDup (dict_keys (pre ++ items)) ->
  last_steps items = Raise e ->
  res (for_items items (pre ++ items)) = Raise e.
Proof.
  revert pre. induction items as [|[k v] items IH]; intros pre Hnd Hls; [discriminate|].
  simpl in Hls. simpl. unfold take_last_step. rewrite bind_assoc. simpl.
  destruct (take_last v) as [v'|e'] eqn:Hv.
  - simpl in Hls. destruct (last_steps items) as [items0|e0] eqn:Hrest; [discriminate|].
    simpl in Hls. injection Hls as <-.
    rewrite bind_lift_ok. unfold pred_setitem. rewrite bind_assoc, bind_get, bind_put.
    assert (Hk : k ∉ dict_keys pre).
    { unfold dict_keys in *. rewrite fmap_app in Hnd.
      apply NoDup_app in Hnd as (_ & Hdisj & _). intros Hin.
      apply (Hdisj _ Hin). simpl. left. }
    rewrite dict_set_behind by done.
    replace (pre ++ (k, v') :: items) with ((pre ++ [(k, v')]) ++ items)
      by (by rewrite <- app_assoc).
    apply IH; [|done].
    unfold dict_keys in *. rewrite <- app_assoc. simpl.
    rewrite !fmap_app in *. simpl in *. done.
  - simpl in Hls. injection Hls as <-. reflexivity.
Qed.

(** The list comprehension reads the dictionary and leaves it alone. *)
Lemma comprehension_pure ds (xs : list nat) p :
  final (comprehension (ordinal_at ds) xs p) = p /\
  log (comprehension (ordinal_at ds) xs p) = [].
Proof.
  assert (Hone : forall i, final (ordinal_at ds i p) = p /\ log (ordinal_at ds i p) = []).
  { intros i. unfold ordinal_at, pred_item.
    rewrite bind_assoc, bind_get.
    destruct (subscript p "ordinal_pdf") as [pdf|e]; [rewrite bind_lift_ok|done].
    destruct (getitem pdf i) as [pdf_i|e]; [rewrite bind_lift_ok|done].
    rewrite bind_assoc, bind_get.
    destruct (subscript p "draws") as [draws|e]; [rewrite bind_lift_ok|done].
    destruct (getitem draws i) as [draws_i|e]; [rewrite bind_lift_ok|done].
    destruct (list_index (optional_params_list ds) i) as [params|e];
      [rewrite bind_lift_ok|done].
    destruct (subscript params "bins") as [bins|e]; [rewrite bind_lift_ok|done].
    done. }
  induction xs as [|x xs IH]; [done|].
  simpl. destruct (Hone x) as [Hf Hl]. destruct IH as [IHf IHl].
  destruct (res (ordinal_at ds x p)) as [y|e] eqn:Hy.
  - rewrite (bind_ok _ _ _ _ Hy). simpl. rewrite Hf, Hl.
    destruct (res (comprehension (ordinal_at ds) xs p)) as [ys|e] eqn:Hys.
    + rewrite (bind_ok _ _ _ _ Hys). simpl. by rewrite IHf, IHl.
    + rewrite (bind_raise _ _ _ _ Hys). simpl. by rewrite IHf, IHl.
  - rewrite (bind_raise _ _ _ _ Hy). simpl. by rewrite Hf, Hl.
Qed.
End BuildPredictionFacts.

Section BuildPrediction.
Context {V : Type} `{PyValue V}.
Implicit Types (ds : Dataset V) (p args : dict V).

Local Arguments flag : simpl never.


(** From the first satisfied level to the value of each flag before it. *)
Local Ltac flags_of Hf :=
  unfold first_satisfied, priority_order in Hf; simpl in Hf;
  repeat match type of Hf with
         | context [if ?b then _ else _] => destruct b eqn:?; try discriminate Hf
         end.

Local Ltac use_flags :=
  unfold build_prediction; rewrite bind_get;
  repeat match goal with
         | Hx : flag _ _ = _ |- _ => rewrite Hx
         end.





Lemma build_prediction_default ds args p :
  first_satisfied ds args p = None ->
  build_prediction ds args p = Outcome (Ok (GaussianPrediction [] p)) p [].
Proof.
  intros Hf. flags_of Hf. use_flags. rewrite bind_ret, bind_get. reflexivity.
Qed.

Lemma build_prediction_single_body ds args p b :
  first_satisfied ds args p = Some b -> b <> IsAttractor ->
  log (build_prediction ds args p) = [b].
Proof.
  intros Hf Hb. flags_of Hf; injection Hf as <-; try done; use_flags.
  - rewrite bind_emit. simpl. f_equal. unfold pred_item.
    rewrite bind_assoc, bind_get.
    destruct (subscript p "draws"); [rewrite bind_lift_ok|done].
    rewrite bind_assoc, bind_get.
    destruct (subscript p "mvar_x_ranges"); [rewrite bind_lift_ok|done]. done.
  - rewrite bind_emit. simpl. f_equal. unfold pred_item, pred_setitem.
    rewrite bind_assoc, bind_get.
    destruct (subscript p "ordinal_pdf") as [pdf|]; [rewrite bind_lift_ok|done].
    destruct (getitem pdf 0); [rewrite bind_lift_ok|done].
    rewrite bind_assoc, bind_get, bind_put, bind_assoc, bind_get.
    destruct (subscript _ "draws") as [draws|]; [rewrite bind_lift_ok|done].
    destruct (getitem draws 0); [rewrite bind_lift_ok|done].
    rewrite bind_assoc, bind_get, bind_put.
    destruct (subscript args "ar_quant"); [rewrite bind_lift_ok|done].
    rewrite bind_get. done.
  - rewrite bind_emit. simpl. f_equal. unfold pred_item.
    rewrite bind_assoc, bind_get.
    destruct (subscript p "ordinal_pdf") as [pdf|]; [rewrite bind_lift_ok|done].
    destruct (py_len pdf) as [n|]; [rewrite bind_lift_ok|done].
    destruct (comprehension_pure ds (seq 0 n) p) as [Hfin Hlog].
    destruct (res (comprehension (ordinal_at ds) (seq 0 n) p)) eqn:Hc.
    + rewrite (bind_ok _ _ _ _ Hc). simpl. by rewrite Hlog.
    + rewrite (bind_raise _ _ _ _ Hc). simpl. by rewrite Hlog.
  - rewrite bind_emit. simpl. f_equal. unfold pred_setitem.
    destruct (subscript (optional_params ds) "bins"); [rewrite bind_lift_ok|done].
    rewrite bind_assoc, bind_get, bind_put, bind_get. done.
  - rewrite bind_emit. simpl. f_equal.
    destruct (subscript args "quant"); [rewrite bind_lift_ok|done].
    rewrite bind_get. done.
  - rewrite bind_emit. reflexivity.
  - rewrite bind_ret, bind_emit. simpl. f_equal. unfold pred_setitem.
    destruct (subscript (optional_params ds) "bins"); [rewrite bind_lift_ok|done].
    rewrite bind_assoc, bind_get, bind_put, bind_get. done.
Qed.

(** What follows the attractor body once every field has a last step. *)
Lemma build_prediction_attractor ds args p p' :
  first_satisfied ds args p = Some IsAttractor ->
  NoDup (dict_keys p) ->
  last_steps p = Ok p' ->
  build_prediction ds args p
  = if flag (optional_params ds) "is_ordinal" then
      match subscript (optional_params ds) "bins" with
      | Ok bins => Outcome (Ok (OrdinalPrediction [] (dict_set p' "bins" bins)))
                           (dict_set p' "bins" bins) [IsAttractor; IsOrdinal]
      | Raise e => Outcome (Raise e) p' [IsAttractor; IsOrdinal]
      end
    else Outcome (Ok (GaussianPrediction [] p')) p' [IsAttractor].
Proof.
  intros Hf Hnd Hls. flags_of Hf; try (injection Hf as Hf; discriminate Hf). use_flags.
  pose proof (for_items_ok [] p p' Hnd Hls) as Hloop. simpl in Hloop.
  rewrite bind_assoc, bind_emit, bind_assoc, bind_get.
  assert (Hr : res (for_items p p) = Ok tt) by (by rewrite Hloop).
  rewrite (bind_ok _ _ _ _ Hr). rewrite Hloop. simpl.
  destruct (flag (optional_params ds) "is_ordinal").
  - rewrite bind_emit. simpl.
    destruct (subscript (optional_params ds) "bins") as [bins|e].
    + rewrite bind_lift_ok. unfold pred_setitem.
      rewrite bind_assoc, bind_get, bind_put, bind_get. reflexivity.
    + reflexivity.
  - rewrite bind_get. reflexivity.
Qed.

Lemma build_prediction_attractor_raise ds args p e :
  first_satisfied ds args p = Some IsAttractor ->
  NoDup (dict_keys p) ->
  last_steps p = Raise e ->
  res (build_prediction ds args p) = Raise e /\
  log (build_prediction ds args p) = [IsAttractor].
Proof.
  intros Hf Hnd Hls. flags_of Hf; try (injection Hf as Hf; discriminate Hf). use_flags.
  pose proof (for_items_raise [] p e Hnd Hls) as Hloop. simpl in Hloop.
  rewrite bind_assoc, bind_emit, bind_assoc, bind_get.
  rewrite (bind_raise _ _ _ _ Hloop). simpl. by rewrite for_items_log.
Qed.
End BuildPrediction.

Section BuildPredictionEffects.
Context {V : Type} `{PyValue V}.
Implicit Types (ds : Dataset V) (p args : dict V).

Local Arguments flag : simpl never.

Local Ltac flags_of Hf :=
  unfold first_satisfied, priority_order in Hf; simpl in Hf;
  repeat match type of Hf with
         | context [if ?b then _ else _] => destruct b eqn:?; try discriminate Hf
         end.

Local Ltac use_flags :=
  unfold build_prediction; rewrite bind_get;
  repeat match goal with
         | Hx : flag _ _ = _ |- _ => rewrite Hx
         end.

(** C2 (amended). The cascade stops at the first flag that matches,
    except at the attractor flag: its body replaces every field by its
    last time step and does not return, so the ordinal test and the
    Gaussian default still follow it.  An input that matches no flag
    yields the raw Gaussian-style wrapper, and a call that returns has
    entered exactly the bodies of [bodies_entered]. *)
Theorem build_prediction_bodies_entered ds args p :
  NoDup (dict_keys p) ->
  (first_satisfied ds args p = None ->
   build_prediction ds args p = Outcome (Ok (GaussianPrediction [] p)) p []) /\
  (forall b, first_satisfied ds args p = Some b -> b <> IsAttractor ->
             log (build_prediction ds args p) = [b]) /\
  (first_satisfied ds args p = Some IsAttractor ->
   forall p', last_steps p = Ok p' ->
     build_prediction ds args p
     = if flag (optional_params ds) "is_ordinal" then
         match subscript (optional_params ds) "bins" with
         | Ok bins => Outcome (Ok (OrdinalPrediction [] (dict_set p' "bins" bins)))
                              (dict_set p' "bins" bins) [IsAttractor; IsOrdinal]
         | Raise e => Outcome (Raise e) p' [IsAttractor; IsOrdinal]
         end
       else Outcome (Ok (GaussianPrediction [] p')) p' [IsAttractor]) /\
  (is_ok (res (build_prediction ds args p)) = true ->
   log (build_prediction ds args p) = bodies_entered ds args p).
Proof.
  intros Hnd.
  split; [apply build_prediction_default|].
  split; [apply build_prediction_single_body|].
  split; [intros Hf p' Hls; by apply build_prediction_attractor|].
  intros Hok. unfold bodies_entered.
  destruct (first_satisfied ds args p) as [b|] eqn:Hf.
  - assert (Hcase : b = IsAttractor \/ b <> IsAttractor)
      by (destruct b; (by left) || (by right)).
    destruct Hcase as [->|Hb].
    + destruct (last_steps p) as [p'|e] eqn:Hls.
      * rewrite (build_prediction_attractor ds args p p' Hf Hnd Hls) in *.
        simpl satisfied.
        destruct (flag (optional_params ds) "is_ordinal"); [|reflexivity].
        destruct (subscript (optional_params ds) "bins"); [reflexivity|discriminate].
      * destruct (build_prediction_attractor_raise ds args p e Hf Hnd Hls) as [Hr _].
        rewrite Hr in Hok. discriminate.
    + rewrite (build_prediction_single_body ds args p b Hf Hb). by destruct b.
  - by rewrite (build_prediction_default ds args p Hf).
Qed.

(** C10. [build_prediction] updates the caller's raw prediction in
    place: in the autoregressive-quantile branch [ordinal_pdf] and
    [draws] are replaced by their first elements, in the array and the
    ordinal branch a [bins] entry is written, in the attractor branch
    every field is overwritten with its last time step; the dictionary
    left behind is the one stated, and the wrapper is built from it. *)
Theorem build_prediction_updates_argument ds args p :
  (first_satisfied ds args p = Some ArQuant ->
   forall pdf pdf0 draws draws0,
     dict_get p "ordinal_pdf" = Some pdf -> getitem pdf 0 = Ok pdf0 ->
     dict_get p "draws" = Some draws -> getitem draws 0 = Ok draws0 ->
     let p' := dict_set (dict_set p "ordinal_pdf" pdf0) "draws" draws0 in
     final (build_prediction ds args p) = p' /\
     exists quant, dict_get args "ar_quant" = Some quant /\
       res (build_prediction ds args p) = Ok (MultivariateOrdinalPrediction quant p')) /\
  (first_satisfied ds args p = Some IsArray ->
   forall bins, dict_get (optional_params ds) "bins" = Some bins ->
     final (build_prediction ds args p) = dict_set p "bins" bins /\
     res (build_prediction ds args p) = Ok (OrdinalArrayPrediction (dict_set p "bins" bins))) /\
  (first_satisfied ds args p = Some IsAttractor ->
   NoDup (dict_keys p) ->
   forall p', last_steps p = Ok p' ->
     (flag (optional_params ds) "is_ordinal" = false ->
      final (build_prediction ds args p) = p' /\
      res (build_prediction ds args p) = Ok (GaussianPrediction [] p')) /\
     (flag (optional_params ds) "is_ordinal" = true ->
      forall bins, dict_get (optional_params ds) "bins" = Some bins ->
        final (build_prediction ds args p) = dict_set p' "bins" bins /\
        res (build_prediction ds args p) = Ok (OrdinalPrediction [] (dict_set p' "bins" bins)))) /\
  (first_satisfied ds args p = Some IsOrdinal ->
   forall bins, dict_get (optional_params ds) "bins" = Some bins ->
     final (build_prediction ds args p) = dict_set p "bins" bins /\
     res (build_prediction ds args p) = Ok (OrdinalPrediction [] (dict_set p "bins" bins))).
Proof.
  split; [|split; [|split]].
  - intros Hf pdf pdf0 draws draws0 Hpdf Hpdf0 Hdraws Hdraws0 p'.
    flags_of Hf; try (injection Hf as Hf; discriminate Hf).
    destruct (flag_true_get args "ar_quant") as [quant Hq]; [done|].
    assert (Hrun : build_prediction ds args p
                   = Outcome (Ok (MultivariateOrdinalPrediction quant p')) p' [ArQuant]).
    { use_flags.
      rewrite bind_emit. unfold pred_item, pred_setitem, subscript.
      rewrite bind_assoc, bind_get, Hpdf, bind_lift_ok, Hpdf0, bind_lift_ok.
      rewrite bind_assoc, bind_get, bind_put, bind_assoc, bind_get.
      rewrite dict_get_set_ne by done. rewrite Hdraws, bind_lift_ok, Hdraws0, bind_lift_ok.
      rewrite bind_assoc, bind_get, bind_put, Hq.
      rewrite bind_lift_ok, bind_get. reflexivity. }
    rewrite Hrun. split; [reflexivity|]. by exists quant.
  - intros Hf bins Hbins.
    flags_of Hf; try (injection Hf as Hf; discriminate Hf).
    assert (Hrun : build_prediction ds args p
                   = Outcome (Ok (OrdinalArrayPrediction (dict_set p "bins" bins)))
                             (dict_set p "bins" bins) [IsArray]).
    { use_flags. rewrite bind_emit. unfold pred_setitem, subscript.
      rewrite Hbins, bind_lift_ok, bind_assoc, bind_get, bind_put, bind_get.
      reflexivity. }
    by rewrite Hrun.
  - intros Hf Hnd p' Hls.
    rewrite (build_prediction_attractor ds args p p') by done.
    split.
    + intros ->. done.
    + intros -> bins Hbins. unfold subscript. by rewrite Hbins.
  - intros Hf bins Hbins.
    flags_of Hf; try (injection Hf as Hf; discriminate Hf).
    assert (Hrun : build_prediction ds args p
                   = Outcome (Ok (OrdinalPrediction [] (dict_set p "bins" bins)))
                             (dict_set p "bins" bins) [IsOrdinal]).
    { use_flags. rewrite bind_ret, bind_emit. unfold pred_setitem, subscript.
      rewrite Hbins, bind_lift_ok, bind_assoc, bind_get, bind_put, bind_get.
      reflexivity. }
    by rewrite Hrun.
Qed.
End BuildPredictionEffects.

(** *** [build_prediction] on the sample inputs *)


(** With [is_attractor] and [is_ordinal] both set, the attractor body and
    the ordinal body both run on the same input: the fields are cut to
    their last time step and the result is the ordinal wrapper with
    [bins], where first-match-only would stop after the attractor body. *)
Lemma attractor_and_ordinal_both_fire :
  build_prediction attractor_ordinal_dataset [] raw_fields
  = Outcome (Ok (OrdinalPrediction []
                   [("ordinal_pdf", PList [PInt 2; PInt 4]); ("draws", PInt 8);
                    ("bins", sample_bins)]))
            [("ordinal_pdf", PList [PInt 2; PInt 4]); ("draws", PInt 8);
             ("bins", sample_bins)]
            [IsAttractor; IsOrdinal] /\
  first_match_only attractor_ordinal_dataset [] raw_fields = [IsAttractor] /\
  ~ exactly_one_branch_fires attractor_ordinal_dataset [] raw_fields.
Proof.
  split; [reflexivity|]. split; [reflexivity|].
  unfold exactly_one_branch_fires. vm_compute. discriminate.
Qed.

Lemma raw_fields_keys : NoDup (dict_keys raw_fields).
Proof. apply (bool_decide_unpack _). vm_compute. exact I. Defined.

Lemma build_prediction_bodies_entered_witness :
  NoDup (dict_keys raw_fields) /\
  log (build_prediction attractor_ordinal_dataset [] raw_fields) = [IsAttractor; IsOrdinal] /\
  build_prediction (sample_dataset []) [] raw_fields
  = Outcome (Ok (GaussianPrediction [] raw_fields)) raw_fields [].
Proof.
  split; [exact raw_fields_keys|]. split.
  - exact (proj2 (proj2 (proj2 (build_prediction_bodies_entered
                                  attractor_ordinal_dataset [] raw_fields raw_fields_keys)))
                 eq_refl).
  - exact (proj1 (build_prediction_bodies_entered
                    (sample_dataset []) [] raw_fields raw_fields_keys)
                 eq_refl).
Defined.

(** The caller's dictionary after the call, in the four branches. *)
Lemma build_prediction_updates_argument_witness :
  final (build_prediction (sample_dataset []) [("ar_quant", PInt 3)] raw_fields)
  = [("ordinal_pdf", PList [PInt 1; PInt 2]); ("draws", PInt 7)] /\
  final (build_prediction array_dataset [] raw_fields)
  = [("ordinal_pdf", PList [PList [PInt 1; PInt 2]; PList [PInt 3; PInt 4]]);
     ("draws", PList [PInt 7; PInt 8]); ("bins", sample_bins)] /\
  final (build_prediction attractor_ordinal_dataset [] raw_fields)
  = [("ordinal_pdf", PList [PInt 2; PInt 4]); ("draws", PInt 8); ("bins", sample_bins)] /\
  final (build_prediction ordinal_dataset [] raw_fields)
  = [("ordinal_pdf", PList [PList [PInt 1; PInt 2]; PList [PInt 3; PInt 4]]);
     ("draws", PList [PInt 7; PInt 8]); ("bins", sample_bins)].
Proof.
  split; [|split; [|split]].
  - refine (proj1 (proj1 (build_prediction_updates_argument
                            (sample_dataset []) [("ar_quant", PInt 3)] raw_fields) _
                         (PList [PList [PInt 1; PInt 2]; PList [PInt 3; PInt 4]])
                         (PList [PInt 1; PInt 2]) (PList [PInt 7; PInt 8]) (PInt 7)
                         _ _ _ _)); reflexivity.
  - refine (proj1 (proj1 (proj2 (build_prediction_updates_argument
                                   array_dataset [] raw_fields)) _ sample_bins _));
      reflexivity.
  - refine (proj1 (proj2 (proj1 (proj2 (proj2 (build_prediction_updates_argument
                                   attractor_ordinal_dataset [] raw_fields)))
                                _ raw_fields_keys
                                [("ordinal_pdf", PList [PInt 2; PInt 4]); ("draws", PInt 8)] _)
                         _ sample_bins _));
      reflexivity.
  - refine (proj1 (proj2 (proj2 (proj2 (build_prediction_updates_argument
                                   ordinal_dataset [] raw_fields))) _ sample_bins _));
      reflexivity.
Defined.

(** ** Session *)

Lemma append_String c (a b : string) : (String c a ++ b)%string = String c (a ++ b)%string.
Proof. reflexivity. Qed.

Lemma append_empty (b : string) : ("" ++ b)%string = b.
Proof. reflexivity. Qed.

Lemma string_app_assoc (a b c : string) : (a ++ (b ++ c) = (a ++ b) ++ c)%string.
Proof.
  induction a as [|x a IH]; [done|].
  by rewrite !append_String, IH.
Qed.

Lemma split_path_slash (a b cur : string) :
  split_path (a ++ String "/" b)%string cur = split_path a cur ++ split_path b "".
Proof.
  revert cur. induction a as [|c a IH]; intros cur.
  - rewrite append_empty. reflexivity.
  - rewrite append_String. simpl.
    destruct (decide (c = "/"%char)); [|apply IH].
    by rewrite IH, app_assoc.
Qed.

Lemma split_path_nonempty (s cur : string) : cur <> "" -> split_path s cur <> [].
Proof.
  revert cur. induction s as [|c s IH]; intros cur Hcur; simpl.
  - unfold flush. by rewrite decide_False.
  - destruct (decide (c = "/"%char)).
    + unfold flush. by rewrite decide_False.
    + apply IH. by destruct cur.
Qed.

Lemma is_abs_app (a b : string) : a <> "" -> is_abs (a ++ b)%string = is_abs a.
Proof. destruct a; [done|]. by rewrite append_String. Qed.

Lemma relative_has_parts (s : string) : s <> "" -> is_abs s = false -> path_parts s <> [].
Proof.
  destruct s as [|c s]; [done|]. intros _. simpl. unfold path_parts. simpl.
  destruct (decide (c = "/"%char)) as [->|Hne]; [by rewrite bool_decide_eq_false|].
  intros _. by apply split_path_nonempty.
Qed.

Lemma ancestors_snoc (l : list string) x : ancestors (l ++ [x]) = ancestors l ++ [l ++ [x]].
Proof.
  induction l as [|y l IH]; simpl; [done|].
  rewrite IH, map_app. done.
Qed.

Lemma ancestors_length (l x : list string) :
  x ∈ ancestors l -> (length x <= length l)%nat.
Proof.
  revert x. induction l as [|y l IH]; intros x; simpl.
  - by intros ?%elem_of_nil.
  - intros [->|Hin]%elem_of_cons; [simpl; lia|].
    apply list_elem_of_fmap in Hin as (x' & -> & Hin). apply IH in Hin. simpl. lia.
Qed.

Lemma ancestors_self (l : list string) : l <> [] -> l ∈ ancestors l.
Proof.
  induction l as [|y l IH]; [done|]. intros _. simpl.
  destruct l as [|z l]; [left|].
  right. apply list_elem_of_fmap. exists (z :: l). split; [done|]. by apply IH.
Qed.

Lemma prefix_closed_parent (t : tree) a (l : list string) x :
  prefix_closed t -> (a, l ++ [x]) ∈ t -> l <> [] -> (a, l) ∈ t.
Proof.
  unfold prefix_closed. rewrite forallb_forall. intros Hpc Hin Hl.
  assert (Hel : In (a, l ++ [x]) (elements t))
    by (by apply list_elem_of_In, elem_of_elements).
  apply Hpc in Hel. unfold has_parent in Hel. simpl in Hel.
  rewrite removelast_last in Hel. apply orb_prop in Hel as [Hlen|Hp].
  - apply Nat.leb_le in Hlen. rewrite length_app in Hlen. simpl in Hlen.
    destruct l; [done|simpl in Hlen; lia].
  - by apply bool_decide_eq_true in Hp.
Qed.

Lemma is_dir_true n (t : tree) : n ∈ t -> is_dir n t = true.
Proof. intros Hn. unfold is_dir. apply bool_decide_eq_true. by right. Qed.

Lemma is_dir_false n (t : tree) : n.2 <> [] -> n ∉ t -> is_dir n t = false.
Proof.
  intros Hn Ht. unfold is_dir. apply bool_decide_eq_false. intros [->|Hin]; done.
Qed.

Lemma is_dir_inv n (t : tree) : is_dir n t = false -> n.2 <> [] \/ n.1 = false.
Proof.
  unfold is_dir. intros Hd%bool_decide_eq_false. destruct n as [[] [|x l]]; simpl; auto.
Qed.

Lemma elem_of_dirs a b (l m : list string) :
  (b, m) ∈ (list_to_set (map (pair a) (ancestors l)) : tree) <-> b = a /\ m ∈ ancestors l.
Proof.
  rewrite elem_of_list_to_set, list_elem_of_fmap. split.
  - intros (x & [= -> ->] & Hx). done.
  - intros [-> Hm]. by exists m.
Qed.

Lemma makedirs_fresh q (t : tree) :
  (norm_path q).2 <> [] -> is_dir (norm_path q) t = false ->
  makedirs q t
  = Outcome (Ok tt)
            (t ∪ list_to_set (map (pair (norm_path q).1) (ancestors (norm_path q).2)))
            [Makedirs q].
Proof.
  intros Hparts Hdir. unfold makedirs. rewrite bind_emit, bind_get.
  rewrite decide_False by done. rewrite Hdir. reflexivity.
Qed.

Lemma norm_path_sub (d rest : string) :
  d <> "" ->
  norm_path (d ++ String "/" rest)%string = (is_abs d, path_parts d ++ path_parts rest).
Proof.
  intros Hd. unfold norm_path. rewrite is_abs_app by done.
  unfold path_parts. by rewrite split_path_slash.
Qed.
Section StartExperiment.
Context {V : Type} {M : Type}.

(** C7 (amended). [start_experiment] returns an experiment bound to the
  strategy's directory.  If that directory does not exist it is created
  together with [models], [logs], [predictions] and [plots]; if it
  exists nothing is created and its content is not looked at.  Calling
  it again on the resulting tree returns the same experiment, creates
  nothing and raises nothing. *)
Theorem start_experiment_idempotent (self : Session) (ds : Dataset V)
  (Sc : StrategyClass V M) (t : tree) :
directory self <> "" ->
prefix_closed t ->
let home := (directory self ++ strategy_id Sc)%string in
let o := start_experiment self ds Sc t in
res o = Ok {| dataset := ds;
              folder := (directory self ++ strategy_id Sc ++ "/")%string;
              Strategy := Sc |} /\
is_dir (norm_path home) (final o) = true /\
t ⊆ final o /\
(is_dir (norm_path home) t = true -> final o = t /\ log o = []) /\
(is_dir (norm_path home) t = false ->
 forall sub, sub ∈ subdirectories ->
   is_dir (norm_path (directory self ++ strategy_id Sc ++ "/" ++ sub ++ "/")%string)
          (final o) = true) /\
start_experiment self ds Sc (final o) = Outcome (res o) (final o) [].
Proof.
intros Hd Hpc home o.
assert (Hhome : home <> "").
{ subst home. destruct (directory self); [done|]. by rewrite append_String. }
destruct (is_dir (norm_path home) t) eqn:Hdir.
- assert (Ho : o = Outcome (Ok {| dataset := ds;
               folder := (directory self ++ strategy_id Sc ++ "/")%string;
               Strategy := Sc |}) t []).
  { subst o. unfold start_experiment, isdir.
    rewrite bind_assoc, bind_get, bind_ret. fold home. rewrite Hdir.
    rewrite bind_ret. reflexivity. }
  rewrite Ho. simpl. repeat split; done.
- set (a := is_abs home). set (l := path_parts home).
  assert (Hl : l <> []).
  { destruct (is_dir_inv _ _ Hdir) as [Hp|Ha]; [done|].
    by apply relative_has_parts. }
  assert (Hnot : (a, l) ∉ t).
  { unfold is_dir in Hdir. apply bool_decide_eq_false in Hdir.
    intros Hin. apply Hdir. by right. }
  assert (Hfresh : forall x, (a, l ++ [x]) ∉ t).
  { intros x Hin. apply Hnot. by apply (prefix_closed_parent t a l x). }
  assert (Hsub : forall rest,
             norm_path (directory self ++ strategy_id Sc ++ String "/" rest)%string
             = (a, l ++ path_parts rest)).
  { intros rest. rewrite string_app_assoc. fold home. by rewrite norm_path_sub. }
  assert (Hlen : forall x, l ++ [x] ∉ ancestors l).
  { intros x Hin%ancestors_length. rewrite length_app in Hin. simpl in Hin. lia. }
  set (t1 := t ∪ list_to_set (map (pair a) (ancestors l))).
  set (t2 := t1 ∪ list_to_set (map (pair a) (ancestors (l ++ ["models"])))).
  set (t3 := t2 ∪ list_to_set (map (pair a) (ancestors (l ++ ["logs"])))).
  set (t4 := t3 ∪ list_to_set (map (pair a) (ancestors (l ++ ["predictions"])))).
  set (t5 := t4 ∪ list_to_set (map (pair a) (ancestors (l ++ ["plots"])))).
  assert (Ho : o = Outcome (Ok {| dataset := ds;
               folder := (directory self ++ strategy_id Sc ++ "/")%string;
               Strategy := Sc |}) t5
               [Makedirs home;
                Makedirs (directory self ++ strategy_id Sc ++ "/models/")%string;
                Makedirs (directory self ++ strategy_id Sc ++ "/logs/")%string;
                Makedirs (directory self ++ strategy_id Sc ++ "/predictions/")%string;
                Makedirs (directory self ++ strategy_id Sc ++ "/plots/")%string]).
  { subst o. unfold start_experiment, isdir.
    rewrite bind_assoc, bind_get, bind_ret. fold home. rewrite Hdir.
    rewrite !bind_assoc.
    rewrite (bind_ok (makedirs home) _ t tt) by (by rewrite makedirs_fresh).
    rewrite (makedirs_fresh home t) by done. simpl. fold a l t1.
    assert (Hstep : forall x rest t',
               path_parts rest = [x] -> (a, l ++ [x]) ∉ t' ->
               makedirs (directory self ++ strategy_id Sc ++ String "/" rest)%string t'
               = Outcome (Ok tt) (t' ∪ list_to_set (map (pair a) (ancestors (l ++ [x]))))
                   [Makedirs (directory self ++ strategy_id Sc ++ String "/" rest)%string]).
    { intros x rest t' Hrest Hx.
      rewrite makedirs_fresh; rewrite Hsub, Hrest; simpl; [done| |].
      - by destruct l.
      - apply is_dir_false; [by destruct l|done]. }
    assert (Hfree1 : (a, l ++ ["models"]) ∉ t1).
    { subst t1. rewrite not_elem_of_union, elem_of_dirs. naive_solver. }
    rewrite !bind_assoc.
    rewrite (bind_ok (makedirs _) _ t1 tt) by (by rewrite (Hstep "models")).
    rewrite (Hstep "models") by done. simpl. fold t2.
    assert (Hfree2 : (a, l ++ ["logs"]) ∉ t2).
    { subst t2 t1. rewrite !not_elem_of_union, !elem_of_dirs, ancestors_snoc, elem_of_app,
        list_elem_of_singleton. naive_solver. }
    rewrite !bind_assoc.
    rewrite (bind_ok (makedirs _) _ t2 tt) by (by rewrite (Hstep "logs")).
    rewrite (Hstep "logs") by done. simpl. fold t3.
    assert (Hfree3 : (a, l ++ ["predictions"]) ∉ t3).
    { subst t3 t2 t1.
      rewrite !not_elem_of_union, !elem_of_dirs, !ancestors_snoc, !elem_of_app,
        !list_elem_of_singleton. naive_solver. }
    rewrite !bind_assoc.
    rewrite (bind_ok (makedirs _) _ t3 tt) by (by rewrite (Hstep "predictions")).
    rewrite (Hstep "predictions") by done. simpl. fold t4.
    assert (Hfree4 : (a, l ++ ["plots"]) ∉ t4).
    { subst t4 t3 t2 t1.
      rewrite !not_elem_of_union, !elem_of_dirs, !ancestors_snoc, !elem_of_app,
        !list_elem_of_singleton. naive_solver. }
    rewrite ?bind_assoc.
    rewrite (bind_ok (makedirs _) _ t4 tt) by (by rewrite (Hstep "plots")).
    rewrite (Hstep "plots") by done. simpl. fold t5.
    reflexivity. }
  assert (Hin : (a, l) ∈ t5).
  { subst t5 t4 t3 t2 t1. rewrite !elem_of_union, !elem_of_dirs.
    do 4 left. right. split; [done|]. by apply ancestors_self. }
  assert (Hd5 : is_dir (norm_path home) t5 = true) by (by apply is_dir_true).
  rewrite Ho. simpl. split; [done|]. split; [done|]. split.
  { subst t5 t4 t3 t2 t1. set_solver. }
  split; [done|]. split.
  + intros _ sub Hsubdir.
    change ("/" ++ sub ++ "/")%string with (String "/" (sub ++ "/"))%string.
    rewrite Hsub. apply is_dir_true.
    assert (Hparts : path_parts (sub ++ "/")%string = [sub]).
    { unfold subdirectories in Hsubdir.
      repeat (apply elem_of_cons in Hsubdir as [->|Hsubdir]); try reflexivity.
      by apply elem_of_nil in Hsubdir. }
    rewrite Hparts.
    subst t5 t4 t3 t2 t1. unfold subdirectories in Hsubdir.
    rewrite !elem_of_union, !elem_of_dirs, !ancestors_snoc, !elem_of_app,
      !list_elem_of_singleton.
    repeat (apply elem_of_cons in Hsubdir as [->|Hsubdir]);
      [| | | |by apply elem_of_nil in Hsubdir]; naive_solver.
  + unfold start_experiment, isdir.
    rewrite bind_assoc, bind_get, bind_ret. fold home. rewrite Hd5.
    rewrite bind_ret. reflexivity.
Qed.
End StartExperiment.

Lemma toy_session_tree_closed : prefix_closed ({[ (false, ["s"]) ]} : tree).
Proof. vm_compute. reflexivity. Defined.

Lemma start_experiment_idempotent_witness :
  let t : tree := {[ (false, ["s"]) ]} in
  let o := start_experiment toy_session (sample_dataset []) toy_strategy t in
  directory toy_session <> "" /\ prefix_closed t /\
  is_dir (norm_path "s/toy/models/") (final o) = true /\
  start_experiment toy_session (sample_dataset []) toy_strategy (final o)
  = Outcome (res o) (final o) [].
Proof.
  intros t o.
  assert (Hd : directory toy_session <> "") by discriminate.
  pose proof (start_experiment_idempotent toy_session (sample_dataset []) toy_strategy t
                Hd toy_session_tree_closed) as (_ & _ & _ & _ & Hsub & Hagain).
  split; [exact Hd|]. split; [exact toy_session_tree_closed|]. split.
  - apply (Hsub eq_refl "models"). unfold subdirectories. left.
  - exact Hagain.
Defined.

(** With the strategy's directory present and empty, [start_experiment]
    creates nothing: the four subdirectories do not exist afterwards. *)
Lemma start_experiment_skips_existing_home :
  prefix_closed tree_with_empty_home /\
  final (start_experiment toy_session (sample_dataset []) toy_strategy tree_with_empty_home)
  = tree_with_empty_home /\
  is_dir (norm_path "s/toy/models/")
         (final (start_experiment toy_session (sample_dataset []) toy_strategy
                                  tree_with_empty_home)) = false /\
  ~ ensures_subdirectories toy_session (sample_dataset []) toy_strategy tree_with_empty_home.
Proof.
  split; [vm_compute; reflexivity|]. split; [reflexivity|].
  assert (Hm : is_dir (norm_path "s/toy/models/")
                 (final (start_experiment toy_session (sample_dataset []) toy_strategy
                                          tree_with_empty_home)) = false)
    by (vm_compute; reflexivity).
  split; [exact Hm|].
  intros Hall. specialize (Hall "models"). unfold subdirectories in Hall.
  assert (Hin : "models" ∈ ["models"; "logs"; "predictions"; "plots"]) by left.
  apply Hall in Hin.
  change (directory toy_session ++ strategy_id toy_strategy ++ "/" ++ "models" ++ "/")%string
    with "s/toy/models/" in Hin.
  rewrite Hm in Hin. discriminate.
Qed.

(** ** The grid search *)

(** ** Frame conditions *)

Section Projections.
Context {E S : Type}.

Lemma res_bind {A B} (m : SE E S A) (k : A -> SE E S B) s :
  res (bind m k s) = match res (m s) with
                     | Ok a => res (k a (final (m s)))
                     | Raise e => Raise e
                     end.
Proof. unfold bind. by destruct (res (m s)). Qed.

Lemma final_bind {A B} (m : SE E S A) (k : A -> SE E S B) s :
  final (bind m k s) = match res (m s) with
                       | Ok a => final (k a (final (m s)))
                       | Raise e => final (m s)
                       end.
Proof. unfold bind. by destruct (res (m s)). Qed.

Lemma log_bind {A B} (m : SE E S A) (k : A -> SE E S B) s :
  log (bind m k s) = match res (m s) with
                     | Ok a => log (m s) ++ log (k a (final (m s)))
                     | Raise e => log (m s)
                     end.
Proof. unfold bind. by destruct (res (m s)). Qed.

Lemma res_logged {A} (l : list E) (o : outcome E S A) : res (logged l o) = res o.
Proof. done. Qed.

Lemma final_logged {A} (l : list E) (o : outcome E S A) : final (logged l o) = final o.
Proof. done. Qed.

Lemma log_logged {A} (l : list E) (o : outcome E S A) : log (logged l o) = l ++ log o.
Proof. done. Qed.

Lemma logged_nil {A} (o : outcome E S A) : logged [] o = o.
Proof. by destruct o. Qed.

Lemma logged_logged {A} (l l' : list E) (o : outcome E S A) :
  logged l (logged l' o) = logged (l ++ l') o.
Proof. unfold logged. simpl. by rewrite app_assoc. Qed.

Lemma bind_emit_logged {B} (e : E) (k : unit -> SE E S B) s :
  bind (emit e) k s = logged [e] (k tt s).
Proof. done. Qed.

Lemma bind_raise_now {A B} e (k : A -> SE E S B) s :
  bind (raise e) k s = Outcome (Raise e) s [].
Proof. done. Qed.

(** A first step whose outcome is known. *)
Lemma bind_run {A B} (m : SE E S A) (k : A -> SE E S B) s a s' l :
  m s = Outcome (Ok a) s' l -> bind m k s = logged l (k a s').
Proof. unfold bind. intros ->. done. Qed.

Lemma bind_fail {A B} (m : SE E S A) (k : A -> SE E S B) s e s' l :
  m s = Outcome (Raise e) s' l -> bind m k s = Outcome (Raise e) s' l.
Proof. unfold bind. intros ->. done. Qed.
End Projections.

Section RespectsFacts.
Context {E S : Type} (R : S -> S -> list E -> Prop) `{!Composable R}.

Lemma respects_ret {A} (a : A) : respects R (ret a).
Proof. intros s. apply composable_refl. Qed.

Lemma respects_raise {A} e : respects R (raise (A:=A) e).
Proof. intros s. apply composable_refl. Qed.

Lemma respects_lift {A} (r : result A) : respects R (lift r).
Proof. intros s. apply composable_refl. Qed.

Lemma respects_get : respects R get.
Proof. intros s. apply composable_refl. Qed.

Lemma respects_bind {A B} (m : SE E S A) (k : A -> SE E S B) :
  respects R m -> (forall a, respects R (k a)) -> respects R (bind m k).
Proof.
  intros Hm Hk s. rewrite final_bind, log_bind.
  destruct (res (m s)) as [a|e]; [|apply Hm].
  eapply composable_trans; [apply Hm|apply Hk].
Qed.

Lemma respects_try_except {A} (body handler : SE E S A) :
  respects R body -> respects R handler -> respects R (try_except body handler).
Proof.
  intros Hb Hh s. unfold try_except.
  destruct (res (body s)); [apply Hb|]. simpl.
  eapply composable_trans; [apply Hb|apply Hh].
Qed.

Lemma respects_for_each {A L} (xs : list A) (body : A -> L -> SE E S L) l :
  (forall x l', respects R (body x l')) -> respects R (for_each xs body l).
Proof.
  intros Hb. revert l. induction xs as [|x xs IH]; intros l; simpl.
  - apply respects_ret.
  - apply respects_bind; [apply Hb|apply IH].
Qed.
End RespectsFacts.

Section UnchangedFacts.
Context {E S X : Type} (proj : S -> X) (quiet : E -> bool).

Global Instance unchanged_composable : Composable (unchanged proj quiet).
Proof.
  split.
  - done.
  - intros s s' s'' l l' [Hp Hq] [Hp' Hq']. split; [congruence|].
    rewrite forallb_app. by rewrite Hq, Hq'.
Qed.

Lemma unchanged_emit e : quiet e = true -> respects (unchanged proj quiet) (emit e).
Proof. intros He s. split; [done|]. simpl. by rewrite He. Qed.
End UnchangedFacts.

Section FrameSteps.
Context {V : Type} `{PyValue V} {M : Type}.
Implicit Types (s : frame V M).

Lemma bind_read {A B} (f : frame V M -> A) (k : A -> CM V M B) s :
  bind (read f) k s = k (f s) s.
Proof. unfold bind, read. simpl. apply outcome_eta. Qed.

Lemma bind_modify {B} (f : frame V M -> frame V M) (k : unit -> CM V M B) s :
  bind (modify f) k s = k tt (f s).
Proof. unfold bind, modify. simpl. apply outcome_eta. Qed.

Lemma bind_local {A B} name (f : frame V M -> option A) (k : A -> CM V M B) s a :
  f s = Some a -> bind (local name f) k s = k a s.
Proof. intros Hf. unfold local. by rewrite bind_assoc, bind_read, Hf, bind_ret. Qed.

Lemma bind_local_unbound {A B} name (f : frame V M -> option A) (k : A -> CM V M B) s :
  f s = None ->
  bind (local name f) k s
  = Outcome (Raise (ExternalError ("UnboundLocalError: " ++ name)%string)) s [].
Proof. intros Hf. unfold local. by rewrite bind_assoc, bind_read, Hf. Qed.
End FrameSteps.

Section FrameFacts.
Context {V : Type} `{PyValue V} {M : Type}.
Context (R : frame V M -> frame V M -> list (event V) -> Prop) `{!Composable R}.

Lemma respects_read {A} (f : frame V M -> A) : respects R (read f).
Proof. intros s. apply composable_refl. Qed.

Lemma respects_local {A} name (f : frame V M -> option A) : respects R (local name f).
Proof.
  unfold local. apply respects_bind; [done|apply respects_read|].
  intros [a|]; [by apply respects_ret|by apply respects_raise].
Qed.

Lemma respects_isfile name : respects R (isfile name).
Proof.
  unfold isfile. apply respects_bind; [done|apply respects_read|].
  intros d. by apply respects_ret.
Qed.

Lemma respects_pickle_load name : respects R (pickle_load name).
Proof.
  unfold pickle_load. apply respects_bind; [done|apply respects_read|].
  intros d. destruct (d !! name) as [[o|bytes]|];
    [by apply respects_ret|by apply respects_raise|by apply respects_raise].
Qed.

Lemma respects_deref l : respects R (deref l).
Proof.
  unfold deref. apply respects_bind; [done|apply respects_read|].
  intros h. by apply respects_lift.
Qed.
End FrameFacts.

Section UnchangedFrame.
Context {V : Type} `{PyValue V} {M : Type} {X : Type}.
Context (proj : frame V M -> X) (quiet : event V -> bool).

Lemma unchanged_modify (f : frame V M -> frame V M) :
  (forall s, proj (f s) = proj s) -> respects (unchanged proj quiet) (modify f).
Proof. intros Hf s. split; [apply Hf|done]. Qed.
End UnchangedFrame.

Ltac frame_step :=
  lazymatch goal with
  | |- respects _ (bind _ _) => apply respects_bind; [tc_solve| |intros ?]
  | |- respects _ (ret _) => apply respects_ret; tc_solve
  | |- respects _ (raise _) => apply respects_raise; tc_solve
  | |- respects _ (lift _) => apply respects_lift; tc_solve
  | |- respects _ (read _) => apply respects_read; tc_solve
  | |- respects _ (local _ _) => apply respects_local; tc_solve
  | |- respects _ (isfile _) => apply respects_isfile; tc_solve
  | |- respects _ (pickle_load _) => apply respects_pickle_load; tc_solve
  | |- respects _ (deref _) => apply respects_deref; tc_solve
  | |- respects _ (try_except _ _) => apply respects_try_except; [tc_solve| |]
  | |- respects _ (for_each _ _ _) => apply respects_for_each; [tc_solve|intros ? ?]
  | |- respects _ (seq_each _ _) => unfold seq_each
  | |- respects (unchanged _ _) (emit _) => apply unchanged_emit; reflexivity
  | |- respects (unchanged _ _) (modify _) => apply unchanged_modify; intros ?; reflexivity
  | |- respects _ (match ?x with _ => _ end) => destruct x
  end.

Section Phases.
Context {V : Type} `{PyValue V} {M : Type}.
Context (plot_method : pyobj V -> string -> option (dict V -> result unit)).
Context (self : StrategyExperiment V M).

Lemma load_cached_input sf pf :
  respects (unchanged model_input (@not_predict V)) (load_cached (M:=M) sf pf).
Proof. unfold load_cached, load_body, alloc. repeat frame_step. Qed.

Lemma begin_point_input keys idx hz mode cfg :
  respects (unchanged model_input (@not_predict V)) (begin_point self keys idx hz mode cfg).
Proof. unfold begin_point, alloc. repeat frame_step. apply load_cached_input. Qed.

Lemma obtain_model_input fk mf :
  respects (unchanged model_input (@not_predict V)) (obtain_model self fk mf).
Proof. unfold obtain_model. repeat frame_step. Qed.

Lemma finish_point_input tests plots mode fname :
  respects (unchanged model_input (@not_predict V)) (finish_point plot_method self tests plots mode fname).
Proof.
  unfold finish_point, score_test, persist_spec, plot_items, render_plot, spec_setitem, pickle_dump.
  repeat frame_step.
Qed.
End Phases.

Section SingleInput.
Context {V : Type} `{PyValue V} {M : Type}.
Context (plot_method : pyobj V -> string -> option (dict V -> result unit)).
Context (self : StrategyExperiment V M).

Lemma predict_inputs_app (l l' : list (event V)) :
  predict_inputs (l ++ l') = predict_inputs l ++ predict_inputs l'.
Proof.
  induction l as [|e l IH]; [done|]. destruct e; simpl; by rewrite ?IH.
Qed.

Lemma predict_inputs_quiet (l : list (event V)) :
  forallb (@not_predict V) l = true -> predict_inputs l = [].
Proof.
  induction l as [|e l IH]; [done|]. simpl. intros [He Hl]%andb_prop.
  destruct e; try discriminate; by apply IH.
Qed.

Global Instance single_input_composable : Composable (@single_input V M).
Proof.
  split.
  - intros s. unfold single_input. destruct (model_input s); [by split|by left].
  - intros s s' s'' l l'. unfold single_input. rewrite predict_inputs_app.
    destruct (model_input s) as [x|].
    + intros [-> Hl] [-> Hl']. split; [done|]. by apply Forall_app.
    + intros [[-> ->]|(x & -> & Hl)].
      * done.
      * intros [-> Hl']. right. exists x. split; [done|]. by apply Forall_app.
Qed.

(** A phase that leaves the input alone and does not predict. *)
Lemma single_input_unchanged {A} (m : CM V M A) :
  respects (unchanged model_input (@not_predict V)) m -> respects single_input m.
Proof.
  intros Hm s. destruct (Hm s) as [Hmi Hq]. apply predict_inputs_quiet in Hq.
  unfold single_input. rewrite Hmi, Hq. destruct (model_input s); [by split|by left].
Qed.

End SingleInput.

Section PredictAndStore.
Context {V : Type} `{PyValue V} {M : Type}.
Local Arguments build_prediction : simpl never.
Context (self : StrategyExperiment V M).
Implicit Types (s : frame V M).

Lemma predict_and_store_run ts idx hz ek pk pf s m :
  model s = Some m ->
  predict_and_store self ts idx hz ek pk pf s
  = let s1 := with_input self ts idx m s in
    let input := input_for self ts idx m s in
    if (0 <=? idx - seed_length (Strategy self) m)%Z then
      match predict (Strategy self) m input hz ek with
      | Ok raw =>
          match res (build_prediction (dataset self) pk raw) with
          | Ok p => Outcome (Ok tt)
                            (set_fs (<[pf := Pickle (OPred p)]> (fs s1))
                                    (set_prediction (Some (OPred p)) s1))
                            [Predict input hz]
          | Raise e => Outcome (Raise e) s1 [Predict input hz]
          end
      | Raise e => Outcome (Raise e) s1 [Predict input hz]
      end
    else Outcome (Raise AssertionError) s1 [].
Proof.
  intros Hm. unfold predict_and_store. rewrite (bind_local _ _ _ _ m Hm).
  rewrite bind_assoc, bind_read. unfold with_input, input_for.
  destruct (model_input s) as [x|] eqn:Hmi.
  - rewrite bind_ret. cbv zeta.
    destruct (0 <=? idx - seed_length (Strategy self) m)%Z; [|reflexivity].
    rewrite bind_ret, (bind_local _ _ _ _ x Hmi), bind_emit_logged.
    destruct (predict (Strategy self) m x hz ek) as [raw|e]; [|reflexivity].
    rewrite bind_lift_ok.
    destruct (res (build_prediction (dataset self) pk raw)) as [p|e]; [|reflexivity].
    rewrite bind_lift_ok, bind_modify. unfold pickle_dump. rewrite bind_read.
    reflexivity.
  - rewrite bind_modify. cbv zeta.
    destruct (0 <=? idx - seed_length (Strategy self) m)%Z; [|reflexivity].
    rewrite bind_ret. erewrite bind_local by reflexivity. rewrite bind_emit_logged.
    destruct (predict (Strategy self) m _ hz ek) as [raw|e]; [|reflexivity].
    rewrite bind_lift_ok.
    destruct (res (build_prediction (dataset self) pk raw)) as [p|e]; [|reflexivity].
    rewrite bind_lift_ok, bind_modify. unfold pickle_dump. rewrite bind_read.
    reflexivity.
Qed.

Lemma predict_and_store_unbound ts idx hz ek pk pf s :
  model s = None ->
  predict_and_store self ts idx hz ek pk pf s
  = Outcome (Raise (ExternalError "UnboundLocalError: model")) s [].
Proof. intros Hm. unfold predict_and_store. by rewrite bind_local_unbound. Qed.

Lemma predict_and_store_input ts idx hz ek pk pf :
  respects single_input (predict_and_store self ts idx hz ek pk pf).
Proof.
  intros s. destruct (model s) as [m|] eqn:Hm.
  - rewrite (predict_and_store_run _ _ _ _ _ _ _ m Hm).
    unfold single_input, with_input, input_for. cbv zeta.
    destruct (model_input s) as [x|] eqn:Hmi.
    + destruct (0 <=? _)%Z;
        [destruct (predict _ _ _ _ _); [destruct (res (build_prediction _ _ _))|]|];
        cbn [final log predict_inputs];
        (split; [exact Hmi|repeat constructor]).
    + right. eexists.
      destruct (0 <=? _)%Z;
        [destruct (predict _ _ _ _ _); [destruct (res (build_prediction _ _ _))|]|];
        cbn [final log predict_inputs];
        (split; [reflexivity|repeat constructor]).
  - rewrite predict_and_store_unbound by done.
    apply (composable_refl (R:=single_input)).
Qed.
End PredictAndStore.

Section ModelInput.
Context {V : Type} `{PyValue V} {M : Type}.
Context (plot_method : pyobj V -> string -> option (dict V -> result unit)).
Context (self : StrategyExperiment V M).
Implicit Types (s : frame V M).

Lemma grid_point_input tests keys idx hz plots fk ek mode pk ts cfg :
  respects single_input
    (grid_point plot_method self tests keys idx hz plots fk ek mode pk ts cfg).
Proof.
  unfold grid_point, recompute. repeat frame_step.
  - apply single_input_unchanged, begin_point_input.
  - apply single_input_unchanged, obtain_model_input.
  - apply predict_and_store_input.
  - apply single_input_unchanged, finish_point_input.
Qed.

Lemma choose_model_input tests keys grid idx hz plots fk ek mode pk ts :
  respects single_input
    (choose_model plot_method self tests keys grid idx hz plots fk ek mode pk ts).
Proof.
  unfold choose_model. repeat frame_step.
  - apply single_input_unchanged. unfold init_best. repeat frame_step.
  - apply grid_point_input.
  - apply single_input_unchanged. repeat frame_step.
  - apply single_input_unchanged. unfold report_best. repeat frame_step.
Qed.

(** C9. In a call of [choose_model] without a model input, every
    [predict] call of the run is given the same input, the one that the
    run ends with.  At a grid point that recomputes, the input is computed
    (the series from [prediction_index - seed_length] to
    [prediction_index]) only when none is stored; a stored input is kept
    and handed to [predict] whatever the seed length of this point's
    model, and no grid point replaces it. *)
Theorem model_input_computed_once tests keys grid idx hz plots fk ek mode pk ts d h :
  (forall x rest,
     predict_inputs (log (choose_model plot_method self tests keys grid idx hz plots
                                       fk ek mode pk ts (entry d h None))) = x :: rest ->
     Forall (eq x) rest /\
     model_input (final (choose_model plot_method self tests keys grid idx hz plots
                                      fk ek mode pk ts (entry d h None))) = Some x) /\
  (forall ts' pf s m, model s = Some m ->
     (model_input s = None ->
        model_input (final (predict_and_store self ts' idx hz ek pk pf s))
        = Some [py_slice ts' (idx - seed_length (Strategy self) m) idx]) /\
     (forall x, model_input s = Some x ->
        model_input (final (predict_and_store self ts' idx hz ek pk pf s)) = Some x /\
        (0 <= idx - seed_length (Strategy self) m ->
         predict_inputs (log (predict_and_store self ts' idx hz ek pk pf s)) = [x])%Z)) /\
  (forall ts' cfg s x, model_input s = Some x ->
     model_input (final (grid_point plot_method self tests keys idx hz plots fk ek mode pk
                                    ts' cfg s)) = Some x).
Proof.
  split; [|split].
  - intros x rest Hins.
    pose proof (choose_model_input tests keys grid idx hz plots fk ek mode pk ts
                  (entry d h None)) as Hrun.
    unfold single_input in Hrun. simpl in Hrun.
    destruct Hrun as [[_ Hnil]|(x' & Hfin & Hall)]; [congruence|].
    rewrite Hins in Hall. apply Forall_cons in Hall as [<- Hall]. done.
  - intros ts' pf s m Hm.
    rewrite (predict_and_store_run _ _ _ _ _ _ _ _ m Hm).
    unfold with_input, input_for. cbv zeta. split.
    + intros ->.
      destruct (0 <=? _)%Z;
        [destruct (predict _ _ _ _ _); [destruct (res (build_prediction _ _ _))|]|];
        reflexivity.
    + intros x Hx. rewrite Hx. split.
      * destruct (0 <=? _)%Z;
          [destruct (predict _ _ _ _ _); [destruct (res (build_prediction _ _ _))|]|];
          exact Hx.
      * intros Hseed. apply Z.leb_le in Hseed. rewrite Hseed.
        destruct (predict _ _ _ _ _); [destruct (res (build_prediction _ _ _))|];
          reflexivity.
  - intros ts' cfg s x Hx.
    pose proof (grid_point_input tests keys idx hz plots fk ek mode pk ts' cfg s) as Hrun.
    unfold single_input in Hrun. rewrite Hx in Hrun. apply Hrun.
Qed.
End ModelInput.

(** Seeds 2 and 1 with forecast start 4: the second model has seed length
    1 and is given the window of length 2 computed for the first. *)
Lemma model_input_computed_once_witness :
  predict_inputs (log (toy_run toy_strategy [2; 1]%Z 4))
  = [[[PInt 12; PInt 13]]; [[PInt 12; PInt 13]]] /\
  Forall (eq [[PInt 12; PInt 13]]) [[[PInt 12; PInt 13]]] /\
  model_input (final (toy_run toy_strategy [2; 1]%Z 4)) = Some [[PInt 12; PInt 13]].
Proof.
  assert (Hins : predict_inputs (log (toy_run toy_strategy [2; 1]%Z 4))
                 = [[[PInt 12; PInt 13]]; [[PInt 12; PInt 13]]])
    by (vm_compute; reflexivity).
  split; [exact Hins|].
  exact (proj1 (model_input_computed_once no_plot_method (toy_experiment toy_strategy)
                  [seed_test] ["seed"] [[PInt 2]; [PInt 1]] 4 2 (PlotsDict [])
                  [] [] "val" [] None ∅ [])
               [[PInt 12; PInt 13]] [[[PInt 12; PInt 13]]] Hins).
Defined.

(** ** The steps of a grid point *)

Lemma try_except_run {E S A} (body handler : SE E S A) s r s' l :
  body s = Outcome r s' l ->
  try_except body handler s
  = match r with
    | Ok a => Outcome (Ok a) s' l
    | Raise _ => logged l (handler s')
    end.
Proof. unfold try_except. intros ->. by destruct r. Qed.

Section Load.
Context {V : Type} `{PyValue V} {M : Type}.
Context (self : StrategyExperiment V M).
Implicit Types (s : frame V M).

Lemma isfile_run {B} name (k : bool -> CM V M B) s :
  bind (isfile name) k s = k (match fs s !! name with Some _ => true | None => false end) s.
Proof. unfold isfile. by rewrite bind_assoc, bind_read, bind_ret. Qed.

Lemma pickle_dump_run o name s :
  pickle_dump o name s = Outcome (Ok tt) (set_fs (<[name := Pickle o]> (fs s)) s) [].
Proof. unfold pickle_dump. by rewrite bind_read. Qed.

Lemma alloc_run {B} o (k : nat -> CM V M B) s :
  bind (alloc o) k s = k (length (heap s)) (set_heap (heap s ++ [o]) s).
Proof. unfold alloc. by rewrite bind_assoc, bind_read, bind_assoc, bind_modify, bind_ret. Qed.

Ltac step1 :=
  first [ progress cbv iota beta
        | progress cbn [fs heap best_results best_strategy model_input spec prediction
                        pred_loaded_successfully model
                        set_fs set_heap set_best_results set_best_strategy set_model_input
                        set_spec set_prediction set_pred_loaded set_model]
        | rewrite bind_assoc | rewrite bind_read | rewrite bind_ret
        | rewrite bind_modify | rewrite alloc_run | rewrite isfile_run
        | rewrite bind_emit_logged | rewrite bind_lift_ok ].

Ltac step := repeat step1.

(** Stepping with facts about what the state holds. *)
Tactic Notation "step" "using" constr(H1) := repeat (step1 || rewrite H1).
Tactic Notation "step" "using" constr(H1) "," constr(H2) :=
  repeat (step1 || rewrite H1 || rewrite H2).

Lemma load_body_run sf pf s :
  load_body sf pf s
  = if is_raw (fs s !! sf) then Outcome (Raise UnpicklingError) s []
    else
      let s1 := spec_loaded (fs s !! sf) s in
      match fs s !! pf with
      | None => Outcome (Ok tt) s1 []
      | Some (Pickle o) => Outcome (Ok tt) (set_pred_loaded true (set_prediction (Some o) s1)) []
      | Some (Raw _) => Outcome (Raise UnpicklingError) s1 []
      end.
Proof.
  unfold load_body, pickle_load.
  destruct (fs s !! sf) as [[o|bytes]|] eqn:Hsf; cbn [is_raw spec_loaded]; cbv zeta.
  - destruct (fs s !! pf) as [[o'|bytes]|] eqn:Hpf; step using Hsf, Hpf; reflexivity.
  - step using Hsf. reflexivity.
  - destruct (fs s !! pf) as [[o'|bytes]|] eqn:Hpf; step using Hsf, Hpf; reflexivity.
Qed.

Lemma load_cached_run sf pf s :
  load_cached sf pf s
  = if is_raw (fs s !! sf) then Outcome (Ok tt) s [Print MsgLoadError]
    else
      let s1 := spec_loaded (fs s !! sf) s in
      match fs s !! pf with
      | None => Outcome (Ok tt) s1 []
      | Some (Pickle o) => Outcome (Ok tt) (set_pred_loaded true (set_prediction (Some o) s1)) []
      | Some (Raw _) => Outcome (Ok tt) s1 [Print MsgLoadError]
      end.
Proof.
  unfold load_cached, try_except. rewrite load_body_run.
  destruct (is_raw (fs s !! sf)); [reflexivity|]. cbv zeta.
  destruct (fs s !! pf) as [[o'|bytes]|]; reflexivity.
Qed.

(** Whatever is on disk, the load step returns. *)
Lemma load_cached_returns sf pf s : res (load_cached sf pf s) = Ok tt.
Proof.
  rewrite load_cached_run. destruct (is_raw _); [done|].
  cbv zeta. by destruct (fs s !! pf) as [[]|].
Qed.

Lemma begin_point_run keys idx hz mode cfg s :
  let spec0 := dict_of_zip keys cfg in
  let fname := get_filename (Strategy self) spec0 in
  begin_point self keys idx hz mode cfg s
  = logged [Print (MsgPath (model_fname self fname))]
           (load_cached (spec_fname self mode fname) (prediction_fname self mode idx hz fname)
                        (fresh_spec spec0 s)).
Proof.
  intros spec0 fname. unfold begin_point. fold spec0 fname.
  rewrite alloc_run, !bind_modify, bind_emit_logged. reflexivity.
Qed.

Lemma begin_point_returns keys idx hz mode cfg s :
  res (begin_point self keys idx hz mode cfg s) = Ok tt.
Proof. rewrite begin_point_run. simpl. apply load_cached_returns. Qed.
End Load.

Section Steps.
Context {V : Type} `{PyValue V} {M : Type}.
Context (plot_method : pyobj V -> string -> option (dict V -> result unit)).
Context (self : StrategyExperiment V M).
Implicit Types (s : frame V M).

Lemma deref_run {B} l (k : pyobj V -> CM V M B) s o :
  heap s !! l = Some o -> bind (deref l) k s = k o s.
Proof.
  intros Hl. unfold deref, list_index. rewrite bind_assoc, bind_read, Hl.
  by rewrite bind_lift_ok.
Qed.

Lemma spec_setitem_run {B} key v (k : unit -> CM V M B) s l sp :
  spec s = Some l -> heap s !! l = Some (OSpec sp) ->
  bind (spec_setitem key v) k s
  = k tt (set_heap (<[l := OSpec (<[key := v]> sp)]> (heap s)) s).
Proof.
  intros Hs Hl. unfold spec_setitem.
  rewrite bind_assoc, (bind_local _ _ _ _ l Hs), bind_assoc, (deref_run _ _ _ _ Hl).
  by rewrite bind_assoc, bind_read, bind_modify.
Qed.

Lemma score_test_run t s l sp op b q :
  spec s = Some l -> heap s !! l = Some (OSpec sp) -> prediction s = Some op ->
  best_results s !! metric t = Some b -> eval t op = Ok q ->
  score_test t s = Outcome (Ok tt) (scored_frame t l sp q b s) (score_events t q b).
Proof.
  intros Hs Hl Hp Hb Hq. unfold score_test, scored_frame, score_events, improves.
  rewrite (bind_local _ _ _ _ op Hp), bind_emit_logged, Hq, bind_lift_ok.
  rewrite (spec_setitem_run _ _ _ _ l sp Hs Hl), bind_read.
  cbn [best_results set_heap]. rewrite Hb, bind_lift_ok.
  destruct (match b with Some b0 => compare t q b0 | None => true end).
  - rewrite !bind_emit_logged. erewrite bind_local by exact Hs.
    rewrite bind_read, bind_modify, bind_read. reflexivity.
  - reflexivity.
Qed.

(** A test that scores returns only on a dictionary spec, a score and a
    known metric. *)
Lemma score_test_inv t s l ob op :
  spec s = Some l -> heap s !! l = Some ob -> prediction s = Some op ->
  res (score_test t s) = Ok tt ->
  exists sp q b, ob = OSpec sp /\ eval t op = Ok q /\ best_results s !! metric t = Some b.
Proof.
  intros Hs Hl Hp. unfold score_test.
  rewrite (bind_local _ _ _ _ op Hp), bind_emit_logged, res_logged.
  destruct (eval t op) as [q|e] eqn:Hq; [|discriminate]. rewrite bind_lift_ok.
  destruct ob as [sp|p].
  - rewrite (spec_setitem_run _ _ _ _ l sp Hs Hl), bind_read. cbn [best_results set_heap].
    destruct (best_results s !! metric t) as [b|] eqn:Hb; [|discriminate].
    intros _. by exists sp, q, b.
  - unfold spec_setitem.
    rewrite bind_assoc, (bind_local _ _ _ _ l Hs), bind_assoc, (deref_run _ _ _ _ Hl).
    discriminate.
Qed.

Lemma persist_spec_run sf s l o :
  spec s = Some l -> heap s !! l = Some o ->
  persist_spec sf s = Outcome (Ok tt) (set_fs (<[sf := Pickle o]> (fs s)) s) [].
Proof.
  intros Hs Hl. unfold persist_spec.
  rewrite (bind_local _ _ _ _ l Hs), (deref_run _ _ _ _ Hl). apply pickle_dump_run.
Qed.
End Steps.

Section Obtain.
Context {V : Type} `{PyValue V} {M : Type}.
Context (self : StrategyExperiment V M).
Implicit Types (s : frame V M).

(** A model that is obtained was loaded, or constructed, fitted and
    saved: the strategy has been called. *)
Lemma obtain_model_ok fk mf s :
  res (obtain_model self fk mf s) = Ok tt ->
  (exists m, model (final (obtain_model self fk mf s)) = Some m) /\
  existsb is_model_call (log (obtain_model self fk mf s)) = true /\
  (fs s !! mf = None -> existsb is_fit_or_predict (log (obtain_model self fk mf s)) = true).
Proof.
  unfold obtain_model. rewrite isfile_run.
  destruct (fs s !! mf) as [f|] eqn:Hmf; cbv iota.
  - rewrite bind_emit_logged, bind_read.
    destruct (strategy_load (Strategy self) mf (fs s)) as [m|e]; [|discriminate].
    rewrite bind_lift_ok. intros _. split; [by exists m|]. split; [reflexivity|discriminate].
  - destruct (spec s) as [l|] eqn:Hs; [|by rewrite bind_local_unbound].
    rewrite (bind_local _ _ _ _ l Hs).
    destruct (heap s !! l) as [o|] eqn:Hl.
    + rewrite (deref_run _ _ _ _ Hl), bind_emit_logged.
      destruct o as [sp|p]; [|discriminate].
      rewrite bind_assoc, bind_emit_logged.
      destruct (strategy_new (Strategy self) sp) as [m0|e]; [|discriminate].
      rewrite bind_lift_ok, bind_modify, bind_emit_logged.
      destruct (fit (Strategy self) m0 _ fk) as [m1|e]; [|discriminate].
      rewrite bind_lift_ok, bind_modify, bind_emit_logged, bind_read.
      cbn [fs set_model].
      destruct (save (Strategy self) m1 _ (fs s)) as [d'|e]; [|discriminate].
      rewrite bind_lift_ok. intros _. split; [by exists m1|]. split; reflexivity.
    + unfold deref, list_index. rewrite bind_assoc, bind_read, Hl. discriminate.
Qed.

(** An exception of the strategy's load, constructor, fit or save leaves
    [obtain_model] as it is. *)
Lemma obtain_model_fit_raises fk mf s l sp m0 e :
  fs s !! mf = None -> spec s = Some l -> heap s !! l = Some (OSpec sp) ->
  strategy_new (Strategy self) sp = Ok m0 ->
  fit (Strategy self) m0 (train_frames (dataset self)) fk = Raise e ->
  res (obtain_model self fk mf s) = Raise e /\
  log (obtain_model self fk mf s) = [Print (MsgTraining (OSpec sp)); StrategyNew sp; Fit].
Proof.
  intros Hmf Hs Hl Hnew Hfit. unfold obtain_model. rewrite isfile_run, Hmf. cbv iota.
  rewrite (bind_local _ _ _ _ l Hs), (deref_run _ _ _ _ Hl), bind_emit_logged.
  rewrite bind_assoc, bind_emit_logged, Hnew, bind_lift_ok, bind_modify, bind_emit_logged.
  rewrite Hfit. done.
Qed.

Lemma obtain_model_locals fk mf :
  respects (unchanged locals (fun _ : event V => true)) (obtain_model self fk mf).
Proof. unfold obtain_model. repeat frame_step. Qed.
End Obtain.

Section Loops.
Context {E S : Type}.

Lemma bind_ext {A B} (m : SE E S A) (k k' : A -> SE E S B) (s : S) :
  (forall a s', k a s' = k' a s') -> bind m k s = bind m k' s.
Proof. intros Hk. unfold bind. destruct (res (m s)); [by rewrite Hk|done]. Qed.

Lemma for_each_app {A} (xs ys : list A) (body : A -> unit -> SE E S unit) (s : S) :
  for_each (xs ++ ys) body tt s
  = bind (for_each xs body tt) (fun _ => for_each ys body tt) s.
Proof.
  revert s. induction xs as [|x xs IH]; intros s; simpl.
  - by rewrite bind_ret.
  - rewrite bind_assoc. apply bind_ext. intros [] s'. apply IH.
Qed.
End Loops.

Section Points.
Context {V : Type} `{PyValue V} {M : Type}.
Context (plot_method : pyobj V -> string -> option (dict V -> result unit)).
Context (self : StrategyExperiment V M).
Implicit Types (s : frame V M).

Lemma names_differ mode mode' idx hz fname fname' :
  spec_fname self mode fname <> prediction_fname self mode' idx hz fname'.
Proof.
  unfold spec_fname, prediction_fname. intros Heq.
  apply (inj (String.append (folder self))) in Heq. discriminate Heq.
Qed.

Lemma grid_point_run tests keys idx hz plots fk ek mode pk ts cfg s :
  let fname := get_filename (Strategy self) (dict_of_zip keys cfg) in
  let o0 := begin_point self keys idx hz mode cfg s in
  grid_point plot_method self tests keys idx hz plots fk ek mode pk ts cfg s
  = logged (log o0)
      (bind (if pred_loaded_successfully (final o0) then ret tt
             else recompute self idx hz fk ek mode pk ts fname)
            (fun _ => finish_point plot_method self tests plots mode fname)
            (final o0)).
Proof.
  intros fname o0. unfold grid_point. fold fname.
  pose proof (begin_point_returns self keys idx hz mode cfg s) as Hb. fold o0 in Hb.
  rewrite (bind_ok _ _ _ _ Hb). fold o0. rewrite bind_read. reflexivity.
Qed.

Lemma init_best_run t s :
  init_best t s
  = Outcome (Ok tt)
      (set_best_strategy (<[metric t := None]> (best_strategy s))
         (set_best_results (<[metric t := None]> (best_results s)) s)) [].
Proof. unfold init_best. by rewrite bind_read, bind_modify, bind_read. Qed.

Lemma init_returns (tests : list (TestDefinition V)) s :
  res (seq_each tests init_best s) = Ok tt.
Proof.
  unfold seq_each. revert s. induction tests as [|t tests IH]; intros s; [done|].
  cbn [for_each]. rewrite res_bind, init_best_run. cbn [res final]. apply IH.
Qed.

(** An exception raised at a grid point leaves [choose_model]: nothing
    between the loop and the caller catches it. *)
Lemma choose_model_propagates tests keys pre cfg post idx hz plots fk ek mode pk ts s e :
  let gp := grid_point plot_method self tests keys idx hz plots fk ek mode pk
                       (series_for self mode ts) in
  let s0 := final (seq_each tests init_best s) in
  res (seq_each pre gp s0) = Ok tt ->
  res (gp cfg (final (seq_each pre gp s0))) = Raise e ->
  res (choose_model plot_method self tests keys (pre ++ cfg :: post) idx hz plots
                    fk ek mode pk ts s) = Raise e.
Proof.
  intros gp s0 Hpre Hcfg. unfold choose_model. fold gp.
  rewrite res_bind, init_returns. fold s0.
  rewrite res_bind. unfold seq_each in *. rewrite for_each_app.
  rewrite res_bind, Hpre. cbv beta iota. cbn [for_each].
  rewrite res_bind. cbv beta. by rewrite Hcfg.
Qed.

Lemma recompute_asserts idx hz fk ek mode pk ts fname s m :
  let o1 := obtain_model self fk (model_fname self fname) s in
  res o1 = Ok tt -> model (final o1) = Some m ->
  (idx < seed_length (Strategy self) m)%Z ->
  recompute self idx hz fk ek mode pk ts fname s
  = Outcome (Raise AssertionError) (with_input self ts idx m (final o1)) (log o1).
Proof.
  intros o1 Hok Hm Hseed. unfold recompute. rewrite (bind_ok _ _ _ _ Hok). fold o1.
  rewrite (predict_and_store_run self _ _ _ _ _ _ _ m Hm). cbv zeta.
  replace (0 <=? idx - seed_length (Strategy self) m)%Z with false
    by (symmetry; apply Z.leb_gt; lia).
  cbn [res final log]. by rewrite app_nil_r.
Qed.

(** C3 (amended). When the run reaches a grid point that has no usable
    cached prediction, and the model of that point, once loaded or
    constructed, fitted and saved, has a seed length greater than the
    forecast start index, [choose_model] aborts with the seed-window
    assertion: after those calls of the strategy and before its [predict]
    call.  The assertion is not the only fatal error: an exception raised
    while the model is obtained aborts the run in the same way. *)
Theorem seed_window_assertion tests keys pre cfg post idx hz plots fk ek mode pk ts s :
  let fname := get_filename (Strategy self) (dict_of_zip keys cfg) in
  let gp := grid_point plot_method self tests keys idx hz plots fk ek mode pk
                       (series_for self mode ts) in
  let s0 := final (seq_each tests init_best s) in
  let sk := final (seq_each pre gp s0) in
  let o0 := begin_point self keys idx hz mode cfg sk in
  let o1 := obtain_model self fk (model_fname self fname) (final o0) in
  let run := choose_model plot_method self tests keys (pre ++ cfg :: post) idx hz plots
                          fk ek mode pk ts s in
  res (seq_each pre gp s0) = Ok tt ->
  pred_loaded_successfully (final o0) = false ->
  (forall m, res o1 = Ok tt -> model (final o1) = Some m ->
             (idx < seed_length (Strategy self) m)%Z ->
     res run = Raise AssertionError /\
     res (gp cfg sk) = Raise AssertionError /\
     log (gp cfg sk) = log o0 ++ log o1 /\
     forallb not_predict (log (gp cfg sk)) = true /\
     existsb is_model_call (log (gp cfg sk)) = true) /\
  (forall e, res o1 = Raise e -> res run = Raise e).
Proof.
  intros fname gp s0 sk o0 o1 run Hpre Hmiss.
  assert (Hgp : gp cfg sk
                = logged (log o0)
                    (bind (recompute self idx hz fk ek mode pk (series_for self mode ts) fname)
                          (fun _ => finish_point plot_method self tests plots mode fname)
                          (final o0))).
  { unfold gp. rewrite grid_point_run. fold fname o0. by rewrite Hmiss. }
  split.
  - intros m Hok Hm Hseed.
    pose proof (recompute_asserts idx hz fk ek mode pk (series_for self mode ts) fname
                  (final o0) m Hok Hm Hseed) as Hrec. fold o1 in Hrec.
    assert (Hres : res (gp cfg sk) = Raise AssertionError).
    { rewrite Hgp, res_logged, res_bind, Hrec. reflexivity. }
    assert (Hlog : log (gp cfg sk) = log o0 ++ log o1).
    { rewrite Hgp, log_logged, log_bind, Hrec. cbn [res log]. reflexivity. }
    split; [by apply (choose_model_propagates tests keys pre cfg post)|].
    split; [done|]. split; [done|]. rewrite Hlog. split.
    + rewrite forallb_app.
      pose proof (begin_point_input self keys idx hz mode cfg sk) as [_ Hq0].
      pose proof (obtain_model_input self fk (model_fname self fname) (final o0))
        as [_ Hq1].
      fold o0 in Hq0. fold o1 in Hq1. by rewrite Hq0, Hq1.
    + rewrite existsb_app. destruct (obtain_model_ok self fk _ _ Hok) as (_ & Hcall & _).
      fold o1 in Hcall. rewrite Hcall.
      apply orb_true_r.
  - intros e He. apply (choose_model_propagates tests keys pre cfg post); [done|].
    change (res (gp cfg sk) = Raise e).
    rewrite Hgp, res_logged, res_bind. unfold recompute. rewrite res_bind.
    fold o1. rewrite He. reflexivity.
Qed.
End Points.

(** ** Scoring, the report and the plots *)

Section ScoreLoop.
Context {V : Type} `{PyValue V} {M : Type}.
Implicit Types (s : frame V M).

Lemma scored_frame_fields t l sp q b s :
  spec (scored_frame t l sp q b s) = spec s /\
  prediction (scored_frame t l sp q b s) = prediction s /\
  fs (scored_frame t l sp q b s) = fs s /\
  heap (scored_frame t l sp q b s) = <[l := OSpec (<[metric t := Score q]> sp)]> (heap s).
Proof. unfold scored_frame. cbv zeta. by destruct (improves t b q). Qed.

Lemma scored_frame_known t l sp q b s k :
  is_Some (best_results (scored_frame t l sp q b s) !! k) ->
  best_results s !! metric t = Some b -> is_Some (best_results s !! k).
Proof.
  unfold scored_frame. cbv zeta. destruct (improves t b q); [|done].
  cbn [best_results set_best_results]. intros Hk Hb.
  destruct (decide (k = metric t)) as [->|Hne]; [by rewrite Hb|].
  by rewrite lookup_insert_ne in Hk.
Qed.

Lemma scored_frame_keeps t l sp q b s k :
  is_Some (best_results s !! k) -> is_Some (best_results (scored_frame t l sp q b s) !! k).
Proof.
  unfold scored_frame. cbv zeta. destruct (improves t b q); [|done].
  cbn [best_results set_best_results]. intros Hk.
  destruct (decide (k = metric t)) as [->|Hne]; [by rewrite lookup_insert_eq|].
  by rewrite lookup_insert_ne.
Qed.

(** A test returns only when the spec is a dictionary, the prediction is
    bound, the evaluation returns and the metric is known. *)
Lemma score_test_returns t s :
  res (score_test t s) = Ok tt ->
  exists l sp op q b,
    spec s = Some l /\ heap s !! l = Some (OSpec sp) /\ prediction s = Some op /\
    eval t op = Ok q /\ best_results s !! metric t = Some b.
Proof.
  intros Hok. destruct (prediction s) as [op|] eqn:Hp.
  2: { unfold score_test in Hok. rewrite bind_local_unbound in Hok by done. discriminate. }
  destruct (spec s) as [l|] eqn:Hs.
  2: { unfold score_test in Hok.
       rewrite (bind_local _ _ _ _ op Hp), bind_emit_logged, res_logged in Hok.
       destruct (eval t op); [|discriminate]. rewrite bind_lift_ok in Hok.
       unfold spec_setitem in Hok. rewrite bind_assoc, bind_local_unbound in Hok by done.
       discriminate. }
  destruct (heap s !! l) as [ob|] eqn:Hl.
  - destruct (score_test_inv t s l ob op Hs Hl Hp Hok) as (sp & q & b & -> & ? & ?).
    by exists l, sp, op, q, b.
  - unfold score_test in Hok.
    rewrite (bind_local _ _ _ _ op Hp), bind_emit_logged, res_logged in Hok.
    destruct (eval t op); [|discriminate]. rewrite bind_lift_ok in Hok.
    unfold spec_setitem, deref, list_index in Hok.
    rewrite bind_assoc, (bind_local _ _ _ _ l Hs), !bind_assoc, bind_read, Hl in Hok.
    discriminate.
Qed.

Lemma seq_each_cons {A} (x : A) xs (body : A -> CM V M unit) s :
  seq_each (x :: xs) body s = bind (body x) (fun _ => seq_each xs body) s.
Proof. unfold seq_each. cbn [for_each]. apply bind_ext. by intros []. Qed.

Lemma score_loop_returns tests s l ob op :
  spec s = Some l -> heap s !! l = Some ob -> prediction s = Some op ->
  res (seq_each tests score_test s) = Ok tt ->
  heap (final (seq_each tests score_test s)) = <[l := scored_object tests op ob]> (heap s) /\
  Forall (fun t => is_ok (eval t op) = true /\ is_Some (best_results s !! metric t)) tests /\
  (tests <> [] -> is_dict ob = true).
Proof.
  revert s ob. induction tests as [|t tests IH]; intros s ob Hs Hl Hp Hok.
  - split; [|by split]. cbn. destruct ob; cbn; by rewrite list_insert_id.
  - rewrite seq_each_cons, res_bind in Hok. rewrite seq_each_cons.
    destruct (res (score_test t s)) as [[]|e] eqn:Hres; [|discriminate].
    destruct (score_test_inv t s l ob op Hs Hl Hp Hres) as (sp & q & b & -> & Hq & Hb).
    pose proof (score_test_run t s l sp op b q Hs Hl Hp Hb Hq) as Hrun.
    rewrite Hrun in Hok. cbn [final] in Hok.
    rewrite (bind_run _ _ _ _ _ _ Hrun), final_logged.
    destruct (scored_frame_fields t l sp q b s) as (Hs' & Hp' & _ & Hh').
    assert (Hl' : heap (scored_frame t l sp q b s) !! l
                  = Some (OSpec (<[metric t := Score q]> sp))).
    { rewrite Hh'. apply list_lookup_insert_eq. by eapply lookup_lt_Some. }
    destruct (IH _ _ (eq_trans Hs' Hs) Hl' (eq_trans Hp' Hp) Hok) as (Hheap & Hall & _).
    split; [|split].
    + rewrite Hheap, Hh', list_insert_insert_eq. cbn [scored_object with_scores foldl].
      by rewrite Hq.
    + constructor.
      * rewrite Hq, Hb. by split.
      * eapply Forall_impl; [exact Hall|]. cbv beta. intros t' [Ht' Hk]. split; [done|].
        by eapply scored_frame_known.
    + done.
Qed.

Lemma score_loop_runs tests s l ob op :
  spec s = Some l -> heap s !! l = Some ob -> prediction s = Some op ->
  Forall (fun t => is_ok (eval t op) = true /\ is_Some (best_results s !! metric t)) tests ->
  (tests <> [] -> is_dict ob = true) ->
  res (seq_each tests score_test s) = Ok tt.
Proof.
  revert s ob. induction tests as [|t tests IH]; intros s ob Hs Hl Hp Hall Hdict; [done|].
  apply Forall_cons in Hall as [[Hq [b Hb]] Hall].
  destruct ob as [sp|p]; [|by discriminate Hdict].
  destruct (eval t op) as [q|e] eqn:Heval; [|discriminate].
  pose proof (score_test_run t s l sp op b q Hs Hl Hp Hb Heval) as Hrun.
  rewrite seq_each_cons, (bind_run _ _ _ _ _ _ Hrun), res_logged.
  destruct (scored_frame_fields t l sp q b s) as (Hs' & Hp' & _ & Hh').
  eapply IH.
  - exact (eq_trans Hs' Hs).
  - rewrite Hh'. apply list_lookup_insert_eq. by eapply lookup_lt_Some.
  - exact (eq_trans Hp' Hp).
  - eapply Forall_impl; [exact Hall|]. cbv beta. intros t' [Ht' Hk]. split; [done|].
    by apply scored_frame_keeps.
  - done.
Qed.

Lemma score_loop_frame (tests : list (TestDefinition V)) :
  respects (unchanged (outside_scoring (M:=M)) (fun e => negb (is_model_call e)))
           (seq_each tests score_test).
Proof. unfold seq_each, score_test, spec_setitem. repeat frame_step. Qed.
End ScoreLoop.

Section Finish.
Context {V : Type} `{PyValue V} {M : Type}.
Context (plot_method : pyobj V -> string -> option (dict V -> result unit)).
Context (self : StrategyExperiment V M).
Implicit Types (s : frame V M).

Lemma render_plot_run mode fname item s op :
  prediction s = Some op ->
  res (render_plot plot_method self mode fname item s)
  = (if plot_ok plot_method op item then Ok tt
     else res (render_plot plot_method self mode fname item s)) /\
  (plot_ok plot_method op item = false ->
   res (render_plot plot_method self mode fname item s) <> Ok tt).
Proof.
  intros Hp. unfold render_plot, plot_ok. rewrite (bind_local _ _ _ _ op Hp).
  destruct (plot_method op item.1) as [plot_eval|]; [|done].
  rewrite bind_emit_logged, res_logged.
  destruct (plot_eval item.2) as [[]|e]; [|done].
  by rewrite bind_lift_ok.
Qed.

Lemma render_loop_frame mode fname (items : list (string * dict V)) :
  respects (unchanged (fun s : frame V M => s) (fun e => negb (is_model_call e)))
           (seq_each items (render_plot plot_method self mode fname)).
Proof. unfold seq_each, render_plot. repeat frame_step. Qed.

Lemma render_loop_run mode fname items s op :
  prediction s = Some op ->
  res (seq_each items (render_plot plot_method self mode fname) s) = Ok tt
  <-> forallb (plot_ok plot_method op) items = true.
Proof.
  intros Hp. revert s Hp. induction items as [|item items IH]; intros s Hp; [done|].
  rewrite seq_each_cons, res_bind. cbn [forallb].
  destruct (render_plot_run mode fname item s op Hp) as [Hyes Hno].
  pose proof (render_loop_frame mode fname [item] s) as [Hsame _].
  assert (Hfin : final (render_plot plot_method self mode fname item s) = s).
  { rewrite seq_each_cons, final_bind in Hsame.
    by destruct (res (render_plot plot_method self mode fname item s)). }
  destruct (plot_ok plot_method op item).
  - rewrite Hyes, Hfin. cbn [andb]. by apply IH.
  - specialize (Hno eq_refl).
    destruct (res (render_plot plot_method self mode fname item s)) as [[]|e]; [done|].
    cbn [andb]. split; discriminate.
Qed.

Lemma plots_run plots mode fname s op :
  prediction s = Some op ->
  res (bind (plot_items plots)
            (fun items => seq_each items (render_plot plot_method self mode fname)) s) = Ok tt
  <-> plots_ok plot_method plots op = true.
Proof.
  intros Hp. destruct plots as [l|d]; cbn [plot_items plots_ok].
  - rewrite bind_raise_now. split; discriminate.
  - rewrite bind_ret. by apply render_loop_run.
Qed.

Lemma plots_frame plots mode fname :
  respects (unchanged (fun s : frame V M => s) (fun e => negb (is_model_call e)))
    (bind (plot_items plots)
          (fun items => seq_each items (render_plot plot_method self mode fname))).
Proof. unfold plot_items, seq_each, render_plot. repeat frame_step. Qed.

(** Scoring, the report and the plots call nothing of the strategy and
    leave the model, the prediction and the input alone. *)
Lemma finish_point_quiet tests plots mode fname :
  respects (unchanged (fun s : frame V M => (spec s, prediction s, model s, model_input s))
                      (fun e => negb (is_model_call e)))
           (finish_point plot_method self tests plots mode fname).
Proof.
  unfold finish_point, seq_each, score_test, spec_setitem, persist_spec, pickle_dump,
    plot_items, render_plot.
  repeat frame_step.
Qed.

Lemma finish_point_returns tests plots mode fname s l ob op :
  spec s = Some l -> heap s !! l = Some ob -> prediction s = Some op ->
  res (finish_point plot_method self tests plots mode fname s) = Ok tt ->
  fs (final (finish_point plot_method self tests plots mode fname s))
  = <[spec_fname self mode fname := Pickle (scored_object tests op ob)]> (fs s) /\
  heap (final (finish_point plot_method self tests plots mode fname s))
  = <[l := scored_object tests op ob]> (heap s) /\
  Forall (fun t => is_ok (eval t op) = true /\ is_Some (best_results s !! metric t)) tests /\
  (tests <> [] -> is_dict ob = true) /\
  plots_ok plot_method plots op = true.
Proof.
  intros Hs Hl Hp. unfold finish_point.
  pose proof (score_loop_frame (M:=M) tests s) as [Hout _].
  rewrite res_bind, final_bind.
  set (o1 := seq_each tests score_test s) in *.
  destruct (res o1) as [[]|e] eqn:Hres; [|discriminate].
  destruct (score_loop_returns tests s l ob op Hs Hl Hp Hres) as (Hheap & Hall & Hdict).
  fold o1 in Hheap. unfold outside_scoring in Hout.
  assert (Hs1 : spec (final o1) = Some l) by congruence.
  assert (Hp1 : prediction (final o1) = Some op) by congruence.
  assert (Hfs1 : fs (final o1) = fs s) by congruence.
  assert (Hl1 : heap (final o1) !! l = Some (scored_object tests op ob)).
  { rewrite Hheap. apply list_lookup_insert_eq. by eapply lookup_lt_Some. }
  pose proof (persist_spec_run (spec_fname self mode fname) (final o1) l _ Hs1 Hl1) as Hrun.
  rewrite (bind_run _ _ _ _ _ _ Hrun), res_logged, final_logged.
  set (s2 := set_fs _ (final o1)) in *.
  intros Hplots.
  pose proof (plots_frame plots mode fname s2) as [Hsame _].
  rewrite Hsame. apply (plots_run plots mode fname s2 op Hp1) in Hplots.
  subst s2. cbn [fs heap set_fs]. rewrite Hfs1. done.
Qed.

Lemma finish_point_runs tests plots mode fname s l ob op :
  spec s = Some l -> heap s !! l = Some ob -> prediction s = Some op ->
  Forall (fun t => is_ok (eval t op) = true /\ is_Some (best_results s !! metric t)) tests ->
  (tests <> [] -> is_dict ob = true) ->
  plots_ok plot_method plots op = true ->
  res (finish_point plot_method self tests plots mode fname s) = Ok tt.
Proof.
  intros Hs Hl Hp Hall Hdict Hplots. unfold finish_point.
  pose proof (score_loop_runs tests s l ob op Hs Hl Hp Hall Hdict) as Hres.
  pose proof (score_loop_frame (M:=M) tests s) as [Hout _].
  destruct (score_loop_returns tests s l ob op Hs Hl Hp Hres) as (Hheap & _ & _).
  rewrite res_bind, Hres.
  set (o1 := seq_each tests score_test s) in *. unfold outside_scoring in Hout.
  assert (Hs1 : spec (final o1) = Some l) by congruence.
  assert (Hp1 : prediction (final o1) = Some op) by congruence.
  assert (Hl1 : heap (final o1) !! l = Some (scored_object tests op ob)).
  { rewrite Hheap. apply list_lookup_insert_eq. by eapply lookup_lt_Some. }
  pose proof (persist_spec_run (spec_fname self mode fname) (final o1) l _ Hs1 Hl1) as Hrun.
  rewrite (bind_run _ _ _ _ _ _ Hrun), res_logged.
  by apply (plots_run plots mode fname _ op).
Qed.
End Finish.

(** ** The load step and the recomputation *)

Section Begin.
Context {V : Type} `{PyValue V} {M : Type}.
Context (self : StrategyExperiment V M).
Implicit Types (s : frame V M).

Lemma begin_point_state keys idx hz mode cfg s :
  let spec0 := dict_of_zip keys cfg in
  let fname := get_filename (Strategy self) spec0 in
  let sf := spec_fname self mode fname in
  let pf := prediction_fname self mode idx hz fname in
  let o0 := begin_point self keys idx hz mode cfg s in
  outside_load (final o0) = outside_load s /\
  (exists l extra, spec (final o0) = Some l /\ heap (final o0) = heap s ++ extra /\
                   (length (heap s) <= l)%nat /\
                   heap (final o0) !! l = Some (spec_object spec0 sf (fs s))) /\
  pred_loaded_successfully (final o0)
  = (match cached_prediction sf pf (fs s) with Some _ => true | None => false end) /\
  prediction (final o0)
  = (match cached_prediction sf pf (fs s) with Some o => Some o | None => prediction s end) /\
  log o0 = Print (MsgPath (model_fname self fname))
             :: (if is_raw (fs s !! sf) || is_raw (fs s !! pf)
                 then [Print MsgLoadError] else []).
Proof.
  intros spec0 fname sf pf o0. subst o0. rewrite begin_point_run. fold spec0 fname sf pf.
  rewrite load_cached_run, final_logged, log_logged.
  unfold cached_prediction, spec_object, fresh_spec. cbn [fs set_pred_loaded set_spec set_heap].
  destruct (fs s !! sf) as [[ob|bytes]|] eqn:Hsf; cbn [is_raw spec_loaded orb]; cbv zeta.
  - destruct (fs s !! pf) as [[op|bytes]|] eqn:Hpf; cbn;
      (split; [reflexivity|]); (split; [|done]);
      exists (length (heap s ++ [OSpec spec0])), [OSpec spec0; ob];
      (split; [reflexivity|]); (split; [by rewrite <- app_assoc|]);
      (split; [rewrite length_app; lia|]); by rewrite list_lookup_middle.
  - cbn. split; [reflexivity|]. split; [|done].
    exists (length (heap s)), [OSpec spec0]. split; [reflexivity|]. split; [done|].
    split; [lia|]. by rewrite list_lookup_middle.
  - destruct (fs s !! pf) as [[op|bytes]|] eqn:Hpf; cbn;
      (split; [reflexivity|]); (split; [|done]);
      exists (length (heap s)), [OSpec spec0];
      (split; [reflexivity|]); (split; [done|]); (split; [lia|]);
      by rewrite list_lookup_middle.
Qed.

Lemma begin_point_quiet keys idx hz mode cfg :
  respects (unchanged (fun s : frame V M => tt)
                      (fun e => negb (is_model_call e) && negb (is_fit_or_predict e)))
           (begin_point self keys idx hz mode cfg).
Proof. unfold begin_point, load_cached, load_body, alloc. repeat frame_step. Qed.

Lemma recompute_frame idx hz fk ek mode pk ts fname :
  respects (unchanged (fun s : frame V M => (heap s, spec s, best_results s, best_strategy s))
                      (fun _ => true))
           (recompute self idx hz fk ek mode pk ts fname).
Proof.
  unfold recompute, obtain_model, predict_and_store, pickle_dump. repeat frame_step.
Qed.

(** A recomputation that returns obtained a model, asked it for a
    forecast and pickled the prediction built from it. *)
Lemma recompute_returns idx hz fk ek mode pk ts fname s :
  let pf := prediction_fname self mode idx hz fname in
  let r := recompute self idx hz fk ek mode pk ts fname s in
  res r = Ok tt ->
  exists p input,
    prediction (final r) = Some (OPred p) /\
    fs (final r) !! pf = Some (Pickle (OPred p)) /\
    existsb is_model_call (log r) = true /\
    In (Predict input hz) (log r).
Proof.
  intros pf r. subst r. unfold recompute. rewrite res_bind, final_bind, log_bind.
  set (o1 := obtain_model self fk (model_fname self fname) s).
  destruct (res o1) as [[]|e] eqn:Hok; [|discriminate].
  destruct (obtain_model_ok self fk _ s Hok) as ([m Hm] & Hcall & _). fold o1 in Hm, Hcall.
  fold pf. rewrite (predict_and_store_run self _ _ _ _ _ _ _ m Hm). cbv zeta.
  destruct (0 <=? idx - seed_length (Strategy self) m)%Z; [|discriminate].
  destruct (predict (Strategy self) m _ hz ek) as [raw|e]; [|discriminate].
  destruct (res (build_prediction (dataset self) pk raw)) as [p|e]; [|discriminate].
  intros _. exists p, (input_for self ts idx m (final o1)). cbn [final log prediction fs set_fs set_prediction].
  split; [reflexivity|]. split; [by rewrite lookup_insert_eq|]. split.
  - by rewrite existsb_app, Hcall.
  - apply in_or_app. right. by left.
Qed.
End Begin.

Section GridPoint.
Context {V : Type} `{PyValue V} {M : Type}.
Context (plot_method : pyobj V -> string -> option (dict V -> result unit)).
Context (self : StrategyExperiment V M).
Implicit Types (s : frame V M).

(** What a grid point that returns leaves behind. *)
Lemma grid_point_returns tests keys idx hz plots fk ek mode pk ts cfg s :
  let spec0 := dict_of_zip keys cfg in
  let fname := get_filename (Strategy self) spec0 in
  let sf := spec_fname self mode fname in
  let pf := prediction_fname self mode idx hz fname in
  let ob := spec_object spec0 sf (fs s) in
  let gp := grid_point plot_method self tests keys idx hz plots fk ek mode pk ts cfg s in
  res gp = Ok tt ->
  exists l op,
    spec (final gp) = Some l /\ (length (heap s) <= l)%nat /\
    prediction (final gp) = Some op /\
    heap (final gp) !! l = Some (scored_object tests op ob) /\
    fs (final gp) !! sf = Some (Pickle (scored_object tests op ob)) /\
    fs (final gp) !! pf = Some (Pickle op) /\
    Forall (fun t => is_ok (eval t op) = true) tests /\
    (tests <> [] -> is_dict ob = true) /\
    plots_ok plot_method plots op = true /\
    match cached_prediction sf pf (fs s) with
    | Some o => op = o /\
                forallb (fun e => negb (is_model_call e)) (log gp) = true /\
                fs (final gp) = <[sf := Pickle (scored_object tests op ob)]> (fs s)
    | None => exists p input, op = OPred p /\
                              existsb is_model_call (log gp) = true /\
                              In (Predict input hz) (log gp)
    end.
Proof.
  intros spec0 fname sf pf ob gp. subst gp. rewrite grid_point_run. fold spec0 fname sf pf.
  destruct (begin_point_state self keys idx hz mode cfg s)
    as (Hout & (l & extra & Hs0 & Hh0 & Hfresh & Hl0) & Hloaded & Hpred & Hlog0).
  fold spec0 fname sf pf ob in Hout, Hs0, Hh0, Hl0, Hloaded, Hpred, Hlog0.
  pose proof (begin_point_quiet self keys idx hz mode cfg s) as [_ Hquiet0].
  set (o0 := begin_point self keys idx hz mode cfg s) in *.
  unfold outside_load in Hout.
  assert (Hfs0 : fs (final o0) = fs s) by congruence.
  rewrite res_logged, final_logged, log_logged, res_bind, final_bind, log_bind.
  rewrite Hloaded.
  destruct (cached_prediction sf pf (fs s)) as [o|] eqn:Hcache.
  - (* the prediction was loaded *)
    change (ret tt (final o0)) with (Outcome (E:=event V) (Ok tt) (final o0) []).
    cbn [res final log app].
    set (fin := finish_point plot_method self tests plots mode fname (final o0)).
    intros Hok.
    destruct (finish_point_returns plot_method self tests plots mode fname _ l ob o
                Hs0 Hl0 Hpred Hok) as (Hfs & Hheap & Hall & Hdict & Hplots).
    pose proof (finish_point_quiet plot_method self tests plots mode fname (final o0))
      as [Hsame Hquiet].
    fold fin in Hfs, Hheap, Hsame, Hquiet.
    assert (Hpf : fs s !! pf = Some (Pickle o)).
    { unfold cached_prediction in Hcache. destruct (is_raw _); [done|].
      destruct (fs s !! pf) as [[]|]; congruence. }
    exists l, o. split; [congruence|]. split; [done|]. split; [congruence|].
    split. { rewrite Hheap. apply list_lookup_insert_eq. by eapply lookup_lt_Some. }
    split. { by rewrite Hfs, lookup_insert_eq. }
    split. { rewrite Hfs, lookup_insert_ne by apply names_differ. by rewrite Hfs0. }
    split. { eapply Forall_impl; [exact Hall|]. by intros t [? _]. }
    split; [done|]. split; [done|]. split; [done|]. split.
    + rewrite forallb_app, Hquiet, andb_true_r.
      eapply forallb_forall. intros e He.
      eapply forallb_forall in Hquiet0; [|exact He]. by apply andb_prop in Hquiet0 as [? _].
    + by rewrite Hfs, Hfs0.
  - (* the prediction is recomputed *)
    set (r := recompute self idx hz fk ek mode pk ts fname (final o0)).
    destruct (res r) as [[]|e] eqn:Hr; [|discriminate].
    destruct (recompute_returns self idx hz fk ek mode pk ts fname (final o0) Hr)
      as (p & input & Hp & Hpf & Hcall & Hin).
    pose proof (recompute_frame self idx hz fk ek mode pk ts fname (final o0)) as [Hsame1 _].
    fold r in Hp, Hpf, Hcall, Hin, Hsame1. fold pf in Hpf.
    assert (Hs1 : spec (final r) = Some l) by congruence.
    assert (Hl1 : heap (final r) !! l = Some ob) by congruence.
    set (fin := finish_point plot_method self tests plots mode fname (final r)).
    intros Hok.
    destruct (finish_point_returns plot_method self tests plots mode fname _ l ob (OPred p)
                Hs1 Hl1 Hp Hok) as (Hfs & Hheap & Hall & Hdict & Hplots).
    pose proof (finish_point_quiet plot_method self tests plots mode fname (final r))
      as [Hsame _].
    fold fin in Hfs, Hheap, Hsame.
    exists l, (OPred p). split; [congruence|]. split; [done|]. split; [congruence|].
    split. { rewrite Hheap. apply list_lookup_insert_eq. by eapply lookup_lt_Some. }
    split. { by rewrite Hfs, lookup_insert_eq. }
    split. { by rewrite Hfs, lookup_insert_ne by apply names_differ. }
    split. { eapply Forall_impl; [exact Hall|]. by intros t [? _]. }
    split; [done|]. split; [done|].
    exists p, input. split; [done|]. split.
    + rewrite !existsb_app, Hcall. by rewrite orb_true_r.
    + apply in_or_app. right. apply in_or_app. by left.
Qed.
End GridPoint.

(** ** Unreadable cache files *)

Section LoadFailure.
Context {V : Type} `{PyValue V} {M : Type}.
Context (plot_method : pyobj V -> string -> option (dict V -> result unit)).
Context (self : StrategyExperiment V M).
Implicit Types (s : frame V M).

Lemma unreadable_is_no_cache sf pf (d : gmap string (file V)) :
  is_raw (d !! sf) || is_raw (d !! pf) = true -> cached_prediction sf pf d = None.
Proof.
  unfold cached_prediction. destruct (is_raw (d !! sf)); [done|]. cbn [orb].
  by destruct (d !! pf) as [[]|].
Qed.

(** C4. At a grid point whose spec report or prediction file is present
    and cannot be unpickled, the load step returns: the failure is caught,
    the diagnostic is printed after the path and no prediction counts as
    loaded.  The local variables are then those of the same step on a disk
    without the unreadable file (and without the prediction file that was
    not looked at), where the prediction is missing.  The grid point goes
    on with the recomputation, and when it returns, the strategy was
    called, [predict] among its calls, and the prediction file holds the
    pickle of the new prediction. *)
Theorem load_failure_is_a_cache_miss tests keys idx hz plots fk ek mode pk ts cfg s :
  let fname := get_filename (Strategy self) (dict_of_zip keys cfg) in
  let sf := spec_fname self mode fname in
  let pf := prediction_fname self mode idx hz fname in
  let o0 := begin_point self keys idx hz mode cfg s in
  let miss := begin_point self keys idx hz mode cfg
                          (set_fs (without_unreadable sf pf (fs s)) s) in
  let gp := grid_point plot_method self tests keys idx hz plots fk ek mode pk ts cfg s in
  is_raw (fs s !! sf) || is_raw (fs s !! pf) = true ->
  (res o0 = Ok tt /\
   log o0 = [Print (MsgPath (model_fname self fname)); Print MsgLoadError] /\
   pred_loaded_successfully (final o0) = false) /\
  (without_unreadable sf pf (fs s) !! pf = None /\
   log miss = [Print (MsgPath (model_fname self fname))] /\
   locals (final o0) = locals (final miss) /\
   model (final o0) = model (final miss)) /\
  gp = logged (log o0)
         (bind (recompute self idx hz fk ek mode pk ts fname)
               (fun _ => finish_point plot_method self tests plots mode fname) (final o0)) /\
  (res gp = Ok tt ->
   exists p input,
     existsb is_model_call (log gp) = true /\ In (Predict input hz) (log gp) /\
     prediction (final gp) = Some (OPred p) /\
     fs (final gp) !! pf = Some (Pickle (OPred p))).
Proof.
  intros fname sf pf o0 miss gp Hraw.
  pose proof (unreadable_is_no_cache sf pf (fs s) Hraw) as Hcache.
  destruct (begin_point_state self keys idx hz mode cfg s) as (_ & _ & Hloaded & _ & Hlog0).
  fold fname sf pf o0 in Hloaded, Hlog0. rewrite Hcache in Hloaded. rewrite Hraw in Hlog0.
  split; [|split; [|split]].
  - split; [apply begin_point_returns|]. by split.
  - assert (Hne : sf <> pf) by apply names_differ.
    subst o0 miss. rewrite !begin_point_run. fold fname sf pf.
    rewrite !load_cached_run, !final_logged, !log_logged.
    unfold without_unreadable, fresh_spec.
    cbn [fs set_fs set_pred_loaded set_spec set_heap heap].
    destruct (fs s !! sf) as [[ob|bytes]|] eqn:Hsf; cbn [is_raw orb] in Hraw |- *.
    + rewrite lookup_delete_eq, lookup_delete_ne, Hsf by done. cbn [is_raw spec_loaded].
      cbv zeta. destruct (fs s !! pf) as [[op|bytes]|]; [discriminate| |discriminate].
      done.
    + rewrite lookup_delete_ne, !lookup_delete_eq by done. done.
    + rewrite lookup_delete_eq, lookup_delete_ne, Hsf by done. cbn [is_raw spec_loaded].
      cbv zeta. destruct (fs s !! pf) as [[op|bytes]|]; [discriminate| |discriminate].
      done.
  - subst gp. rewrite grid_point_run. fold fname o0. by rewrite Hloaded.
  - intros Hok.
    destruct (grid_point_returns plot_method self tests keys idx hz plots fk ek mode pk ts cfg
                s Hok) as (l & op & _ & _ & Hp & _ & _ & Hpf & _ & _ & _ & Hmiss).
    fold fname sf pf gp in Hp, Hpf, Hmiss. rewrite Hcache in Hmiss.
    destruct Hmiss as (p & input & -> & Hcall & Hin). by exists p, input.
Qed.
End LoadFailure.

(** ** The evaluations of a grid point *)

Section Evaluations.
Context {V : Type} `{PyValue V} {M : Type}.
Context (plot_method : pyobj V -> string -> option (dict V -> result unit)).
Context (self : StrategyExperiment V M).
Implicit Types (s : frame V M).

Lemma evaluations_app (l l' : list (event V)) :
  evaluations (l ++ l') = evaluations l ++ evaluations l'.
Proof. induction l as [|e l IH]; [done|]. destruct e; cbn; by rewrite ?IH. Qed.

Lemma evaluations_quiet (l : list (event V)) :
  forallb not_evaluation l = true -> evaluations l = [].
Proof.
  induction l as [|e l IH]; [done|]. cbn. intros [He Hl]%andb_prop.
  destruct e; try discriminate; by apply IH.
Qed.

Lemma score_events_evaluations (t : TestDefinition V) q b :
  evaluations (score_events t q b) = [(metric t, Ok q)].
Proof. unfold score_events. by destruct (improves t b q). Qed.

Lemma score_loop_evaluations tests s l ob op :
  spec s = Some l -> heap s !! l = Some ob -> prediction s = Some op ->
  res (seq_each tests score_test s) = Ok tt ->
  evaluations (log (seq_each tests score_test s)) = map (fun t => (metric t, eval t op)) tests.
Proof.
  revert s ob. induction tests as [|t tests IH]; intros s ob Hs Hl Hp Hok; [done|].
  rewrite seq_each_cons, res_bind in Hok. rewrite seq_each_cons.
  destruct (res (score_test t s)) as [[]|e] eqn:Hres; [|discriminate].
  destruct (score_test_inv t s l ob op Hs Hl Hp Hres) as (sp & q & b & -> & Hq & Hb).
  pose proof (score_test_run t s l sp op b q Hs Hl Hp Hb Hq) as Hrun.
  rewrite Hrun in Hok. cbn [final] in Hok.
  rewrite (bind_run _ _ _ _ _ _ Hrun), log_logged, evaluations_app, score_events_evaluations.
  destruct (scored_frame_fields t l sp q b s) as (Hs' & Hp' & _ & Hh').
  assert (Hl' : heap (scored_frame t l sp q b s) !! l
                = Some (OSpec (<[metric t := Score q]> sp))).
  { rewrite Hh'. apply list_lookup_insert_eq. by eapply lookup_lt_Some. }
  rewrite (IH _ _ (eq_trans Hs' Hs) Hl' (eq_trans Hp' Hp) Hok). cbn [map app]. by rewrite Hq.
Qed.

Lemma begin_point_prints keys idx hz mode cfg :
  respects (unchanged (fun s : frame V M => tt) (@not_evaluation V))
           (begin_point self keys idx hz mode cfg).
Proof. unfold begin_point, load_cached, load_body, alloc. repeat frame_step. Qed.

Lemma recompute_evaluates_nothing idx hz fk ek mode pk ts fname :
  respects (unchanged (fun s : frame V M => tt) (@not_evaluation V))
           (recompute self idx hz fk ek mode pk ts fname).
Proof.
  unfold recompute, obtain_model, predict_and_store, pickle_dump. repeat frame_step.
Qed.

Lemma report_evaluates_nothing plots mode fname :
  respects (unchanged (fun s : frame V M => tt) (@not_evaluation V))
    (bind (persist_spec (spec_fname self mode fname))
          (fun _ => bind (plot_items plots)
             (fun items => seq_each items (render_plot plot_method self mode fname)))).
Proof.
  unfold persist_spec, pickle_dump, plot_items, seq_each, render_plot. repeat frame_step.
Qed.

Lemma finish_point_evaluations tests plots mode fname s l ob op :
  spec s = Some l -> heap s !! l = Some ob -> prediction s = Some op ->
  res (finish_point plot_method self tests plots mode fname s) = Ok tt ->
  evaluations (log (finish_point plot_method self tests plots mode fname s))
  = map (fun t => (metric t, eval t op)) tests.
Proof.
  intros Hs Hl Hp. unfold finish_point. rewrite res_bind, log_bind.
  destruct (res (seq_each tests score_test s)) as [[]|e] eqn:Hres; [|discriminate].
  intros _. rewrite evaluations_app, (score_loop_evaluations tests s l ob op Hs Hl Hp Hres).
  pose proof (report_evaluates_nothing plots mode fname
                (final (seq_each tests score_test s))) as [_ Hq].
  by rewrite (evaluations_quiet _ Hq), app_nil_r.
Qed.

(** Every test is evaluated once, in order, on the prediction the grid
    point ends with. *)
Lemma grid_point_evaluations tests keys idx hz plots fk ek mode pk ts cfg s op :
  let gp := grid_point plot_method self tests keys idx hz plots fk ek mode pk ts cfg s in
  res gp = Ok tt -> prediction (final gp) = Some op ->
  evaluations (log gp) = map (fun t => (metric t, eval t op)) tests.
Proof.
  intros gp. subst gp. rewrite grid_point_run.
  destruct (begin_point_state self keys idx hz mode cfg s)
    as (_ & (l & extra & Hs0 & _ & _ & Hl0) & _ & _ & _).
  pose proof (begin_point_prints keys idx hz mode cfg s) as [_ Hq0].
  set (o0 := begin_point self keys idx hz mode cfg s) in *.
  set (fname := get_filename (Strategy self) (dict_of_zip keys cfg)) in *.
  set (step := if pred_loaded_successfully (final o0) then ret tt
               else recompute self idx hz fk ek mode pk ts fname).
  assert (Hstep : respects (unchanged (fun s : frame V M => (heap s, spec s))
                                      (@not_evaluation V)) step).
  { subst step. destruct (pred_loaded_successfully (final o0)); [apply respects_ret; tc_solve|].
    unfold recompute, obtain_model, predict_and_store, pickle_dump. repeat frame_step. }
  destruct (Hstep (final o0)) as [Hsame Hq1].
  rewrite res_logged, final_logged, log_logged, res_bind, final_bind, log_bind.
  destruct (res (step (final o0))) as [[]|e]; [|discriminate].
  intros Hok Hp.
  pose proof (finish_point_quiet plot_method self tests plots mode fname (final (step (final o0))))
    as [Hkeep _].
  assert (Hp1 : prediction (final (step (final o0))) = Some op) by congruence.
  assert (Hs1 : spec (final (step (final o0))) = Some l) by congruence.
  assert (Hl1 : heap (final (step (final o0))) !! l = Some (spec_object (dict_of_zip keys cfg)
                   (spec_fname self mode fname) (fs s))) by congruence.
  rewrite !evaluations_app, (evaluations_quiet _ Hq0), (evaluations_quiet _ Hq1).
  exact (finish_point_evaluations tests plots mode fname _ l _ op Hs1 Hl1 Hp1 Hok).
Qed.
End Evaluations.

(** ** Scoring twice *)

Section Idempotence.
Context {V : Type} `{PyValue V}.

Lemma foldl_settles {A B} (h : A -> B -> A) (ts : list B) :
  (forall t, (forall v, h v t = v) \/ (exists c, forall v, h v t = c)) ->
  (forall v, foldl h v ts = v) \/ (exists c, forall v, foldl h v ts = c).
Proof.
  intros Hh. induction ts as [|t ts IH]; [by left|]. cbn [foldl].
  destruct IH as [Hid|[c Hc]].
  - destruct (Hh t) as [Ht|[c Ht]].
    + left. intros v. by rewrite Hid, Ht.
    + right. exists c. intros v. by rewrite Hid, Ht.
  - right. exists c. intros v. apply Hc.
Qed.

Lemma with_scores_lookup (tests : list (TestDefinition V)) op sp k :
  with_scores tests op sp !! k
  = foldl (fun v t => match eval t op with
                      | Ok q => if decide (k = metric t) then Some (Score q) else v
                      | Raise _ => v
                      end) (sp !! k) tests.
Proof.
  unfold with_scores. revert sp. induction tests as [|t tests IH]; intros sp; [done|].
  cbn [foldl]. rewrite IH. f_equal. destruct (eval t op) as [q|e]; [|done].
  destruct (decide (k = metric t)) as [->|Hne]; [by rewrite lookup_insert_eq|].
  by rewrite lookup_insert_ne.
Qed.

(** Storing the scores of a prediction a second time changes nothing. *)
Lemma with_scores_idempotent (tests : list (TestDefinition V)) op sp :
  with_scores tests op (with_scores tests op sp) = with_scores tests op sp.
Proof.
  apply map_eq. intros k. rewrite (with_scores_lookup tests op (with_scores tests op sp)).
  rewrite (with_scores_lookup tests op sp).
  match goal with |- foldl ?h _ _ = _ => destruct (foldl_settles h tests) as [Hid|[c Hc]] end.
  - intros t. destruct (eval t op) as [q|e]; [|by left].
    destruct (decide (k = metric t)); [right; by eexists|by left].
  - apply Hid.
  - by rewrite !Hc.
Qed.

Lemma scored_object_idempotent (tests : list (TestDefinition V)) op ob :
  scored_object tests op (scored_object tests op ob) = scored_object tests op ob.
Proof. destruct ob; cbn; [by rewrite with_scores_idempotent|done]. Qed.

Lemma scored_object_dict (tests : list (TestDefinition V)) op ob :
  is_dict (scored_object tests op ob) = is_dict ob.
Proof. by destruct ob. Qed.

Lemma with_scores_keeps (tests : list (TestDefinition V)) op sp k :
  (exists q, sp !! k = Some (Score q)) -> exists q, with_scores tests op sp !! k = Some (Score q).
Proof.
  unfold with_scores. revert sp. induction tests as [|t tests IH]; intros sp Hk; [done|].
  cbn [foldl]. apply IH. destruct (eval t op) as [q|e]; [|done].
  destruct (decide (k = metric t)) as [->|Hne].
  - exists q. by rewrite lookup_insert_eq.
  - by rewrite lookup_insert_ne.
Qed.

Lemma with_scores_has (tests : list (TestDefinition V)) op sp t :
  In t tests -> Forall (fun t => is_ok (eval t op) = true) tests ->
  exists q, with_scores tests op sp !! metric t = Some (Score q).
Proof.
  revert sp. induction tests as [|t' tests IH]; intros sp Hin Hall; [done|].
  apply Forall_cons in Hall as [Hok Hall]. destruct Hin as [->|Hin].
  - unfold with_scores. cbn [foldl]. apply with_scores_keeps.
    destruct (eval t op) as [q|e]; [|discriminate]. exists q. by rewrite lookup_insert_eq.
  - unfold with_scores. cbn [foldl]. by apply IH.
Qed.
End Idempotence.

(** ** The cached prediction *)

Section Cached.
Context {V : Type} `{PyValue V} {M : Type}.
Context (plot_method : pyobj V -> string -> option (dict V -> result unit)).
Context (self : StrategyExperiment V M).
Implicit Types (s : frame V M).

Lemma grid_point_cached tests keys idx hz plots fk ek mode pk ts cfg s o :
  let fname := get_filename (Strategy self) (dict_of_zip keys cfg) in
  let sf := spec_fname self mode fname in
  let pf := prediction_fname self mode idx hz fname in
  let o0 := begin_point self keys idx hz mode cfg s in
  cached_prediction sf pf (fs s) = Some o ->
  grid_point plot_method self tests keys idx hz plots fk ek mode pk ts cfg s
  = logged (log o0) (finish_point plot_method self tests plots mode fname (final o0)) /\
  pred_loaded_successfully (final o0) = true /\ prediction (final o0) = Some o.
Proof.
  intros fname sf pf o0 Hcache.
  destruct (begin_point_state self keys idx hz mode cfg s) as (_ & _ & Hloaded & Hpred & _).
  fold fname sf pf o0 in Hloaded, Hpred. rewrite Hcache in Hloaded, Hpred.
  split; [|by split]. rewrite grid_point_run. fold fname o0. rewrite Hloaded.
  by rewrite bind_ret.
Qed.

(** C6. At a grid point whose prediction is loaded from its file the
    strategy is not called: no load, constructor, fit, save or predict.
    Whenever a grid point returns, every test was evaluated once, in
    order, on the prediction the point ends with (the loaded one, if one
    was loaded), every test's metric is an entry of the spec, and the spec
    report and the prediction file hold the pickles of that spec and of
    that prediction.  Running the same grid point again on the disk it
    left, with the metrics known to the best-results table, returns,
    leaves the disk as it is and does not call the strategy. *)
Theorem cached_prediction_short_circuits tests keys idx hz plots fk ek mode pk ts cfg s :
  let spec0 := dict_of_zip keys cfg in
  let fname := get_filename (Strategy self) spec0 in
  let sf := spec_fname self mode fname in
  let pf := prediction_fname self mode idx hz fname in
  let ob := spec_object spec0 sf (fs s) in
  let gp := grid_point plot_method self tests keys idx hz plots fk ek mode pk ts cfg in
  (forall o, cached_prediction sf pf (fs s) = Some o ->
     forallb (fun e => negb (is_model_call e)) (log (gp s)) = true /\
     (res (gp s) = Ok tt -> prediction (final (gp s)) = Some o)) /\
  (res (gp s) = Ok tt ->
   exists l op,
     spec (final (gp s)) = Some l /\ prediction (final (gp s)) = Some op /\
     evaluations (log (gp s)) = map (fun t => (metric t, eval t op)) tests /\
     heap (final (gp s)) !! l = Some (scored_object tests op ob) /\
     (forall t, In t tests ->
        exists sp q, scored_object tests op ob = OSpec sp /\
                     sp !! metric t = Some (Score q)) /\
     fs (final (gp s)) !! sf = Some (Pickle (scored_object tests op ob)) /\
     fs (final (gp s)) !! pf = Some (Pickle op)) /\
  (res (gp s) = Ok tt ->
   forall s', fs s' = fs (final (gp s)) ->
              Forall (fun t => is_Some (best_results s' !! metric t)) tests ->
     res (gp s') = Ok tt /\ fs (final (gp s')) = fs s' /\
     forallb (fun e => negb (is_model_call e)) (log (gp s')) = true).
Proof.
  intros spec0 fname sf pf ob gp. split; [|split].
  - intros o Hcache.
    destruct (grid_point_cached tests keys idx hz plots fk ek mode pk ts cfg s o Hcache)
      as (Hrun & _ & Hpred).
    fold spec0 fname gp in Hrun, Hpred.
    pose proof (begin_point_quiet self keys idx hz mode cfg s) as [_ Hq0].
    pose proof (finish_point_quiet plot_method self tests plots mode fname
                  (final (begin_point self keys idx hz mode cfg s))) as [Hsame Hq1].
    rewrite Hrun, log_logged, final_logged, forallb_app, Hq1, andb_true_r. split.
    + eapply forallb_forall. intros e He.
      eapply forallb_forall in Hq0; [|exact He]. by apply andb_prop in Hq0 as [? _].
    + intros _. congruence.
  - intros Hok.
    destruct (grid_point_returns plot_method self tests keys idx hz plots fk ek mode pk ts cfg
                s Hok) as (l & op & Hs & _ & Hp & Hl & Hsf & Hpf & Hall & Hdict & _).
    fold spec0 fname sf pf ob gp in Hs, Hp, Hl, Hsf, Hpf, Hall, Hdict.
    exists l, op. split; [done|]. split; [done|]. split.
    { by apply (grid_point_evaluations plot_method self). }
    split; [done|]. split; [|by split].
    intros t Hin. destruct ob as [sp|p] eqn:Hob.
    + destruct (with_scores_has tests op sp t Hin Hall) as [q Hq].
      by exists (with_scores tests op sp), q.
    + assert (tests <> []) as Hne by (intros ->; by destruct Hin).
      by discriminate (Hdict Hne).
  - intros Hok s' Hfs Hkeys.
    destruct (grid_point_returns plot_method self tests keys idx hz plots fk ek mode pk ts cfg
                s Hok) as (l & op & _ & _ & _ & _ & Hsf & Hpf & Hall & Hdict & Hplots & _).
    fold spec0 fname sf pf ob gp in Hsf, Hpf, Hall, Hdict, Hplots.
    rewrite <- Hfs in Hsf, Hpf.
    assert (Hcache : cached_prediction sf pf (fs s') = Some op).
    { unfold cached_prediction. by rewrite Hsf, Hpf. }
    assert (Hob : spec_object spec0 sf (fs s') = scored_object tests op ob).
    { unfold spec_object. by rewrite Hsf. }
    destruct (grid_point_cached tests keys idx hz plots fk ek mode pk ts cfg s' op Hcache)
      as (Hrun & _ & Hpred).
    destruct (begin_point_state self keys idx hz mode cfg s')
      as (Hout & (l' & extra & Hs0 & _ & _ & Hl0) & _ & _ & _).
    fold spec0 fname sf pf in Hrun, Hpred, Hout, Hs0, Hl0. rewrite Hob in Hl0.
    unfold outside_load in Hout.
    assert (Hok' : res (gp s') = Ok tt).
    { unfold gp. rewrite Hrun, res_logged.
      apply (finish_point_runs plot_method self tests plots mode fname _ l'
               (scored_object tests op ob) op Hs0 Hl0 Hpred); [| |done].
      - apply Forall_forall. intros t Ht. split.
        + by eapply Forall_forall in Hall.
        + eapply Forall_forall in Hkeys; [|exact Ht].
          replace (best_results (final (begin_point self keys idx hz mode cfg s')))
            with (best_results s') by congruence.
          done.
      - intros Hne. rewrite scored_object_dict. by apply Hdict. }
    split; [done|].
    destruct (grid_point_returns plot_method self tests keys idx hz plots fk ek mode pk ts cfg
                s' Hok') as (_ & op' & _ & _ & _ & _ & _ & _ & _ & _ & _ & Hhit).
    fold spec0 fname sf pf gp in Hhit. rewrite Hcache, Hob in Hhit.
    destruct Hhit as (-> & Hquiet & Hfs').
    split; [|done].
    rewrite Hfs', scored_object_idempotent. by apply insert_id.
Qed.
End Cached.

(** ** Relations on runs that return *)

Section RespectsOk.
Context {E S : Type} (R : S -> S -> list E -> Prop) `{!Composable R}.

Lemma respects_ok_of {A} (m : SE E S A) : respects R m -> respects_ok R m.
Proof. intros Hm s _. apply Hm. Qed.

Lemma respects_ok_bind {A B} (m : SE E S A) (k : A -> SE E S B) :
  respects_ok R m -> (forall a, respects_ok R (k a)) -> respects_ok R (bind m k).
Proof.
  intros Hm Hk s. rewrite res_bind, final_bind, log_bind.
  destruct (res (m s)) as [a|e] eqn:Hres; [|discriminate].
  intros Hok. eapply composable_trans.
  - apply Hm. by rewrite Hres.
  - by apply Hk.
Qed.

Lemma respects_ok_for_each {A} (xs : list A) (body : A -> unit -> SE E S unit) :
  (forall x, In x xs -> respects_ok R (body x tt)) -> respects_ok R (for_each xs body tt).
Proof.
  induction xs as [|x xs IH]; intros Hb.
  - intros s _. apply composable_refl.
  - cbn [for_each]. apply respects_ok_bind.
    + apply Hb. by left.
    + intros []. apply IH. intros y Hy. apply Hb. by right.
Qed.
End RespectsOk.

Lemma respects_weaken {E S A} (R R' : S -> S -> list E -> Prop) (m : SE E S A) :
  (forall s s' l, R s s' l -> R' s s' l) -> respects R m -> respects R' m.
Proof. intros Himp Hm s. apply Himp, Hm. Qed.



Section Tracking.
Context {V : Type} `{PyValue V} {M : Type}.
Implicit Types (s : frame V M).

Lemma scores_of_app m (l l' : list (event V)) :
  scores_of m (l ++ l') = scores_of m l ++ scores_of m l'.
Proof.
  induction l as [|e l IH]; [done|].
  destruct e as [| | | | | |m' [q|x]| | |]; cbn; rewrite ?IH; try done.
  by destruct (decide (m = m')).
Qed.

Lemma scores_of_quiet m (l : list (event V)) :
  forallb not_evaluation l = true -> scores_of m l = [].
Proof.
  induction l as [|e l IH]; [done|]. cbn. intros [He Hl]%andb_prop.
  destruct e; try discriminate; by apply IH.
Qed.

Global Instance tracks_best_composable (t : TestDefinition V) : Composable (tracks_best (M:=M) t).
Proof.
  split.
  - intros s b Hb. by rewrite Hb.
  - intros s s' s'' l l' H1 H2 b Hb. rewrite (H2 _ (H1 _ Hb)), scores_of_app.
    unfold track_best. by rewrite foldl_app.
Qed.

Global Instance keeps_keys_composable : Composable (keeps_keys (V:=V) (M:=M)).
Proof.
  split.
  - by intros s _.
  - intros s s' s'' l l' H1 H2 Hdom. destruct (H1 Hdom) as [Hr Hs].
    destruct H2 as [Hr' Hs']; [congruence|]. split; congruence.
Qed.

Lemma tracks_best_unchanged {A} (t : TestDefinition V) (m : CM V M A) :
  respects (unchanged best_results (@not_evaluation V)) m -> respects (tracks_best t) m.
Proof.
  apply respects_weaken. intros s s' l [Hsame Hq] b Hb.
  by rewrite Hsame, (scores_of_quiet _ _ Hq).
Qed.

Lemma keeps_keys_unchanged {A} (m : CM V M A) :
  respects (unchanged (fun s : frame V M => (best_results s, best_strategy s))
                      (fun _ => true)) m ->
  respects keeps_keys m.
Proof.
  apply respects_weaken. intros s s' l [Hsame _] _.
  injection Hsame as -> ->. done.
Qed.

Lemma score_test_exact t s :
  res (score_test t s) = Ok tt ->
  exists l sp op q b,
    spec s = Some l /\ heap s !! l = Some (OSpec sp) /\ prediction s = Some op /\
    eval t op = Ok q /\ best_results s !! metric t = Some b /\
    score_test t s = Outcome (Ok tt) (scored_frame t l sp q b s) (score_events t q b).
Proof.
  intros Hok. destruct (score_test_returns t s Hok) as (l & sp & op & q & b & Hs & Hl & Hp & Hq & Hb).
  exists l, sp, op, q, b. repeat (split; [done|]). by apply (score_test_run t s l sp op b q).
Qed.

Lemma is_ok_unit (r : result unit) : is_ok r = true -> r = Ok tt.
Proof. by destruct r as [[]|]. Qed.


Lemma score_test_keeps_keys t :
  respects_ok (keeps_keys (V:=V) (M:=M)) (score_test t).
Proof.
  intros s Hok%is_ok_unit.
  destruct (score_test_exact t s Hok) as (l & sp & op & q & b & _ & _ & _ & _ & Hb & ->).
  cbn [final log]. intros Hdom. unfold scored_frame. cbv zeta.
  assert (Hin : metric t ∈ dom (best_results s)) by (apply elem_of_dom; by eexists).
  destruct (improves t b q); cbn [best_results best_strategy set_best_results set_best_strategy set_heap];
    [|done].
  rewrite !dom_insert_L. rewrite <- Hdom in Hin. split; [rewrite Hdom in *|]; set_solver.
Qed.
End Tracking.

Section Rules.
Context {V : Type} `{PyValue V} {M : Type}.
Context (plot_method : pyobj V -> string -> option (dict V -> result unit)).
Context (self : StrategyExperiment V M).
Context (R : frame V M -> frame V M -> list (event V) -> Prop) `{!Composable R}.
Implicit Types (s : frame V M).

Lemma finish_point_rule tests plots mode fname :
  (forall t, In t tests -> respects_ok R (score_test t)) ->
  respects R (bind (persist_spec (spec_fname self mode fname))
                (fun _ => bind (plot_items plots)
                   (fun items => seq_each items (render_plot plot_method self mode fname)))) ->
  respects_ok R (finish_point plot_method self tests plots mode fname).
Proof.
  intros Hscore Hrest. unfold finish_point. apply respects_ok_bind; [tc_solve| |intros _].
  - unfold seq_each. by apply respects_ok_for_each.
  - by apply respects_ok_of.
Qed.

Lemma grid_point_rule tests keys idx hz plots fk ek mode pk ts cfg :
  let fname := get_filename (Strategy self) (dict_of_zip keys cfg) in
  respects R (begin_point self keys idx hz mode cfg) ->
  respects R (recompute self idx hz fk ek mode pk ts fname) ->
  respects_ok R (finish_point plot_method self tests plots mode fname) ->
  respects_ok R (grid_point plot_method self tests keys idx hz plots fk ek mode pk ts cfg).
Proof.
  intros fname Hbegin Hrec Hfin. unfold grid_point. fold fname.
  apply respects_ok_bind; [tc_solve|by apply respects_ok_of|intros _].
  apply respects_ok_bind; [tc_solve|apply respects_ok_of, respects_read; tc_solve|intros loaded].
  apply respects_ok_bind; [tc_solve| |by intros _].
  apply respects_ok_of. destruct loaded; [apply respects_ret; tc_solve|done].
Qed.
End Rules.

Section Init.
Context {V : Type} `{PyValue V} {M : Type}.
Implicit Types (s : frame V M).

Lemma init_run (tests : list (TestDefinition V)) s :
  seq_each tests init_best s
  = Outcome (Ok tt)
      (set_best_strategy (init_table tests (best_strategy s))
         (set_best_results (init_table tests (best_results s)) s)) [].
Proof.
  revert s. induction tests as [|t tests IH]; intros s.
  - by destruct s.
  - rewrite seq_each_cons, (bind_run _ _ _ _ _ _ (init_best_run t s)), logged_nil, IH.
    reflexivity.
Qed.

Lemma init_table_keeps {A} (tests : list (TestDefinition V)) (m : gmap string (option A)) k :
  m !! k = Some None -> init_table tests m !! k = Some None.
Proof.
  unfold init_table. revert m. induction tests as [|t tests IH]; intros m Hk; [done|].
  cbn [foldl]. apply IH. destruct (decide (k = metric t)) as [->|Hne].
  - by rewrite lookup_insert_eq.
  - by rewrite lookup_insert_ne.
Qed.

Lemma init_table_lookup {A} (tests : list (TestDefinition V)) (m : gmap string (option A)) t :
  In t tests -> init_table tests m !! metric t = Some None.
Proof.
  revert m. induction tests as [|t' tests IH]; intros m Hin; [done|].
  destruct Hin as [->|Hin].
  - unfold init_table. cbn [foldl]. apply init_table_keeps. by rewrite lookup_insert_eq.
  - unfold init_table. cbn [foldl]. by apply IH.
Qed.

Lemma init_table_dom {A} (tests : list (TestDefinition V)) (m : gmap string (option A)) :
  dom (init_table tests m) = dom m ∪ list_to_set (metric <$> tests).
Proof.
  unfold init_table. revert m. induction tests as [|t tests IH]; intros m.
  - cbn. set_solver.
  - cbn [foldl]. rewrite IH, dom_insert_L. cbn [fmap list_fmap list_to_set]. set_solver.
Qed.
End Init.

Section Run.
Context {V : Type} `{PyValue V} {M : Type}.
Context (plot_method : pyobj V -> string -> option (dict V -> result unit)).
Context (self : StrategyExperiment V M).
Implicit Types (s : frame V M).

(** The run after the tables were initialised. *)
Lemma choose_model_run tests keys grid idx hz plots fk ek mode pk ts s :
  choose_model plot_method self tests keys grid idx hz plots fk ek mode pk ts s
  = bind (seq_each grid (grid_point plot_method self tests keys idx hz plots fk ek mode pk
                                    (series_for self mode ts)))
         (fun _ => bind (emit (Print MsgBestHeader))
            (fun _ => bind (seq_each tests report_best) (fun _ => read best_strategy)))
         (set_best_strategy (init_table tests (best_strategy s))
            (set_best_results (init_table tests (best_results s)) s)).
Proof.
  unfold choose_model. by rewrite (bind_run _ _ _ _ _ _ (init_run tests s)), logged_nil.
Qed.

Lemma report_quiet (tests : list (TestDefinition V)) :
  respects (unchanged (fun s : frame V M => s) (@not_evaluation V))
    (bind (emit (Print MsgBestHeader))
       (fun _ => bind (seq_each tests report_best) (fun _ => read best_strategy))).
Proof. unfold seq_each, report_best. repeat frame_step. Qed.

(** A relation that the grid points of a returning run respect holds
    between the initialised tables and the end of the run. *)
Lemma choose_model_rule (R : frame V M -> frame V M -> list (event V) -> Prop)
    `{!Composable R} tests keys grid idx hz plots fk ek mode pk ts s :
  let gp := grid_point plot_method self tests keys idx hz plots fk ek mode pk
                       (series_for self mode ts) in
  let s0 := set_best_strategy (init_table tests (best_strategy s))
              (set_best_results (init_table tests (best_results s)) s) in
  let o := choose_model plot_method self tests keys grid idx hz plots fk ek mode pk ts s in
  (forall cfg, In cfg grid -> respects_ok R (gp cfg)) ->
  is_ok (res o) = true ->
  exists l l', log o = l ++ l' /\ forallb (@not_evaluation V) l' = true /\
               R s0 (final o) l /\ res o = Ok (best_strategy (final o)).
Proof.
  intros gp s0 o Hgp. subst o. rewrite choose_model_run. fold gp s0.
  rewrite res_bind, final_bind, log_bind.
  pose proof (respects_ok_for_each R grid (fun x _ => gp x)) as Hloop.
  specialize (Hloop Hgp s0). fold (seq_each grid gp) in Hloop.
  destruct (res (seq_each grid gp s0)) as [[]|e]; [|discriminate]. specialize (Hloop eq_refl).
  set (s1 := final (seq_each grid gp s0)) in *.
  pose proof (report_quiet tests s1) as [Hsame Hq]. cbv beta in Hsame.
  intros Hok. exists (log (seq_each grid gp s0)), (log (bind (emit (Print MsgBestHeader))
       (fun _ => bind (seq_each tests report_best) (fun _ => read best_strategy)) s1)).
  split; [done|]. split; [done|]. rewrite Hsame. split; [done|].
  revert Hok. rewrite bind_emit_logged, res_logged, res_bind.
  destruct (res (seq_each tests report_best s1)) as [[]|e] eqn:Hrep; [|discriminate].
  intros _. unfold read. cbn [res].
  pose proof (report_quiet tests s1) as [Hsame' _]. cbv beta in Hsame'.
  rewrite bind_emit_logged, final_logged, final_bind, Hrep in Hsame'.
  unfold read in Hsame'. cbn [final] in Hsame'. by rewrite Hsame'.
Qed.
End Run.

Global Instance preserves_composable {E S : Type} (P : S -> Prop) :
  Composable (preserves (E:=E) P).
Proof. split; unfold preserves; auto. Qed.

(** ** The owner of the best score *)

Section Owner.
Context {V : Type} `{PyValue V} {M : Type}.
Context (plot_method : pyobj V -> string -> option (dict V -> result unit)).
Context (self : StrategyExperiment V M).
Implicit Types (s : frame V M).




End Owner.



Section Best.
Context {V : Type} `{PyValue V} {M : Type}.
Context (plot_method : pyobj V -> string -> option (dict V -> result unit)).
Context (self : StrategyExperiment V M).
Implicit Types (s : frame V M).

Lemma begin_point_tables keys idx hz mode cfg :
  respects (unchanged (fun s : frame V M => (best_results s, best_strategy s))
                      (@not_evaluation V))
           (begin_point self keys idx hz mode cfg).
Proof. unfold begin_point, load_cached, load_body, alloc. repeat frame_step. Qed.

Lemma recompute_tables idx hz fk ek mode pk ts fname :
  respects (unchanged (fun s : frame V M => (best_results s, best_strategy s))
                      (@not_evaluation V))
           (recompute self idx hz fk ek mode pk ts fname).
Proof.
  unfold recompute, obtain_model, predict_and_store, pickle_dump. repeat frame_step.
Qed.

Lemma report_tables plots mode fname :
  respects (unchanged (fun s : frame V M => (best_results s, best_strategy s))
                      (@not_evaluation V))
    (bind (persist_spec (spec_fname self mode fname))
       (fun _ => bind (plot_items plots)
          (fun items => seq_each items (render_plot plot_method self mode fname)))).
Proof.
  unfold persist_spec, pickle_dump, plot_items, seq_each, render_plot. repeat frame_step.
Qed.


Lemma tables_keep {A} (m : CM V M A) :
  respects (unchanged (fun s : frame V M => (best_results s, best_strategy s))
                      (@not_evaluation V)) m ->
  respects keeps_keys m.
Proof.
  apply respects_weaken. intros s s' l [Hsame _] _. by injection Hsame as -> ->.
Qed.


Lemma grid_point_keeps_keys tests keys idx hz plots fk ek mode pk ts cfg :
  respects_ok keeps_keys
    (grid_point plot_method self tests keys idx hz plots fk ek mode pk ts cfg).
Proof.
  apply grid_point_rule; [tc_solve| | |].
  - apply tables_keep, begin_point_tables.
  - apply tables_keep, recompute_tables.
  - apply finish_point_rule; [tc_solve| |].
    + intros t' Hin. apply score_test_keeps_keys.
    + apply tables_keep, report_tables.
Qed.


End Best.

(** ** What leaves [choose_model] *)

Section Escapes.
Context {V : Type} `{PyValue V} {M : Type}.
Implicit Types (s : frame V M).

(** A loop that raises does so in one of its iterations, after the
    iterations before it returned. *)
Lemma seq_each_raises {A} (xs : list A) (body : A -> CM V M unit) s e :
  res (seq_each xs body s) = Raise e ->
  exists pre x post,
    xs = pre ++ x :: post /\ res (seq_each pre body s) = Ok tt /\
    res (body x (final (seq_each pre body s))) = Raise e.
Proof.
  revert s. induction xs as [|x xs IH]; intros s; [discriminate|].
  rewrite seq_each_cons, res_bind.
  destruct (res (body x s)) as [[]|e'] eqn:Hx.
  - intros (pre & y & post & -> & Hpre & Hy)%IH.
    exists (x :: pre), y, post. split; [done|].
    rewrite seq_each_cons, res_bind, final_bind, Hx. by split.
  - intros [= ->]. by exists [], x, xs.
Qed.

Lemma report_best_run (t : TestDefinition V) s r o :
  best_results s !! metric t = Some r -> best_strategy s !! metric t = Some o ->
  report_best t s = Outcome (Ok tt) s [Print (MsgBest (metric t) r o)].
Proof.
  intros Hr Ho. unfold report_best. by rewrite bind_read, bind_read, Hr, Ho.
Qed.

Lemma report_returns (tests : list (TestDefinition V)) s :
  (forall t, In t tests -> metric t ∈ dom (best_results s) /\
                           metric t ∈ dom (best_strategy s)) ->
  res (seq_each tests report_best s) = Ok tt.
Proof.
  induction tests as [|t tests IH]; intros Hkeys; [done|].
  destruct (Hkeys t) as [[r Hr]%elem_of_dom [o Ho]%elem_of_dom]; [by left|].
  rewrite seq_each_cons, (bind_run _ _ _ _ _ _ (report_best_run t s r o Hr Ho)), res_logged.
  apply IH. intros t' Hin. apply Hkeys. by right.
Qed.
End Escapes.

Section Result.
Context {V : Type} `{PyValue V} {M : Type}.
Context (plot_method : pyobj V -> string -> option (dict V -> result unit)).
Context (self : StrategyExperiment V M).
Implicit Types (s : frame V M).

Lemma init_final (tests : list (TestDefinition V)) s :
  final (seq_each tests init_best s)
  = set_best_strategy (init_table tests (best_strategy s))
      (set_best_results (init_table tests (best_results s)) s).
Proof. by rewrite init_run. Qed.

(** C8 (amended). A run of [choose_model] that returns gives the
    best-strategy table, whose keys are the metrics of the tests.  The
    load step of a grid point never raises.  An exception raised at a grid
    point after the load step is not caught: it leaves [choose_model], and
    every exception of [choose_model] was raised at a grid point. *)
Theorem choose_model_result tests keys grid idx hz plots fk ek mode pk ts d h mi :
  let gp := grid_point plot_method self tests keys idx hz plots fk ek mode pk
                       (series_for self mode ts) in
  let s0 := final (seq_each tests init_best (entry d h mi)) in
  let o := choose_model plot_method self tests keys grid idx hz plots fk ek mode pk ts
                        (entry d h mi) in
  (forall r, res o = Ok r ->
     r = best_strategy (final o) /\ dom r = list_to_set (metric <$> tests)) /\
  (forall sf pf s, res (load_cached sf pf s) = Ok tt) /\
  (forall pre cfg post e,
     grid = pre ++ cfg :: post -> res (seq_each pre gp s0) = Ok tt ->
     res (gp cfg (final (seq_each pre gp s0))) = Raise e ->
     res o = Raise e) /\
  (forall e, res o = Raise e ->
     exists pre cfg post,
       grid = pre ++ cfg :: post /\ res (seq_each pre gp s0) = Ok tt /\
       res (gp cfg (final (seq_each pre gp s0))) = Raise e).
Proof.
  intros gp s0 o.
  assert (Hdom0 : dom (best_strategy s0) = list_to_set (metric <$> tests) /\
                  dom (best_results s0) = list_to_set (metric <$> tests)).
  { unfold s0. rewrite init_final.
    cbn [best_results best_strategy set_best_results set_best_strategy entry].
    rewrite !init_table_dom, !dom_empty_L. split; set_solver. }
  destruct Hdom0 as [Hbs0 Hbr0].
  assert (Hloop : forall pre, res (seq_each pre gp s0) = Ok tt ->
            dom (best_results (final (seq_each pre gp s0))) = list_to_set (metric <$> tests) /\
            dom (best_strategy (final (seq_each pre gp s0))) = list_to_set (metric <$> tests)).
  { intros pre Hpre.
    pose proof (respects_ok_for_each keeps_keys pre (fun x _ => gp x)) as Hkeep.
    fold (seq_each pre gp) in Hkeep.
    destruct (Hkeep (fun cfg _ => grid_point_keeps_keys plot_method self tests keys idx hz
                                    plots fk ek mode pk _ cfg) s0) as [Hr Hs].
    - by rewrite Hpre.
    - congruence.
    - split; congruence. }
  split; [|split; [|split]].
  - intros r Hr.
    destruct (choose_model_rule plot_method self keeps_keys tests keys grid idx hz plots
                fk ek mode pk ts (entry d h mi)) as (l & l' & _ & _ & Hkeep & Hres).
    { intros cfg _. apply grid_point_keeps_keys. }
    { fold o. by rewrite Hr. }
    fold o in Hkeep, Hres. rewrite <- init_final in Hkeep. fold s0 in Hkeep.
    assert (r = best_strategy (final o)) as -> by congruence.
    split; [done|]. destruct Hkeep as [_ Hs]; congruence.
  - intros sf pf s. apply load_cached_returns.
  - intros pre cfg post e -> Hpre Hcfg.
    by apply (choose_model_propagates plot_method self tests keys pre cfg post).
  - intros e. unfold o. rewrite choose_model_run, <- init_final. fold gp s0.
    rewrite res_bind.
    destruct (res (seq_each grid gp s0)) as [[]|e'] eqn:Hgrid.
    + destruct (Hloop grid Hgrid) as [Hr Hs].
      rewrite bind_emit_logged, res_logged, res_bind, report_returns; [discriminate|].
      intros t Hin. rewrite Hr, Hs.
      assert (metric t ∈ (list_to_set (metric <$> tests) : gset string)); [|done].
      apply elem_of_list_to_set, list_elem_of_fmap. exists t. split; [done|].
      by apply list_elem_of_In.
    + intros [= ->]. by apply seq_each_raises.
Qed.
End Result.

(** ** The toy runs *)

(** Seed length 5 with forecast start 3 on an empty disk: the model is
    constructed, fitted and saved, then the assertion fails. *)
Lemma seed_window_assertion_witness :
  res (toy_run toy_strategy [5] 3) = Raise AssertionError /\
  log (toy_run toy_strategy [5] 3)
  = [Print (MsgPath "s/toy/models/toy_seed_5");
     Print (MsgTraining (OSpec (dict_of_zip ["seed"] [PInt 5])));
     StrategyNew (dict_of_zip ["seed"] [PInt 5]); Fit; Save "s/toy/models/"].
Proof.
  pose proof (seed_window_assertion no_plot_method (toy_experiment toy_strategy)
                [seed_test] ["seed"] [] [PInt 5] [] 3 2 (PlotsDict []) [] [] "val" [] None
                (entry ∅ [] None) eq_refl eq_refl) as [Hassert _].
  destruct (Hassert {| toy_seed := 5; toy_name := "toy_seed_5"; toy_fitted := true |}
              eq_refl eq_refl eq_refl) as (Hres & _ & _ & _ & _).
  split; [exact Hres|]. vm_compute. reflexivity.
Defined.

(** The same run does not fail before every call of the strategy; and
    with a [fit] that raises, the run ends with that exception. *)
Lemma seed_assertion_follows_fit :
  fs (entry (M:=toy_model) (∅ : gmap string (file pyval)) [] None) = ∅ /\
  (3 < seed_length toy_strategy {| toy_seed := 5; toy_name := "toy_seed_5"; toy_fitted := true |}) /\
  res (toy_run toy_strategy [5] 3) = Raise AssertionError /\
  ~ fails_before_any_model_call (toy_run toy_strategy [5] 3) /\
  res (toy_run unfittable_strategy [1] 3) = Raise (ExternalError "fit").
Proof.
  split; [reflexivity|]. split; [reflexivity|]. split; [vm_compute; reflexivity|].
  split; [|vm_compute; reflexivity].
  intros [_ Hquiet]. vm_compute in Hquiet. discriminate Hquiet.
Qed.

(** The toy grid point on a disk whose prediction file is garbage: the
    point recomputes and leaves a pickled prediction in the file. *)
Lemma load_failure_is_a_cache_miss_witness :
  is_raw (fs (toy_frame corrupt_prediction_disk) !! toy_spec_file)
  || is_raw (fs (toy_frame corrupt_prediction_disk) !! toy_prediction_file) = true /\
  res (toy_point (toy_frame corrupt_prediction_disk)) = Ok tt /\
  exists p input,
    In (Predict input 2) (log (toy_point (toy_frame corrupt_prediction_disk))) /\
    fs (final (toy_point (toy_frame corrupt_prediction_disk))) !! toy_prediction_file
    = Some (Pickle (OPred p)).
Proof.
  assert (Hraw : is_raw (fs (toy_frame corrupt_prediction_disk) !! toy_spec_file)
                 || is_raw (fs (toy_frame corrupt_prediction_disk) !! toy_prediction_file)
                 = true) by (vm_compute; reflexivity).
  assert (Hok : res (toy_point (toy_frame corrupt_prediction_disk)) = Ok tt)
    by (vm_compute; reflexivity).
  split; [exact Hraw|]. split; [exact Hok|].
  pose proof (load_failure_is_a_cache_miss no_plot_method (toy_experiment toy_strategy)
                [seed_test] ["seed"] 4 2 (PlotsDict []) [] [] "val" []
                (series_for (toy_experiment toy_strategy) "val" None) [PInt 1]
                (toy_frame corrupt_prediction_disk)) as Hthm.
  cbv zeta in Hthm.
  destruct (Hthm Hraw) as (_ & _ & _ & Hret).
  destruct (Hret Hok) as (p & input & _ & Hin & _ & Hpf).
  exists p, input. split; [exact Hin|exact Hpf].
Defined.

(** The toy grid point twice on an empty disk: the second run returns,
    leaves the disk as the first left it and does not call the strategy. *)
Lemma cached_prediction_short_circuits_witness :
  res (toy_point (toy_frame ∅)) = Ok tt /\
  existsb is_model_call (log (toy_point (toy_frame ∅))) = true /\
  res (toy_point (final (toy_point (toy_frame ∅)))) = Ok tt /\
  fs (final (toy_point (final (toy_point (toy_frame ∅)))))
  = fs (final (toy_point (toy_frame ∅))) /\
  forallb (fun e => negb (is_model_call e))
          (log (toy_point (final (toy_point (toy_frame ∅))))) = true.
Proof.
  assert (Hok : res (toy_point (toy_frame ∅)) = Ok tt) by (vm_compute; reflexivity).
  assert (Hkeys : Forall (fun t => is_Some (best_results (final (toy_point (toy_frame ∅)))
                                              !! metric t)) [seed_test]).
  { constructor; [|constructor]. exists (Some (4 # 10)). vm_compute. reflexivity. }
  split; [exact Hok|]. split; [vm_compute; reflexivity|].
  pose proof (cached_prediction_short_circuits no_plot_method (toy_experiment toy_strategy)
                [seed_test] ["seed"] 4 2 (PlotsDict []) [] [] "val" []
                (series_for (toy_experiment toy_strategy) "val" None) [PInt 1]
                (toy_frame ∅)) as Hthm.
  cbv zeta in Hthm.
  destruct Hthm as (_ & _ & Hagain).
  exact (Hagain Hok _ eq_refl Hkeys).
Defined.


(** With a [predict] that raises, the exception leaves [choose_model]. *)
Lemma predict_exception_escapes :
  res (toy_run unpredictable_strategy [1] 4) = Raise (ExternalError "predict") /\
  ~ only_seed_assertion_escapes (toy_run unpredictable_strategy [1] 4).
Proof.
  assert (Hres : res (toy_run unpredictable_strategy [1] 4) = Raise (ExternalError "predict"))
    by (vm_compute; reflexivity).
  split; [exact Hres|]. intros Hall. specialize (Hall _ Hres). discriminate Hall.
Qed.

(** The toy run over seeds 1, 2 and 3 returns the table, whose only key
    is the metric of the test. *)
Lemma choose_model_result_witness :
  res (toy_run toy_strategy [1; 2; 3] 4)
  = Ok (best_strategy (final (toy_run toy_strategy [1; 2; 3] 4))) /\
  dom (best_strategy (final (toy_run toy_strategy [1; 2; 3] 4)))
  = list_to_set (metric <$> [seed_test]).
Proof.
  assert (Hres : res (toy_run toy_strategy [1; 2; 3] 4)
                 = Ok (best_strategy (final (toy_run toy_strategy [1; 2; 3] 4))))
    by (vm_compute; reflexivity).
  split; [exact Hres|].
  destruct (choose_model_result no_plot_method (toy_experiment toy_strategy) [seed_test]
              ["seed"] [[PInt 1]; [PInt 2]; [PInt 3]] 4 2 (PlotsDict []) [] [] "val" []
              None ∅ [] None) as (Hret & _).
  exact (proj2 (Hret _ Hres)).
Defined.

(** ** [run_tests] *)

Section GeneralLoops.
Context {E S : Type}.

Lemma for_each_snoc {A L} (xs ys : list A) (body : A -> L -> SE E S L) (l : L) (s : S) :
  for_each (xs ++ ys) body l s
  = bind (for_each xs body l) (for_each ys body) s.
Proof.
  revert l s. induction xs as [|x xs IH]; intros l s; cbn [for_each app].
  - by rewrite bind_ret.
  - rewrite bind_assoc. apply bind_ext. intros l' s'. apply IH.
Qed.

Lemma respects_for_each_in {A L} (R : S -> S -> list E -> Prop) `{!Composable R}
    (xs : list A) (body : A -> L -> SE E S L) (l : L) :
  (forall x l', In x xs -> respects R (body x l')) -> respects R (for_each xs body l).
Proof.
  revert l. induction xs as [|x xs IH]; intros l Hb; cbn [for_each].
  - by apply respects_ret.
  - apply respects_bind; [done|apply Hb; by left|].
    intros l'. apply IH. intros y l'' Hy. apply Hb. by right.
Qed.
End GeneralLoops.

Section RunTestsSteps.
Context {V : Type} `{PyValue V} {M : Type}.
Context (plot_method : pyobj V -> string -> option (dict V -> result unit)).
Context (predict_kw : M -> dict V -> result (dict V)).
Context (self : StrategyExperiment V M).
Implicit Types (d : gmap string (file V)) (t : TestDefinition V).
Local Arguments build_prediction : simpl never.

Lemma test_prediction_run model pk t d :
  test_prediction predict_kw self model pk t d
  = match d !! test_prediction_fname self t with
    | Some (Pickle o) => Outcome (Ok o) d []
    | Some (Raw _) => Outcome (Raise UnpicklingError) d []
    | None =>
        match predict_kw model (test_eval_kwargs t) with
        | Ok raw =>
            match res (build_prediction (dataset self) pk raw) with
            | Ok p => Outcome (Ok (OPred p))
                              (<[test_prediction_fname self t := Pickle (OPred p)]> d)
                              [TPredict (test_eval_kwargs t)]
            | Raise e => Outcome (Raise e) d [TPredict (test_eval_kwargs t)]
            end
        | Raise e => Outcome (Raise e) d [TPredict (test_eval_kwargs t)]
        end
    end.
Proof.
  unfold test_prediction, rt_isfile, rt_load, rt_dump. cbv zeta.
  rewrite bind_assoc, bind_get, bind_ret.
  destruct (d !! test_prediction_fname self t) as [[o|bytes]|] eqn:Hf.
  - by rewrite bind_get, Hf.
  - by rewrite bind_get, Hf.
  - rewrite bind_emit_logged.
    destruct (predict_kw model (test_eval_kwargs t)) as [raw|e]; [|done].
    rewrite bind_lift_ok.
    destruct (res (build_prediction (dataset self) pk raw)) as [p|e]; [|done].
    by rewrite bind_lift_ok, bind_assoc, bind_get, bind_put.
Qed.

Lemma test_plot_run t op item d :
  test_plot plot_method self t op item d
  = match plot_method op item.1 with
    | None => Outcome (Ok tt) d [TPlotUnavailable item.1]
    | Some plot_eval =>
        match plot_eval item.2 with
        | Ok _ => Outcome (Ok tt) d
                    [TPlotCall item.1;
                     TSavefig (folder self ++ "plots/" ++ item.1 ++ "_" ++ test_id t ++ ".pdf");
                     TClf]
        | Raise e => Outcome (Raise e) d [TPlotCall item.1]
        end
    end.
Proof.
  unfold test_plot. destruct (plot_method op item.1) as [plot_eval|]; [|done].
  rewrite bind_emit_logged. destruct (plot_eval item.2) as [[]|e]; [|done].
  by rewrite bind_lift_ok, bind_emit_logged.
Qed.

(** The plots of a test leave the disk alone and predict nothing; they
    return when every requested plot is unavailable or drawn. *)
Lemma test_plots_run t op items d :
  final (for_each items (fun item _ => test_plot plot_method self t op item) tt d) = d /\
  forallb (fun e => negb (is_test_predict e))
          (log (for_each items (fun item _ => test_plot plot_method self t op item) tt d))
  = true /\
  (res (for_each items (fun item _ => test_plot plot_method self t op item) tt d) = Ok tt
   <-> forallb (plot_ok plot_method op) items = true).
Proof.
  induction items as [|item items IH]; [done|].
  cbn [for_each forallb]. rewrite final_bind, log_bind, res_bind, test_plot_run.
  unfold plot_ok at 1.
  destruct (plot_method op item.1) as [plot_eval|]; cbn [res final log].
  - destruct (plot_eval item.2) as [[]|e]; cbn [res final log is_ok andb].
    + destruct IH as (Hf & Hl & Hr). rewrite forallb_app, Hl. done.
    + split; [done|]. split; [done|]. split; discriminate.
  - destruct IH as (Hf & Hl & Hr). rewrite forallb_app, Hl. done.
Qed.

(** One iteration that returns. *)
Lemma test_step_returns model plots pk t r d r' :
  res (test_step plot_method predict_kw self model plots pk t r d) = Ok r' ->
  exists o q,
    res (test_prediction predict_kw self model pk t d) = Ok o /\
    final (test_step plot_method predict_kw self model plots pk t r d)
    = final (test_prediction predict_kw self model pk t d) /\
    eval t o = Ok q /\ r' = dict_set r (result_key t) q /\
    plots_ok plot_method plots o = true.
Proof.
  unfold test_step. rewrite res_bind, final_bind.
  destruct (res (test_prediction predict_kw self model pk t d)) as [o|e]; [|discriminate].
  rewrite bind_emit_logged, res_logged, final_logged.
  destruct (eval t o) as [q|e] eqn:Hq; [|discriminate]. rewrite bind_lift_ok. cbv zeta.
  destruct plots as [l|items]; [discriminate|]. rewrite bind_ret, res_bind, final_bind.
  destruct (test_plots_run t o items (final (test_prediction predict_kw self model pk t d)))
    as (Hf & _ & Hr).
  destruct (res (for_each items _ tt _)) as [[]|e] eqn:Hplots; [|discriminate].
  intros [= <-]. exists o, q. cbn [final ret]. rewrite Hf. repeat split; try done.
  by apply Hr.
Qed.

End RunTestsSteps.

Section RunTestsFacts.
Context {V : Type} `{PyValue V} {M : Type}.
Context (plot_method : pyobj V -> string -> option (dict V -> result unit)).
Context (predict_kw : M -> dict V -> result (dict V)).
Context (self : StrategyExperiment V M).
Implicit Types (d : gmap string (file V)) (t : TestDefinition V).
Local Arguments build_prediction : simpl never.

Global Instance fills_cache_composable tests : Composable (fills_cache self tests).
Proof.
  split.
  - intros d. split; [done|]. split; [congruence|]. by intros kw [].
  - intros d d' d'' l l' (Hsub & Hnew & Hpred) (Hsub' & Hnew' & Hpred').
    split; [by etrans|]. split.
    + intros name f Hnone Hf. destruct (d' !! name) as [f'|] eqn:Hf'.
      * pose proof (lookup_weaken _ _ _ _ Hf' Hsub') as Hf''.
        assert (f = f') as -> by congruence. by apply (Hnew name).
      * by apply (Hnew' name).
    + intros kw [Hin|Hin]%in_app_or; [by apply Hpred|].
      destruct (Hpred' kw Hin) as (t & Ht & -> & Hnone). exists t. split; [done|].
      split; [done|]. destruct (d !! test_prediction_fname self t) as [f|] eqn:Hf; [|done].
      by rewrite (lookup_weaken _ _ _ _ Hf Hsub) in Hnone.
Qed.

Lemma test_step_frame model plots pk t r d :
  final (test_step plot_method predict_kw self model plots pk t r d)
  = final (test_prediction predict_kw self model pk t d) /\
  exists l', log (test_step plot_method predict_kw self model plots pk t r d)
             = log (test_prediction predict_kw self model pk t d) ++ l' /\
             forallb (fun e => negb (is_test_predict e)) l' = true.
Proof.
  unfold test_step. rewrite final_bind, log_bind.
  destruct (res (test_prediction predict_kw self model pk t d)) as [o|e].
  2: { split; [done|]. exists []. by rewrite app_nil_r. }
  set (d1 := final (test_prediction predict_kw self model pk t d)).
  rewrite bind_emit_logged, final_logged, log_logged.
  destruct (eval t o) as [q|e].
  2: { split; [done|]. by eexists. }
  rewrite bind_lift_ok. cbv zeta. destruct plots as [l|items].
  { split; [done|]. by eexists. }
  rewrite bind_ret, final_bind, log_bind.
  destruct (test_plots_run plot_method self t o items d1) as (Hf & Hl & _).
  destruct (res (for_each items _ tt d1)) as [[]|e].
  - cbn [final log ret]. rewrite Hf. split; [done|]. eexists. split; [done|].
    cbn [forallb is_test_predict negb andb]. by rewrite app_nil_r.
  - rewrite Hf. split; [done|]. eexists. split; [done|]. done.
Qed.

Lemma test_step_fills model plots pk tests t r :
  In t tests ->
  respects (fills_cache self tests)
           (test_step plot_method predict_kw self model plots pk t r).
Proof.
  intros Hin d. destruct (test_step_frame model plots pk t r d) as (-> & l' & -> & Hq).
  rewrite test_prediction_run.
  assert (Hquiet : forall kw, ~ In (TPredict kw : test_event V) l').
  { intros kw Hkw. eapply forallb_forall in Hq; [|exact Hkw]. discriminate. }
  destruct (d !! test_prediction_fname self t) as [[o|bytes]|] eqn:Hf; cbn [final log app].
  - split; [done|]. split; [congruence|]. intros kw Hkw. by destruct (Hquiet kw).
  - split; [done|]. split; [congruence|]. intros kw Hkw. by destruct (Hquiet kw).
  - assert (Hcall : forall kw, In (TPredict kw) ([TPredict (test_eval_kwargs t)] ++ l') ->
              exists t0, In t0 tests /\ kw = test_eval_kwargs t0 /\
                         d !! test_prediction_fname self t0 = None).
    { intros kw [[= <-]|Hkw]; [by exists t|by destruct (Hquiet kw)]. }
    destruct (predict_kw model (test_eval_kwargs t)) as [raw|e].
    + destruct (res (build_prediction (dataset self) pk raw)) as [p|e]; cbn [final log].
      * split; [by apply insert_subseteq|]. split; [|done].
        intros name f Hnone Hnew.
        destruct (decide (name = test_prediction_fname self t)) as [->|Hne].
        -- rewrite lookup_insert_eq in Hnew. injection Hnew as <-. by exists t, p.
        -- rewrite lookup_insert_ne in Hnew by done. congruence.
      * split; [done|]. split; [congruence|done].
    + cbn [final log]. split; [done|]. split; [congruence|done].
Qed.



End RunTestsFacts.

Section DictKeys.
Context {A : Type}.
Implicit Types (d : dict A) (k : string).

Lemma dict_keys_set_new d k v : k ∉ dict_keys d -> dict_keys (dict_set d k v) = dict_keys d ++ [k].
Proof.
  unfold dict_keys. induction d as [|[k' v'] d IH]; cbn; intros Hk; [done|].
  apply not_elem_of_cons in Hk as [Hne Hk]. rewrite decide_False by done. cbn.
  by rewrite IH.
Qed.
End DictKeys.

Section RunTestsResults.
Context {V : Type} `{PyValue V} {M : Type}.
Context (plot_method : pyobj V -> string -> option (dict V -> result unit)).
Context (predict_kw : M -> dict V -> result (dict V)).
Context (self : StrategyExperiment V M).
Implicit Types (d : gmap string (file V)) (t : TestDefinition V).
Local Arguments build_prediction : simpl never.

(** The prediction a test is scored on is the content of its file. *)
Lemma test_prediction_stores model pk t d o :
  res (test_prediction predict_kw self model pk t d) = Ok o ->
  final (test_prediction predict_kw self model pk t d) !! test_prediction_fname self t
  = Some (Pickle o).
Proof.
  rewrite test_prediction_run.
  destruct (d !! test_prediction_fname self t) as [[o'|bytes]|] eqn:Hf.
  - by intros [= <-].
  - discriminate.
  - destruct (predict_kw model (test_eval_kwargs t)) as [raw|e]; [|discriminate].
    destruct (res (build_prediction (dataset self) pk raw)) as [p|e]; [|discriminate].
    intros [= <-]. cbn [final]. by rewrite lookup_insert_eq.
Qed.

Lemma loop_grows model plots pk tests r d :
  d ⊆ final (for_each tests (test_step plot_method predict_kw self model plots pk) r d).
Proof.
  apply (respects_for_each_in (fills_cache self tests) tests).
  intros t r' Hin. by apply test_step_fills.
Qed.



Lemma loop_result model plots pk tests d r0 r :
  NoDup (result_key <$> tests) ->
  (forall t, In t tests -> result_key t ∉ dict_keys r0) ->
  res (for_each tests (test_step plot_method predict_kw self model plots pk) r0 d) = Ok r ->
  dict_keys r = dict_keys r0 ++ (result_key <$> tests) /\
  (forall k, k ∉ result_key <$> tests -> dict_get r k = dict_get r0 k) /\
  forall t, In t tests ->
    exists o q,
      final (for_each tests (test_step plot_method predict_kw self model plots pk) r0 d)
        !! test_prediction_fname self t = Some (Pickle o) /\
      eval t o = Ok q /\ dict_get r (result_key t) = Some q.
Proof.
  revert d r0. induction tests as [|t tests IH]; intros d r0 Hnd Hfresh.
  - cbn. intros [= <-]. rewrite app_nil_r. split; [done|]. split; [done|]. by intros t [].
  - cbn [for_each]. rewrite res_bind, final_bind.
    destruct (res (test_step plot_method predict_kw self model plots pk t r0 d))
      as [r1|e] eqn:Hstep; [|discriminate].
    destruct (test_step_returns _ _ _ _ _ _ _ _ _ _ Hstep)
      as (o & q & Hpred & Hfin & Hq & -> & Hplots).
    pose proof (test_prediction_stores model pk t d o Hpred) as Hfile.
    rewrite <- Hfin in Hfile.
    set (d1 := final (test_step plot_method predict_kw self model plots pk t r0 d)) in *.
    cbn [fmap list_fmap] in Hnd. apply NoDup_cons in Hnd as [Hnotin Hnd].
    assert (Hkeys1 : dict_keys (dict_set r0 (result_key t) q) = dict_keys r0 ++ [result_key t]).
    { apply dict_keys_set_new, Hfresh. by left. }
    intros Hrest.
    destruct (IH d1 (dict_set r0 (result_key t) q) Hnd) as (Hkeys & Hother & Hall); [|done|].
    { intros t' Hin'. rewrite Hkeys1, elem_of_app, list_elem_of_singleton.
      intros [Hold|Heq].
      - by apply (Hfresh t' (or_intror Hin')).
      - apply Hnotin. rewrite <- Heq. apply list_elem_of_fmap. exists t'.
        split; [done|]. by apply list_elem_of_In. }
    pose proof (loop_grows model plots pk tests (dict_set r0 (result_key t) q) d1) as Hgrow.
    split; [|split].
    + rewrite Hkeys, Hkeys1. cbn [fmap list_fmap]. by rewrite <- app_assoc.
    + intros k Hk. cbn [fmap list_fmap] in Hk. apply not_elem_of_cons in Hk as [Hne Hk].
      rewrite (Hother k Hk). by apply dict_get_set_ne.
    + intros t' [<-|Hin'].
      * exists o, q. split; [by eapply lookup_weaken|]. split; [done|].
        rewrite (Hother _ Hnotin). apply dict_get_set_eq.
      * by apply Hall.
Qed.

(** X4. When the result keys [metric_id] of the tests are pairwise
    different, the dictionary [run_tests] returns has exactly one entry
    per test, in the order of the tests, and the entry of a test is the
    value of [test.eval] on the prediction that is pickled in the test's
    prediction file when the call ends. *)
Theorem run_tests_result model tests plots pk d r :
  NoDup (result_key <$> tests) ->
  res (run_tests plot_method predict_kw self model tests plots pk d) = Ok r ->
  dict_keys r = result_key <$> tests /\
  forall t, In t tests ->
    exists o q,
      final (run_tests plot_method predict_kw self model tests plots pk d)
        !! test_prediction_fname self t = Some (Pickle o) /\
      eval t o = Ok q /\ dict_get r (result_key t) = Some q.
Proof.
  intros Hnd. unfold run_tests. rewrite res_bind, final_bind.
  destruct (res (for_each tests (test_step plot_method predict_kw self model plots pk) [] d))
    as [r1|e] eqn:Hloop; [|discriminate].
  rewrite bind_emit_logged. cbn [res final logged ret]. intros [= <-].
  destruct (loop_result model plots pk tests d [] r1 Hnd) as (Hkeys & _ & Hall); [|done|].
  { intros t _. apply not_elem_of_nil. }
  by split.
Qed.

(** X5. [run_tests] does not recompute a prediction whose file is
    unreadable: if the prediction file of one of the tests exists and is
    not a pickle, the call does not return, and when the tests before
    that one pass it raises the unpickling error. *)
Theorem run_tests_unreadable_prediction model tests plots pk d t bytes :
  In t tests -> d !! test_prediction_fname self t = Some (Raw bytes) ->
  is_ok (res (run_tests plot_method predict_kw self model tests plots pk d)) = false /\
  forall pre post, tests = pre ++ t :: post ->
    is_ok (res (for_each pre (test_step plot_method predict_kw self model plots pk) [] d))
    = true ->
    res (run_tests plot_method predict_kw self model tests plots pk d)
    = Raise UnpicklingError.
Proof.
  intros Hin Hraw.
  assert (Hsplit : forall pre post, tests = pre ++ t :: post ->
            is_ok (res (for_each pre (test_step plot_method predict_kw self model plots pk)
                                 [] d)) = true ->
            res (run_tests plot_method predict_kw self model tests plots pk d)
            = Raise UnpicklingError).
  { intros pre post -> Hpre. unfold run_tests. rewrite res_bind, for_each_snoc, res_bind.
    destruct (res (for_each pre (test_step plot_method predict_kw self model plots pk) [] d)) as [r1|e] eqn:Hr1;
      [|discriminate].
    pose proof (loop_grows model plots pk pre [] d) as Hgrow.
    set (d1 := final (for_each pre (test_step plot_method predict_kw self model plots pk) [] d)) in *.
    cbn [for_each]. rewrite res_bind. unfold test_step at 1.
    rewrite res_bind, test_prediction_run, (lookup_weaken _ _ _ _ Hraw Hgrow). done. }
  split; [|done].
  destruct (in_split _ _ Hin) as (pre & post & ->).
  destruct (is_ok (res (for_each pre (test_step plot_method predict_kw self model plots pk)
                                 [] d))) eqn:Hpre.
  - by rewrite (Hsplit pre post eq_refl Hpre).
  - unfold run_tests. rewrite res_bind, for_each_snoc, res_bind.
    by destruct (res (for_each pre (test_step plot_method predict_kw self model plots pk) [] d)).
Qed.
End RunTestsResults.

Section NeverReturns.
Context {E S : Type}.

Lemma bind_never_ok {A B} (m : SE E S A) (k : A -> SE E S B) s :
  (forall a s', is_ok (res (k a s')) = false) -> is_ok (res (bind m k s)) = false.
Proof. intros Hk. rewrite res_bind. destruct (res (m s)); [apply Hk|done]. Qed.

Lemma bind_first_not_ok {A B} (m : SE E S A) (k : A -> SE E S B) s :
  is_ok (res (m s)) = false -> is_ok (res (bind m k s)) = false.
Proof. rewrite res_bind. by destruct (res (m s)). Qed.

Lemma log_bind_prefix {A B} (m : SE E S A) (k : A -> SE E S B) s :
  exists rest, log (bind m k s) = log (m s) ++ rest.
Proof.
  rewrite log_bind. destruct (res (m s)); [by eexists|]. exists []. by rewrite app_nil_r.
Qed.
End NeverReturns.

Section PlotsArgument.
Context {V : Type} `{PyValue V} {M : Type}.
Context (plot_method : pyobj V -> string -> option (dict V -> result unit)).
Context (predict_kw : M -> dict V -> result (dict V)).
Context (self : StrategyExperiment V M).
Implicit Types (s : frame V M).

Lemma finish_point_list tests names mode fname s :
  is_ok (res (finish_point plot_method self tests (PlotsList names) mode fname s)) = false.
Proof.
  unfold finish_point. apply bind_never_ok. intros _ s1.
  apply bind_never_ok. intros _ s2. cbn [plot_items]. by rewrite bind_raise_now.
Qed.

(** X6. [plots] has to be a dictionary.  With a list, which is what the
    default [plots=[]] of [choose_model] and both docstrings describe, a
    grid point of [choose_model], [choose_model] over a non-empty grid,
    the loop body of [run_tests] and [run_tests] over a non-empty list
    of tests never return.  In [choose_model] the exception is the
    AttributeError of [plots.items()], and it is raised after the tests
    were scored and the spec report was written. *)
Theorem plots_list_raises (names : list string) :
  (forall tests keys idx hz fk ek mode pk ts cfg s,
     is_ok (res (grid_point plot_method self tests keys idx hz (PlotsList names)
                            fk ek mode pk ts cfg s)) = false) /\
  (forall tests keys cfg grid idx hz fk ek mode pk ts s,
     is_ok (res (choose_model plot_method self tests keys (cfg :: grid) idx hz
                              (PlotsList names) fk ek mode pk ts s)) = false) /\
  (forall tests mode fname s l ob op,
     spec s = Some l -> heap s !! l = Some ob -> prediction s = Some op ->
     res (seq_each tests score_test s) = Ok tt ->
     res (finish_point plot_method self tests (PlotsList names) mode fname s)
     = Raise (AttributeError "items") /\
     fs (final (finish_point plot_method self tests (PlotsList names) mode fname s))
       !! spec_fname self mode fname
     = Some (Pickle (scored_object tests op ob))) /\
  (forall model pk t r d,
     is_ok (res (test_step plot_method predict_kw self model (PlotsList names) pk t r d))
     = false) /\
  (forall model pk t tests d,
     is_ok (res (run_tests plot_method predict_kw self model (t :: tests)
                           (PlotsList names) pk d)) = false).
Proof.
  assert (Hgp : forall tests keys idx hz fk ek mode pk ts cfg s,
     is_ok (res (grid_point plot_method self tests keys idx hz (PlotsList names)
                            fk ek mode pk ts cfg s)) = false).
  { intros. unfold grid_point. apply bind_never_ok. intros _ s1.
    apply bind_never_ok. intros loaded s2. apply bind_never_ok. intros _ s3.
    apply finish_point_list. }
  assert (Hstep : forall model pk t r d,
     is_ok (res (test_step plot_method predict_kw self model (PlotsList names) pk t r d))
     = false).
  { intros. unfold test_step. apply bind_never_ok. intros o d1.
    apply bind_never_ok. intros _ d2. apply bind_never_ok. intros q d3. cbv zeta.
    by rewrite bind_raise_now. }
  split; [exact Hgp|]. split; [|split; [|split; [exact Hstep|]]].
  - intros. rewrite choose_model_run. apply bind_first_not_ok.
    rewrite seq_each_cons. apply bind_first_not_ok. apply Hgp.
  - intros tests mode fname s l ob op Hs Hl Hp Hloop. unfold finish_point.
    pose proof (score_loop_frame (M:=M) tests s) as [Hout _].
    destruct (score_loop_returns tests s l ob op Hs Hl Hp Hloop) as (Hheap & _ & _).
    rewrite res_bind, final_bind, Hloop.
    set (s1 := final (seq_each tests score_test s)) in *. unfold outside_scoring in Hout.
    assert (Hs1 : spec s1 = Some l) by congruence.
    assert (Hl1 : heap s1 !! l = Some (scored_object tests op ob)).
    { rewrite Hheap. apply list_lookup_insert_eq. by eapply lookup_lt_Some. }
    rewrite (bind_run _ _ _ _ _ _ (persist_spec_run _ s1 l _ Hs1 Hl1)), logged_nil.
    cbn [plot_items]. rewrite bind_raise_now. cbn [res final fs set_fs].
    by rewrite lookup_insert_eq.
  - intros. unfold run_tests. apply bind_first_not_ok. cbn [for_each].
    apply bind_first_not_ok. apply Hstep.
Qed.
End PlotsArgument.

Section EmptyGrid.
Context {V : Type} `{PyValue V} {M : Type}.
Context (plot_method : pyobj V -> string -> option (dict V -> result unit)).
Context (self : StrategyExperiment V M).
Implicit Types (s : frame V M).

Lemma report_initial (tests : list (TestDefinition V)) s :
  (forall t, In t tests -> best_results s !! metric t = Some None /\
                           best_strategy s !! metric t = Some None) ->
  seq_each tests report_best s
  = Outcome (Ok tt) s (map (fun t => Print (MsgBest (metric t) None None)) tests).
Proof.
  induction tests as [|t tests IH]; intros Hall; [done|].
  destruct (Hall t (or_introl eq_refl)) as [Hr Hs].
  rewrite seq_each_cons, (bind_run _ _ _ _ _ _ (report_best_run t s None None Hr Hs)).
  rewrite IH; [done|]. intros t' Hin. apply Hall. by right.
Qed.

(** X7. With an empty hypergrid [choose_model] returns [best_strategy]
    with exactly the tests' metrics as keys, each mapped to [None],
    leaves the disk and the heap as they were, and prints only the
    header and one line per test with [None] for the best result and the
    best strategy. *)
Theorem choose_model_empty_grid tests keys idx hz plots fk ek mode pk ts d h mi :
  let o := choose_model plot_method self tests keys [] idx hz plots fk ek mode pk ts
                        (entry d h mi) in
  res o = Ok (best_strategy (final o)) /\
  dom (best_strategy (final o)) = list_to_set (metric <$> tests) /\
  (forall t, In t tests -> best_strategy (final o) !! metric t = Some None) /\
  fs (final o) = d /\ heap (final o) = h /\
  log o = Print MsgBestHeader
            :: map (fun t => Print (MsgBest (metric t) None None)) tests.
Proof.
  intros o. subst o. rewrite choose_model_run.
  set (s0 := set_best_strategy _ _).
  assert (Hinit : forall t, In t tests -> best_results s0 !! metric t = Some None /\
                                          best_strategy s0 !! metric t = Some None).
  { intros t Hin. subst s0. cbn [best_results best_strategy set_best_results
                                  set_best_strategy entry].
    by rewrite !init_table_lookup. }
  change (seq_each [] _) with (ret (E:=event V) (S:=frame V M) tt).
  rewrite bind_ret, bind_emit_logged, (bind_run _ _ _ _ _ _ (report_initial tests s0 Hinit)).
  unfold read. cbn [res final log logged app].
  split; [done|]. split; [|split; [|split; [done|split; [done|]]]].
  - subst s0. cbn [best_strategy set_best_strategy entry].
    rewrite init_table_dom, dom_empty_L. set_solver.
  - intros t Hin. by apply Hinit.
  - by rewrite app_nil_r.
Qed.
End EmptyGrid.

Section Models.
Context {V : Type} `{PyValue V} {M : Type}.
Context (plot_method : pyobj V -> string -> option (dict V -> result unit)).
Context (self : StrategyExperiment V M).
Implicit Types (s : frame V M).
Local Arguments build_prediction : simpl never.

Lemma obtain_model_new_log fk mf s l sp :
  fs s !! mf = None -> spec s = Some l -> heap s !! l = Some (OSpec sp) ->
  exists rest, log (obtain_model self fk mf s)
               = Print (MsgTraining (OSpec sp)) :: StrategyNew sp :: rest.
Proof.
  intros Hmf Hs Hl. unfold obtain_model. rewrite isfile_run, Hmf. cbv iota.
  rewrite (bind_local _ _ _ _ l Hs), (deref_run _ _ _ _ Hl), bind_emit_logged.
  rewrite bind_assoc, bind_emit_logged, !log_logged. by eexists.
Qed.

Lemma obtain_model_load_run fk mf s f :
  fs s !! mf = Some f ->
  obtain_model self fk mf s
  = match strategy_load (Strategy self) mf (fs s) with
    | Ok m => Outcome (Ok tt) (set_model (Some m) s) [StrategyLoad mf]
    | Raise e => Outcome (Raise e) s [StrategyLoad mf]
    end.
Proof.
  intros Hmf. unfold obtain_model. rewrite isfile_run, Hmf. cbv iota.
  rewrite bind_emit_logged, bind_read.
  destruct (strategy_load (Strategy self) mf (fs s)) as [m|e]; [|done].
  by rewrite bind_lift_ok.
Qed.

(** X8. When a grid point finds its spec report on disk but neither its
    prediction file nor its model file, the new model is constructed
    from the spec loaded from the report (line 153 after line 139), not
    from the configuration of the grid: the first events of the grid
    point are the printed model path, the training message with the
    loaded spec and the constructor call with the loaded spec. *)
Theorem loaded_spec_is_constructed tests keys idx hz plots fk ek mode pk ts cfg s sp :
  let fname := get_filename (Strategy self) (dict_of_zip keys cfg) in
  fs s !! spec_fname self mode fname = Some (Pickle (OSpec sp)) ->
  fs s !! prediction_fname self mode idx hz fname = None ->
  fs s !! model_fname self fname = None ->
  exists rest,
    log (grid_point plot_method self tests keys idx hz plots fk ek mode pk ts cfg s)
    = Print (MsgPath (model_fname self fname))
        :: Print (MsgTraining (OSpec sp)) :: StrategyNew sp :: rest.
Proof.
  intros fname Hsf Hpf Hmf. rewrite grid_point_run. fold fname.
  destruct (begin_point_state self keys idx hz mode cfg s)
    as (Hout & (l & extra & Hs0 & _ & _ & Hl0) & Hloaded & _ & Hlog0).
  fold fname in Hs0, Hl0, Hloaded, Hlog0.
  unfold cached_prediction in Hloaded. unfold spec_object in Hl0.
  rewrite Hsf in Hloaded, Hl0, Hlog0. rewrite Hpf in Hloaded, Hlog0.
  cbn [is_raw orb] in Hloaded, Hlog0.
  set (o0 := begin_point self keys idx hz mode cfg s) in *.
  unfold outside_load in Hout.
  assert (Hmf0 : fs (final o0) !! model_fname self fname = None) by congruence.
  rewrite Hloaded, log_logged, Hlog0. unfold recompute. rewrite bind_assoc.
  destruct (log_bind_prefix (obtain_model self fk (model_fname self fname))
              (fun _ => bind (predict_and_store self ts idx hz ek pk
                                (prediction_fname self mode idx hz fname))
                             (fun _ => finish_point plot_method self tests plots mode fname))
              (final o0)) as [rest ->].
  destruct (obtain_model_new_log fk _ (final o0) l sp Hmf0 Hs0 Hl0) as [rest' ->].
  by eexists.
Qed.

Lemma after_model_no_training tests plots idx hz ek pk ts mode fname :
  respects (unchanged (fun s : frame V M => tt) (fun e => negb (is_training e)))
    (bind (predict_and_store self ts idx hz ek pk (prediction_fname self mode idx hz fname))
          (fun _ => finish_point plot_method self tests plots mode fname)).
Proof.
  unfold predict_and_store, finish_point, seq_each, score_test, spec_setitem,
    persist_spec, pickle_dump, plot_items, render_plot.
  repeat frame_step.
Qed.

Lemma begin_point_no_training keys idx hz mode cfg :
  respects (unchanged (fun s : frame V M => tt) (fun e => negb (is_training e)))
           (begin_point self keys idx hz mode cfg).
Proof. unfold begin_point, load_cached, load_body, alloc. repeat frame_step. Qed.

(** X9. When a grid point has no usable cached prediction and its model
    file exists, the model is loaded from the file and nothing is
    trained: the log has the [Strategy.load] call and no constructor,
    [fit] or [save] call, and an exception of [Strategy.load] leaves the
    grid point. *)
Theorem cached_model_is_loaded tests keys idx hz plots fk ek mode pk ts cfg s f :
  let fname := get_filename (Strategy self) (dict_of_zip keys cfg) in
  let gp := grid_point plot_method self tests keys idx hz plots fk ek mode pk ts cfg s in
  cached_prediction (spec_fname self mode fname) (prediction_fname self mode idx hz fname)
                    (fs s) = None ->
  fs s !! model_fname self fname = Some f ->
  In (StrategyLoad (model_fname self fname)) (log gp) /\
  forallb (fun e => negb (is_training e)) (log gp) = true /\
  (forall e, strategy_load (Strategy self) (model_fname self fname) (fs s) = Raise e ->
             res gp = Raise e).
Proof.
  intros fname gp Hcache Hmf.
  destruct (begin_point_state self keys idx hz mode cfg s) as (Hout & _ & Hloaded & _ & _).
  fold fname in Hloaded. rewrite Hcache in Hloaded.
  pose proof (begin_point_no_training keys idx hz mode cfg s) as [_ Hq0].
  unfold outside_load in Hout.
  assert (Hfs0 : fs (final (begin_point self keys idx hz mode cfg s)) = fs s)
    by congruence.
  pose proof (obtain_model_load_run fk (model_fname self fname)
                (final (begin_point self keys idx hz mode cfg s)) f) as Hobt.
  rewrite Hfs0 in Hobt. specialize (Hobt Hmf).
  assert (Hgp : gp = logged (log (begin_point self keys idx hz mode cfg s))
            (bind (obtain_model self fk (model_fname self fname))
               (fun _ => bind (predict_and_store self ts idx hz ek pk
                                 (prediction_fname self mode idx hz fname))
                              (fun _ => finish_point plot_method self tests plots mode fname))
               (final (begin_point self keys idx hz mode cfg s)))).
  { unfold gp. rewrite grid_point_run. fold fname. rewrite Hloaded. unfold recompute.
    by rewrite bind_assoc. }
  rewrite Hgp, res_logged, log_logged.
  destruct (strategy_load (Strategy self) (model_fname self fname) (fs s)) as [m|e].
  - rewrite (bind_run _ _ _ _ _ _ Hobt), log_logged.
    pose proof (after_model_no_training tests plots idx hz ek pk ts mode fname
                  (set_model (Some m) (final (begin_point self keys idx hz mode cfg s))))
      as [_ Hq1].
    split; [|split; [|discriminate]].
    + apply in_or_app. right. apply in_or_app. left. by left.
    + rewrite !forallb_app, Hq0, Hq1. reflexivity.
  - rewrite (bind_fail _ _ _ _ _ _ Hobt).
    split; [|split].
    + apply in_or_app. right. by left.
    + rewrite forallb_app, Hq0. reflexivity.
    + intros e' Heq. injection Heq as <-. reflexivity.
Qed.
End Models.

Section ReportContent.
Context {V : Type} `{PyValue V} {M : Type}.
Context (plot_method : pyobj V -> string -> option (dict V -> result unit)).
Context (self : StrategyExperiment V M).
Implicit Types (s : frame V M).

Lemma with_scores_other (tests : list (TestDefinition V)) op sp k :
  k ∉ metric <$> tests -> with_scores tests op sp !! k = sp !! k.
Proof.
  unfold with_scores. revert sp. induction tests as [|t tests IH]; intros sp Hk; [done|].
  cbn [fmap list_fmap] in Hk. apply not_elem_of_cons in Hk as [Hne Hk].
  cbn [foldl]. rewrite IH by done. destruct (eval t op); [|done].
  by rewrite lookup_insert_ne.
Qed.

Lemma with_scores_metric (tests : list (TestDefinition V)) op sp t q :
  NoDup (metric <$> tests) -> In t tests -> eval t op = Ok q ->
  with_scores tests op sp !! metric t = Some (Score q).
Proof.
  revert sp. induction tests as [|t' tests IH]; intros sp Hnd Hin Hq; [done|].
  cbn [fmap list_fmap] in Hnd. apply NoDup_cons in Hnd as [Hnotin Hnd].
  destruct Hin as [->|Hin].
  - change (with_scores (t :: tests) op sp)
      with (with_scores tests op (match eval t op with
                                  | Ok q => <[metric t := Score q]> sp
                                  | Raise _ => sp
                                  end)).
    rewrite with_scores_other by done. by rewrite Hq, lookup_insert_eq.
  - change (with_scores (t' :: tests) op sp)
      with (with_scores tests op (match eval t' op with
                                  | Ok q => <[metric t' := Score q]> sp
                                  | Raise _ => sp
                                  end)).
    by apply IH.
Qed.

(** X10. When the metrics of the tests are pairwise different and a grid
    point returns, the spec report it writes is a dictionary that maps
    every test's metric to the score [test.eval] gives the grid point's
    prediction, and that agrees on every other key with the spec the
    grid point started from (the configuration, or the spec loaded from
    an earlier report). *)
Theorem spec_report_content tests keys idx hz plots fk ek mode pk ts cfg s sp0 :
  let spec0 := dict_of_zip keys cfg in
  let fname := get_filename (Strategy self) spec0 in
  let sf := spec_fname self mode fname in
  let gp := grid_point plot_method self tests keys idx hz plots fk ek mode pk ts cfg s in
  NoDup (metric <$> tests) ->
  spec_object spec0 sf (fs s) = OSpec sp0 ->
  res gp = Ok tt ->
  exists op sp,
    prediction (final gp) = Some op /\
    fs (final gp) !! sf = Some (Pickle (OSpec sp)) /\
    (forall t, In t tests ->
       exists q, eval t op = Ok q /\ sp !! metric t = Some (Score q)) /\
    (forall k, k ∉ metric <$> tests -> sp !! k = sp0 !! k).
Proof.
  intros spec0 fname sf gp Hnd Hob Hok.
  destruct (grid_point_returns plot_method self tests keys idx hz plots fk ek mode pk ts cfg
              s Hok) as (l & op & _ & _ & Hp & _ & Hsf & _ & Hall & _).
  fold spec0 fname sf gp in Hp, Hsf, Hall. rewrite Hob in Hsf. cbn [scored_object] in Hsf.
  exists op, (with_scores tests op sp0). split; [done|]. split; [done|]. split.
  - intros t Hin. eapply Forall_forall in Hall; [|by apply list_elem_of_In].
    cbv beta in Hall. destruct (eval t op) as [q|e] eqn:Hq; [|discriminate].
    exists q. split; [done|]. by apply with_scores_metric.
  - intros k Hk. by apply with_scores_other.
Qed.
End ReportContent.

(** ** The seed window and the spec of a configuration *)

Lemma py_slice_window {A} (l : list A) (a b : Z) :
  0 <= a <= b ->
  length (py_slice l a b)
  = Z.to_nat (Z.min b (Z.of_nat (length l)) - Z.min a (Z.of_nat (length l))) /\
  forall i, (i < length (py_slice l a b))%nat ->
            py_slice l a b !! i = l !! (Z.to_nat a + i)%nat.
Proof.
  intros Hab. unfold py_slice, slice_bound. cbv zeta.
  replace (a <? 0)%Z with false by (symmetry; apply Z.ltb_ge; lia).
  replace (b <? 0)%Z with false by (symmetry; apply Z.ltb_ge; lia).
  rewrite length_take, length_drop. split; [lia|].
  intros i Hi. rewrite lookup_take_lt by lia. rewrite lookup_drop. f_equal. lia.
Qed.

Section Window.
Context {V : Type} `{PyValue V} {M : Type}.
Context (self : StrategyExperiment V M).
Implicit Types (s : frame V M).
Local Arguments build_prediction : simpl never.

(** X11. When no model input was given or computed before and the seed
    start is not negative, [model_input] becomes the one-row batch of
    the slice [eval_ts[seed_start:prediction_index]], and [predict] is
    called with it.  The slice follows Python's rules: it is cut at the
    end of the series, it has [seed_length] elements when the prediction
    index lies within the series, and its i-th element is element
    [seed_start + i] of the series. *)
Theorem model_input_window ts idx hz ek pk pf s m :
  let sl := seed_length (Strategy self) m in
  let w := py_slice ts (idx - sl) idx in
  let o := predict_and_store self ts idx hz ek pk pf s in
  model s = Some m -> model_input s = None -> 0 <= idx - sl -> 0 <= sl ->
  model_input (final o) = Some [w] /\
  predict_inputs (log o) = [[w]] /\
  length w = Z.to_nat (Z.min idx (Z.of_nat (length ts))
                       - Z.min (idx - sl) (Z.of_nat (length ts))) /\
  (idx <= Z.of_nat (length ts) -> length w = Z.to_nat sl) /\
  (forall i, (i < length w)%nat -> w !! i = ts !! (Z.to_nat (idx - sl) + i)%nat).
Proof.
  intros sl w o Hm Hmi Hstart Hsl. subst o.
  rewrite (predict_and_store_run self _ _ _ _ _ _ _ m Hm).
  unfold with_input, input_for. rewrite Hmi. cbv zeta. fold sl w.
  replace (0 <=? idx - sl)%Z with true by (symmetry; apply Z.leb_le; lia).
  destruct (py_slice_window ts (idx - sl) idx) as [Hlen Hget]; [lia|].
  fold w in Hlen, Hget.
  split; [|split; [|split; [done|split; [|done]]]].
  - destruct (predict (Strategy self) m [w] hz ek) as [raw|e]; [|done].
    by destruct (res (build_prediction (dataset self) pk raw)).
  - destruct (predict (Strategy self) m [w] hz ek) as [raw|e]; [|done].
    by destruct (res (build_prediction (dataset self) pk raw)).
  - intros Hidx. rewrite Hlen. lia.
Qed.
End Window.

Section SpecOfConfig.
Context {V : Type}.

Lemma zip_spec_other (keys : list string) (cfg : list V) (m : gmap string (specval V)) k :
  k ∉ keys ->
  foldl (fun d kv => <[kv.1 := Hyper kv.2]> d) m (zip keys cfg) !! k = m !! k.
Proof.
  revert cfg m. induction keys as [|k0 keys IH]; intros cfg m Hk; [done|].
  apply not_elem_of_cons in Hk as [Hne Hk]. destruct cfg as [|v cfg]; [done|].
  cbn [zip zip_with foldl fst snd]. rewrite IH by done. by rewrite lookup_insert_ne.
Qed.

Lemma zip_spec_lookup (keys : list string) (cfg : list V) (m : gmap string (specval V)) i k :
  NoDup keys -> keys !! i = Some k ->
  foldl (fun d kv => <[kv.1 := Hyper kv.2]> d) m (zip keys cfg) !! k
  = match cfg !! i with
    | Some v => Some (Hyper v)
    | None => m !! k
    end.
Proof.
  revert cfg m i. induction keys as [|k0 keys IH]; intros cfg m i Hnd Hi; [done|].
  apply NoDup_cons in Hnd as [Hnotin Hnd]. destruct cfg as [|v cfg].
  { by destruct i. }
  cbn [zip zip_with foldl fst snd]. destruct i as [|i].
  - injection Hi as <-. rewrite zip_spec_other by done. by rewrite lookup_insert_eq.
  - cbn in Hi. rewrite (IH cfg _ i Hnd Hi). cbn [lookup list_lookup].
    destruct (cfg !! i) as [v'|]; [done|].
    rewrite lookup_insert_ne; [done|]. intros ->. apply Hnotin.
    by eapply list_elem_of_lookup_2.
Qed.

(** X12. The spec of a grid point, [{k: v for k, v in zip(hypergrid_keys,
    next_config)}], maps the i-th key to the i-th value of the
    configuration when the keys are pairwise different; a key beyond the
    length of the configuration and a name that is not a key are not in
    the spec. *)
Theorem spec_of_configuration (keys : list string) (cfg : list V) :
  NoDup keys ->
  (forall i k, keys !! i = Some k -> dict_of_zip keys cfg !! k = Hyper <$> cfg !! i) /\
  (forall k, k ∉ keys -> dict_of_zip keys cfg !! k = None).
Proof.
  intros Hnd. unfold dict_of_zip. split.
  - intros i k Hi. rewrite (zip_spec_lookup keys cfg ∅ i k Hnd Hi).
    by destruct (cfg !! i).
  - intros k Hk. by rewrite zip_spec_other.
Qed.
End SpecOfConfig.

Section Plots.
Context {V : Type} `{PyValue V} {M : Type}.
Context (plot_method : pyobj V -> string -> option (dict V -> result unit)).
Context (self : StrategyExperiment V M).
Implicit Types (s : frame V M).

Lemma render_plot_fails mode fname key args s op f e :
  prediction s = Some op -> plot_method op key = Some f -> f args = Raise e ->
  render_plot plot_method self mode fname (key, args) s
  = Outcome (Raise e) s [PlotCall key].
Proof.
  intros Hp Hpm Hf. unfold render_plot. rewrite (bind_local _ _ _ _ op Hp). cbn [fst snd].
  by rewrite Hpm, bind_emit_logged, Hf.
Qed.

(** X13. When a plot method raises, the exception leaves the grid point
    after the spec report was written: the report on disk holds the
    scored spec, and the call of the failing plot is the last event (no
    figure is saved for it and no later plot is tried). *)
Theorem report_precedes_plots tests mode fname s l ob op pre key args post f e :
  let o := finish_point plot_method self tests (PlotsDict (pre ++ (key, args) :: post))
                        mode fname s in
  spec s = Some l -> heap s !! l = Some ob -> prediction s = Some op ->
  res (seq_each tests score_test s) = Ok tt ->
  forallb (plot_ok plot_method op) pre = true ->
  plot_method op key = Some f -> f args = Raise e ->
  res o = Raise e /\
  fs (final o) !! spec_fname self mode fname = Some (Pickle (scored_object tests op ob)) /\
  last (log o) = Some (PlotCall key).
Proof.
  intros o Hs Hl Hp Hloop Hpre Hpm Hf. subst o.
  pose proof (score_loop_frame (M:=M) tests s) as [Hout _].
  destruct (score_loop_returns tests s l ob op Hs Hl Hp Hloop) as (Hheap & _ & _).
  unfold outside_scoring in Hout.
  assert (Hs1 : spec (final (seq_each tests score_test s)) = Some l) by congruence.
  assert (Hp1 : prediction (final (seq_each tests score_test s)) = Some op) by congruence.
  assert (Hl1 : heap (final (seq_each tests score_test s)) !! l
                = Some (scored_object tests op ob)).
  { rewrite Hheap. apply list_lookup_insert_eq. by eapply lookup_lt_Some. }
  set (s1 := final (seq_each tests score_test s)) in *.
  assert (Hrun1 : seq_each tests score_test s
                  = Outcome (Ok tt) s1 (log (seq_each tests score_test s))).
  { rewrite <- Hloop. symmetry. apply outcome_eta. }
  set (s2 := set_fs (<[spec_fname self mode fname := Pickle (scored_object tests op ob)]>
                       (fs s1)) s1).
  assert (Hp2 : prediction s2 = Some op) by exact Hp1.
  pose proof (proj2 (render_loop_run plot_method self mode fname pre s2 op Hp2) Hpre) as Hok.
  pose proof (render_loop_frame plot_method self mode fname pre s2) as [Hsame _].
  cbv beta in Hsame.
  assert (Hrun2 : seq_each pre (render_plot plot_method self mode fname) s2
                  = Outcome (Ok tt) s2
                      (log (seq_each pre (render_plot plot_method self mode fname) s2))).
  { rewrite <- (outcome_eta (seq_each pre (render_plot plot_method self mode fname) s2)) at 1.
    by rewrite Hok, Hsame. }
  assert (Ho : finish_point plot_method self tests (PlotsDict (pre ++ (key, args) :: post))
                            mode fname s
               = logged (log (seq_each tests score_test s))
                   (logged (log (seq_each pre (render_plot plot_method self mode fname) s2))
                      (Outcome (Raise e) s2 [PlotCall key]))).
  { unfold finish_point. rewrite (bind_run _ _ _ _ _ _ Hrun1). f_equal.
    rewrite (bind_run _ _ _ _ _ _ (persist_spec_run (spec_fname self mode fname) s1 l _
                                     Hs1 Hl1)), logged_nil.
    fold s2. cbn [plot_items]. rewrite bind_ret.
    change (seq_each (pre ++ (key, args) :: post) (render_plot plot_method self mode fname))
      with (for_each (pre ++ (key, args) :: post)
              (fun x (_ : unit) => render_plot plot_method self mode fname x) tt).
    rewrite for_each_app.
    change (for_each pre (fun x (_ : unit) => render_plot plot_method self mode fname x) tt)
      with (seq_each pre (render_plot plot_method self mode fname)).
    rewrite (bind_run _ _ _ _ _ _ Hrun2). f_equal. cbn [for_each].
    by rewrite (bind_fail _ _ _ _ _ _
                  (render_plot_fails mode fname key args s2 op f e Hp2 Hpm Hf)). }
  rewrite Ho, !res_logged, !final_logged, !log_logged. cbn [res final log].
  split; [reflexivity|]. split.
  - subst s2. cbn [fs set_fs]. by rewrite lookup_insert_eq.
  - by rewrite app_assoc, last_snoc.
Qed.

(** X14. For a prediction that has none of the requested plot methods,
    the plot loop prints one unavailable message per requested plot, in
    the order of the request, draws and saves nothing and leaves the
    state as it was. *)
Theorem unavailable_plots_are_skipped mode fname (items : dict (dict V)) s op :
  prediction s = Some op ->
  (forall item, In item items -> plot_method op item.1 = None) ->
  seq_each items (render_plot plot_method self mode fname) s
  = Outcome (Ok tt) s (map (fun item => Print (MsgPlotUnavailable item.1)) items).
Proof.
  intros Hp. induction items as [|item items IH]; intros Hnone; [done|].
  assert (Hrun : render_plot plot_method self mode fname item s
                 = Outcome (Ok tt) s [Print (MsgPlotUnavailable item.1)]).
  { unfold render_plot. rewrite (bind_local _ _ _ _ op Hp).
    by rewrite (Hnone item (or_introl eq_refl)). }
  rewrite seq_each_cons, (bind_run _ _ _ _ _ _ Hrun), IH; [done|].
  intros item' Hin. apply Hnone. by right.
Qed.
End Plots.

(** ** [Session.__init__] *)

Lemma last_char_snoc (d : string) c : last_char (d ++ String c "") = Some c.
Proof.
  unfold last_char. induction d as [|x d IH]; [done|].
  rewrite append_String. cbn [String.list_ascii_of_string].
  destruct (String.list_ascii_of_string (d ++ String c "")) eqn:Hl; [done|].
  by rewrite <- IH.
Qed.

Lemma last_char_slash (d : string) :
  last_char d = Some "/"%char -> exists x, d = (x ++ "/")%string.
Proof.
  unfold last_char. induction d as [|c d IH]; [done|].
  cbn [String.list_ascii_of_string]. destruct d as [|c' d].
  - cbn. intros [= ->]. by exists "".
  - cbn [String.list_ascii_of_string last] in IH |- *. intros Hl.
    destruct (IH Hl) as [x ->]. exists (String c x). by rewrite append_String.
Qed.

Lemma last_char_nonempty (d : string) : d <> "" -> exists c, last_char d = Some c.
Proof.
  unfold last_char. destruct d as [|c d]; [done|]. intros _.
  cbn [String.list_ascii_of_string].
  revert c. induction d as [|c' d IH]; intros c; [by exists c|].
  cbn [String.list_ascii_of_string last]. apply IH.
Qed.

Lemma with_slash_closed (d : string) :
  d <> "" -> exists x, with_slash d = (x ++ "/")%string.
Proof.
  intros Hd. unfold with_slash. destruct (last_char_nonempty d Hd) as [c Hc]. rewrite Hc.
  destruct (decide (c = "/"%char)) as [->|Hne]; [by apply last_char_slash|by exists d].
Qed.

Lemma ancestors_nonempty (l x : list string) : x ∈ ancestors l -> x <> [].
Proof.
  destruct l as [|y l]; cbn; [by intros ?%elem_of_nil|].
  intros [->|Hin]%elem_of_cons; [done|].
  by apply list_elem_of_fmap in Hin as (x' & -> & _).
Qed.

Lemma ancestors_parent (l x : list string) :
  x ∈ ancestors l -> (length x <= 1)%nat \/ removelast x ∈ ancestors l.
Proof.
  revert x. induction l as [|y l IH]; intros x; cbn [ancestors].
  - by intros ?%elem_of_nil.
  - intros [->|Hin]%elem_of_cons; [by left|].
    apply list_elem_of_fmap in Hin as (x' & -> & Hin). right.
    pose proof (ancestors_nonempty l x' Hin) as Hne.
    destruct (IH x' Hin) as [Hlen|Hp].
    + destruct x' as [|z [|z' x']]; [done| |cbn in Hlen; lia]. cbn. left.
    + destruct x' as [|z x']; [done|]. cbn [removelast].
      destruct x' as [|z' x'].
      * cbn in Hp. by apply ancestors_nonempty in Hp.
      * right. apply list_elem_of_fmap. by eexists.
Qed.

Lemma prefix_closed_elem (t : tree) :
  prefix_closed t <-> forall n, n ∈ t -> has_parent t n = true.
Proof.
  unfold prefix_closed. rewrite forallb_forall. split.
  - intros Hall n Hn. apply Hall. by apply list_elem_of_In, elem_of_elements.
  - intros Hall n Hn. apply Hall. by apply elem_of_elements, list_elem_of_In.
Qed.

(** [os.makedirs] keeps the tree closed under parents. *)
Lemma prefix_closed_dirs (t : tree) a (l : list string) :
  prefix_closed t -> prefix_closed (t ∪ list_to_set (map (pair a) (ancestors l))).
Proof.
  rewrite !prefix_closed_elem. intros Hpc [b x] [Hin|Hin]%elem_of_union.
  - apply Hpc in Hin. unfold has_parent in *. cbn [fst snd] in *.
    apply orb_prop in Hin as [Hlen|Hp]; [by rewrite Hlen|].
    apply bool_decide_eq_true in Hp. apply orb_true_intro. right.
    apply bool_decide_eq_true. set_solver.
  - apply elem_of_dirs in Hin as [-> Hin]. unfold has_parent. cbn [fst snd].
    destruct (ancestors_parent l x Hin) as [Hlen|Hp].
    + apply Nat.leb_le in Hlen. by rewrite Hlen.
    + apply orb_true_intro. right. apply bool_decide_eq_true, elem_of_union. right.
      by apply elem_of_dirs.
Qed.

Lemma makedirs_run q (t : tree) :
  makedirs q t
  = if decide ((norm_path q).2 = [])
    then Outcome (Raise (if (norm_path q).1 then FileExistsError q
                         else ExternalError "FileNotFoundError")) t [Makedirs q]
    else if is_dir (norm_path q) t then Outcome (Raise (FileExistsError q)) t [Makedirs q]
    else Outcome (Ok tt)
           (t ∪ list_to_set (map (pair (norm_path q).1) (ancestors (norm_path q).2)))
           [Makedirs q].
Proof.
  unfold makedirs. rewrite bind_emit, bind_get. cbv zeta.
  destruct (decide ((norm_path q).2 = [])); [done|].
  by destruct (is_dir (norm_path q) t).
Qed.

Lemma makedirs_returns q (t : tree) :
  res (makedirs q t) = Ok tt ->
  t ⊆ final (makedirs q t) /\ is_dir (norm_path q) (final (makedirs q t)) = true.
Proof.
  rewrite makedirs_run. destruct (decide ((norm_path q).2 = [])) as [|Hne]; [discriminate|].
  destruct (is_dir (norm_path q) t); [discriminate|]. intros _. cbn [final].
  split; [set_solver|]. apply is_dir_true, elem_of_union. right.
  destruct (norm_path q) as [a l]. apply elem_of_dirs. split; [done|].
  by apply ancestors_self.
Qed.

Lemma is_dir_mono n (t t' : tree) : t ⊆ t' -> is_dir n t = true -> is_dir n t' = true.
Proof.
  unfold is_dir. intros Hsub Hd%bool_decide_eq_true. apply bool_decide_eq_true.
  destruct Hd as [->|Hin]; [by left|right; set_solver].
Qed.

Lemma Session_init_run d (t : tree) c :
  last_char d = Some c ->
  Session_init d t
  = let dir := with_slash d in
    if is_dir (norm_path dir) t
    then Outcome (Ok (session_at dir)) t [Say ("Opening session: " ++ dir ++ "...")]
    else logged [Say ("Creating new session: " ++ dir ++ "...")]
           (bind (makedirs dir)
              (fun _ => bind (makedirs (dir ++ "datasets/"))
                 (fun _ => bind (emit (Say ("Opening session: " ++ dir ++ "...")))
                    (fun _ => ret (session_at dir)))) t).
Proof.
  intros Hc. unfold Session_init, with_slash, isdir. rewrite Hc, bind_lift_ok. cbv zeta.
  set (dir := if decide (c = "/"%char) then d else (d ++ "/")%string).
  rewrite bind_assoc, bind_get, bind_ret.
  destruct (is_dir (norm_path dir) t).
  - by rewrite bind_ret, bind_emit_logged.
  - by rewrite !bind_assoc, bind_emit_logged, !bind_assoc.
Qed.

(** X15. [Session(directory)] on a directory that does not exist yet (the
    name not empty, the disk closed under parents) returns the session
    of the name with a closing slash, prints its two messages around the
    two [os.makedirs] calls, creates the directory and its [datasets/]
    subdirectory, removes nothing and leaves the disk closed under
    parents. *)
Theorem Session_init_new d (t : tree) :
  let dir := with_slash d in
  let o := Session_init d t in
  d <> "" -> prefix_closed t -> is_dir (norm_path dir) t = false ->
  res o = Ok (session_at dir) /\
  log o = [Say ("Creating new session: " ++ dir ++ "..."); Makedirs dir;
           Makedirs (dir ++ "datasets/"); Say ("Opening session: " ++ dir ++ "...")] /\
  is_dir (norm_path dir) (final o) = true /\
  is_dir (norm_path (dir ++ "datasets/")) (final o) = true /\
  t ⊆ final o /\ prefix_closed (final o).
Proof.
  intros dir o Hd Hpc Hdir. subst o.
  destruct (last_char_nonempty d Hd) as [c Hc]. rewrite (Session_init_run d t c Hc).
  cbv zeta. fold dir. rewrite Hdir.
  destruct (with_slash_closed d Hd) as [x Hx]. fold dir in Hx.
  assert (Hxne : x <> "").
  { intros ->. rewrite Hx in Hdir. by vm_compute in Hdir. }
  assert (Hn : norm_path dir = (is_abs x, path_parts x)).
  { rewrite Hx. change (x ++ "/")%string with (x ++ String "/" "")%string.
    rewrite norm_path_sub by done. by rewrite app_nil_r. }
  assert (Hn2 : norm_path (dir ++ "datasets/") = (is_abs x, path_parts x ++ ["datasets"])).
  { rewrite Hx, <- string_app_assoc.
    change ("/" ++ "datasets/")%string with (String "/" "datasets/").
    by rewrite norm_path_sub. }
  set (a := is_abs x) in *. set (l := path_parts x) in *.
  assert (Hl : l <> []).
  { destruct (is_dir_inv _ _ Hdir) as [Hp|Ha]; rewrite Hn in *; [done|].
    by apply relative_has_parts. }
  assert (Hnot : (a, l) ∉ t).
  { rewrite Hn in Hdir. unfold is_dir in Hdir. apply bool_decide_eq_false in Hdir.
    intros Hin. apply Hdir. by right. }
  set (t1 := t ∪ list_to_set (map (pair a) (ancestors l))).
  assert (Hm1 : makedirs dir t = Outcome (Ok tt) t1 [Makedirs dir]).
  { rewrite makedirs_fresh; rewrite Hn; [done|done|]. by rewrite <- Hn. }
  assert (Hfresh : (a, l ++ ["datasets"]) ∉ t1).
  { subst t1. rewrite not_elem_of_union, elem_of_dirs. split.
    - intros Hin. apply Hnot. by apply (prefix_closed_parent t a l "datasets").
    - intros [_ Hin%ancestors_length]. rewrite length_app in Hin. cbn in Hin. lia. }
  set (t2 := t1 ∪ list_to_set (map (pair a) (ancestors (l ++ ["datasets"])))).
  assert (Hm2 : makedirs (dir ++ "datasets/") t1
                = Outcome (Ok tt) t2 [Makedirs (dir ++ "datasets/")]).
  { rewrite makedirs_fresh; rewrite Hn2; cbn [fst snd]; [done|by destruct l|].
    apply is_dir_false; [by destruct l|done]. }
  rewrite (bind_run _ _ _ _ _ _ Hm1), (bind_run _ _ _ _ _ _ Hm2), bind_emit_logged.
  rewrite !res_logged, !final_logged, !log_logged. cbn [res final log ret app].
  split; [done|]. split; [done|]. split; [|split; [|split]].
  - rewrite Hn. apply is_dir_true. subst t2 t1. rewrite !elem_of_union, !elem_of_dirs.
    left. right. split; [done|]. by apply ancestors_self.
  - rewrite Hn2. apply is_dir_true. subst t2. rewrite elem_of_union, elem_of_dirs.
    right. split; [done|]. apply ancestors_self. by destruct l.
  - subst t2 t1. set_solver.
  - subst t2 t1. by do 2 apply prefix_closed_dirs.
Qed.

(** A call that returns leaves the session directory on the disk and
    returns the session of the closed directory name. *)
Lemma Session_init_returns d (t : tree) sess :
  res (Session_init d t) = Ok sess ->
  sess = session_at (with_slash d) /\
  t ⊆ final (Session_init d t) /\
  is_dir (norm_path (with_slash d)) (final (Session_init d t)) = true.
Proof.
  destruct (last_char d) as [c|] eqn:Hc.
  2: { unfold Session_init. by rewrite Hc. }
  rewrite !(Session_init_run d _ c Hc). cbv zeta.
  destruct (is_dir (norm_path (with_slash d)) t) eqn:Hdir.
  - cbn [res final]. by intros [= <-].
  - rewrite res_logged, final_logged, res_bind, final_bind.
    destruct (res (makedirs (with_slash d) t)) as [[]|e] eqn:Hm1; [|discriminate].
    destruct (makedirs_returns _ _ Hm1) as [Hsub1 Hd1].
    set (t1 := final (makedirs (with_slash d) t)) in *.
    rewrite res_bind, final_bind.
    destruct (res (makedirs (with_slash d ++ "datasets/") t1)) as [[]|e] eqn:Hm2;
      [|discriminate].
    destruct (makedirs_returns _ _ Hm2) as [Hsub2 _].
    set (t2 := final (makedirs (with_slash d ++ "datasets/") t1)) in *.
    rewrite bind_emit_logged. cbn [res final logged ret]. intros [= <-].
    split; [done|]. split; [by etrans|]. by apply (is_dir_mono _ t1 t2).
Qed.

(** X16. Opening a session twice: when [Session(directory)] returns, a
    second call on the disk it left returns the same session, creates
    nothing and only prints the opening message. *)
Theorem Session_init_idempotent d (t : tree) sess :
  res (Session_init d t) = Ok sess ->
  sess = session_at (with_slash d) /\
  t ⊆ final (Session_init d t) /\
  Session_init d (final (Session_init d t))
  = Outcome (Ok sess) (final (Session_init d t))
            [Say ("Opening session: " ++ with_slash d ++ "...")].
Proof.
  intros Hok. destruct (Session_init_returns d t sess Hok) as (-> & Hsub & Hdir).
  split; [done|]. split; [done|].
  destruct (last_char d) as [c|] eqn:Hc.
  2: { unfold Session_init in Hok. by rewrite Hc in Hok. }
  rewrite (Session_init_run d (final (Session_init d t)) c Hc). cbv zeta.
  by rewrite Hdir.
Qed.

(** X17. The closing slash of the session directory: the empty name
    raises IndexError before anything is touched; a name without a
    closing slash behaves exactly as the name with one; the directory of
    a returned session always ends in a slash, and is the given name
    when that already ended in one. *)
Theorem Session_init_trailing_slash d (t : tree) :
  Session_init "" t = Outcome (Raise IndexError) t [] /\
  (d <> "" -> last_char d <> Some "/"%char ->
   Session_init d t = Session_init (d ++ "/") t) /\
  (forall sess, res (Session_init d t) = Ok sess ->
     last_char (directory sess) = Some "/"%char /\
     (last_char d = Some "/"%char -> directory sess = d)).
Proof.
  split; [done|]. split.
  - intros Hd Hlast. destruct (last_char_nonempty d Hd) as [c Hc].
    rewrite (Session_init_run d t c Hc),
      (Session_init_run (d ++ "/") t "/"%char (last_char_snoc d "/"%char)).
    assert (Hw : with_slash (d ++ "/") = with_slash d).
    { unfold with_slash. rewrite (last_char_snoc d "/"%char), Hc.
      rewrite decide_True by done. rewrite decide_False; [done|]. by intros ->. }
    by rewrite Hw.
  - intros sess Hok. destruct (Session_init_returns d t sess Hok) as (-> & _ & _).
    cbn [directory session_at]. unfold with_slash.
    destruct (last_char d) as [c|] eqn:Hc.
    + destruct (decide (c = "/"%char)) as [->|Hne].
      * by split.
      * split; [apply (last_char_snoc d "/"%char)|]. by intros [= ->].
    + unfold Session_init in Hok. by rewrite Hc in Hok.
Qed.

(** ** [build_prediction]: what happens to the caller's dictionary *)

Section DictKeysFacts.
Context {A : Type}.
Implicit Types (d : dict A) (k : string).

Lemma dict_get_key d k v : dict_get d k = Some v -> k ∈ dict_keys d.
Proof.
  unfold dict_keys. induction d as [|[k' v'] d IH]; cbn; [done|].
  destruct (decide (k = k')) as [->|Hne]; [intros _; left|].
  intros Hg. right. by apply IH.
Qed.

Lemma dict_keys_set_old d k v : k ∈ dict_keys d -> dict_keys (dict_set d k v) = dict_keys d.
Proof.
  unfold dict_keys. induction d as [|[k' v'] d IH]; cbn; [by intros ?%elem_of_nil|].
  destruct (decide (k = k')) as [->|Hne]; [done|].
  intros [?|Hin]%elem_of_cons; [done|]. cbn. by rewrite IH.
Qed.

Lemma dict_keys_set d k v :
  (dict_keys (dict_set d k v) = dict_keys d) \/
  ((k ∉ dict_keys d) /\ dict_keys (dict_set d k v) = dict_keys d ++ [k]).
Proof.
  destruct (decide (k ∈ dict_keys d)) as [Hin|Hout].
  - left. by apply dict_keys_set_old.
  - right. split; [done|]. by apply dict_keys_set_new.
Qed.
End DictKeysFacts.

Section BuildPredictionState.
Context {V : Type} `{PyValue V}.
Implicit Types (ds : Dataset V) (p args : dict V).

Local Arguments flag : simpl never.

Local Ltac branch_flags Hf :=
  unfold first_satisfied, priority_order in Hf; simpl in Hf;
  repeat match type of Hf with
         | context [if ?b then _ else _] => destruct b eqn:?; try discriminate Hf
         end.

Local Ltac enter_branch :=
  unfold build_prediction; rewrite bind_get;
  repeat match goal with
         | Hx : flag _ _ = _ |- _ => rewrite Hx
         end.

Lemma pred_item_run {B} k (h : V -> BP B) p :
  bind (pred_item k) h p
  = match dict_get p k with
    | Some v => h v p
    | None => Outcome (Raise (KeyError k)) p []
    end.
Proof.
  unfold pred_item, subscript. rewrite bind_assoc, bind_get.
  destruct (dict_get p k); [by rewrite bind_lift_ok|done].
Qed.

Lemma pred_setitem_run {B} k v (h : unit -> BP B) p :
  bind (pred_setitem k v) h p = h tt (dict_set p k v).
Proof. unfold pred_setitem. by rewrite bind_assoc, bind_get, bind_put. Qed.

Lemma lift_run {A B} (r : result A) (h : A -> BP B) p :
  bind (lift r) h p
  = match r with Ok a => h a p | Raise e => Outcome (Raise e) p [] end.
Proof. destruct r; [by rewrite bind_lift_ok|done]. Qed.

(** The attractor loop never changes the set of keys, even when it
    stops half-way. *)
Lemma for_items_keys (items : list (string * V)) p :
  Forall (fun kv => kv.1 ∈ dict_keys p) items ->
  dict_keys (final (for_items items p)) = dict_keys p.
Proof.
  revert p. induction items as [|[k v] items IH]; intros p Hall; [done|].
  apply Forall_cons in Hall as [Hk Hall]. cbn [fst] in Hk.
  cbn [for_items]. unfold take_last_step. rewrite bind_assoc, lift_run. cbn [snd fst].
  destruct (take_last v) as [v'|e]; [|done].
  rewrite pred_setitem_run. rewrite IH.
  - by apply dict_keys_set_old.
  - rewrite dict_keys_set_old by done. done.
Qed.

Lemma dict_keys_self p : Forall (fun kv : string * V => kv.1 ∈ dict_keys p) p.
Proof.
  apply Forall_forall. intros [k v] Hin. unfold dict_keys.
  apply list_elem_of_fmap. by exists (k, v).
Qed.

(** The bodies that only read the raw prediction. *)
Lemma build_prediction_reading_branch ds args p b :
  first_satisfied ds args p = Some b ->
  b = MvarXRanges \/ b = IsList \/ b = Centroids \/ b = IsSarimax ->
  final (build_prediction ds args p) = p.
Proof.
  intros Hf Hb.
  branch_flags Hf; injection Hf as <-;
    (destruct Hb as [Hb|[Hb|[Hb|Hb]]]; try discriminate Hb); clear Hb; enter_branch.
  - rewrite bind_emit_logged, final_logged, !pred_item_run.
    destruct (dict_get p "draws"); [|done]. rewrite pred_item_run.
    by destruct (dict_get p "mvar_x_ranges").
  - rewrite bind_emit_logged, final_logged, pred_item_run.
    destruct (dict_get p "ordinal_pdf") as [pdf|]; [|done].
    rewrite lift_run. destruct (py_len pdf) as [n|e]; [|done].
    rewrite final_bind.
    destruct (comprehension_pure ds (seq 0 n) p) as [Hfin _].
    destruct (res (comprehension (ordinal_at ds) (seq 0 n) p)); by rewrite Hfin.
  - rewrite bind_emit_logged, final_logged, lift_run.
    destruct (subscript args "quant"); [|done]. by rewrite bind_get.
  - rewrite bind_emit_logged, final_logged. by rewrite bind_get.
Qed.

(** X18. When the first satisfied flag is the mixture ranges, the list,
    the centroid or the SARIMAX flag, or when no flag is set,
    [build_prediction] leaves the caller's raw prediction as it was,
    whether it returns or raises. *)
Theorem build_prediction_reads_only ds args p :
  first_satisfied ds args p
    ∈ [Some MvarXRanges; Some IsList; Some Centroids; Some IsSarimax; None] ->
  final (build_prediction ds args p) = p.
Proof.
  intros Hin.
  destruct (first_satisfied ds args p) as [b|] eqn:Hf.
  - apply (build_prediction_reading_branch ds args p b Hf).
    repeat (apply elem_of_cons in Hin as [[= ->]|Hin]; [tauto|]).
    apply elem_of_cons in Hin as [[=]|Hin]. by apply elem_of_nil in Hin.
  - by rewrite (build_prediction_default ds args p Hf).
Qed.

(** X19. [build_prediction] never removes a key of the caller's raw
    prediction and never reorders its keys: after the call the keys are
    the same in the same order, or the same followed by the new key
    [bins].  This holds whether the call returns or raises. *)
Theorem build_prediction_keeps_keys ds args p :
  let p' := final (build_prediction ds args p) in
  (dict_keys p' = dict_keys p) \/
  (("bins" ∉ dict_keys p) /\ dict_keys p' = dict_keys p ++ ["bins"]).
Proof.
  cbv zeta.
  assert (Hbins : forall q (mk : dict V -> Prediction V),
     dict_keys q = dict_keys p ->
     let o := bind (lift (subscript (optional_params ds) "bins"))
                (fun bins => bind (pred_setitem "bins" bins)
                   (fun _ => bind get (fun kwargs => ret (mk kwargs)))) q in
     (dict_keys (final o) = dict_keys p) \/
     (("bins" ∉ dict_keys p) /\ dict_keys (final o) = dict_keys p ++ ["bins"])).
  { intros q mk Hq. cbv zeta. rewrite lift_run.
    destruct (subscript (optional_params ds) "bins") as [bins|e]; [|by left].
    rewrite pred_setitem_run, bind_get. cbn [ret final]. rewrite <- Hq.
    apply dict_keys_set. }
  destruct (first_satisfied ds args p) as [b|] eqn:Hf.
  2: { left. by rewrite (build_prediction_default ds args p Hf). }
  destruct b.
  1, 3, 5, 6: left; rewrite (build_prediction_reading_branch _ _ _ _ Hf); [done|tauto].
  all: branch_flags Hf; clear Hf; enter_branch.
  - (* ar_quant *)
    rewrite bind_emit_logged, final_logged, pred_item_run.
    destruct (dict_get p "ordinal_pdf") as [pdf|] eqn:Hpdf; [|by left].
    rewrite lift_run. destruct (getitem pdf 0) as [pdf0|e]; [|by left].
    rewrite pred_setitem_run.
    assert (Hk1 : dict_keys (dict_set p "ordinal_pdf" pdf0) = dict_keys p)
      by (by eapply dict_keys_set_old, dict_get_key).
    set (p1 := dict_set p "ordinal_pdf" pdf0) in *.
    rewrite pred_item_run.
    destruct (dict_get p1 "draws") as [draws|] eqn:Hdraws; [|by left].
    rewrite lift_run. destruct (getitem draws 0) as [draws0|e]; [|by left].
    rewrite pred_setitem_run.
    assert (Hk2 : dict_keys (dict_set p1 "draws" draws0) = dict_keys p).
    { rewrite <- Hk1. by eapply dict_keys_set_old, dict_get_key. }
    rewrite lift_run. destruct (subscript args "ar_quant"); [|by left].
    rewrite bind_get. by left.
  - (* is_array *)
    rewrite bind_emit_logged, final_logged. by apply (Hbins p).
  - (* is_attractor *)
    rewrite bind_assoc, bind_emit_logged, final_logged, bind_assoc, bind_get.
    pose proof (for_items_keys p p (dict_keys_self p)) as Hkeys.
    rewrite final_bind. destruct (res (for_items p p)) as [[]|e]; [|by left].
    destruct (flag (optional_params ds) "is_ordinal").
    + rewrite bind_emit_logged, final_logged. by apply (Hbins _).
    + rewrite bind_get. by left.
  - (* is_ordinal *)
    rewrite bind_ret, bind_emit_logged, final_logged. by apply (Hbins p).
Qed.


(** X21. The autoregressive-quantile body updates the raw prediction
    field by field: when [ordinal_pdf] has been replaced by its first
    element and reading [draws], or its first element, fails, the
    exception leaves the call with [ordinal_pdf] already replaced in the
    caller's dictionary. *)
Theorem build_prediction_ar_quant_partial ds args p pdf pdf0 e :
  first_satisfied ds args p = Some ArQuant ->
  dict_get p "ordinal_pdf" = Some pdf -> getitem pdf 0 = Ok pdf0 ->
  bind_result (subscript p "draws") (fun draws => getitem draws 0) = Raise e ->
  build_prediction ds args p
  = Outcome (Raise e) (dict_set p "ordinal_pdf" pdf0) [ArQuant].
Proof.
  intros Hf Hpdf Hpdf0 Hdraws. branch_flags Hf. clear Hf. enter_branch.
  rewrite bind_emit_logged, pred_item_run, Hpdf, lift_run, Hpdf0, pred_setitem_run.
  rewrite pred_item_run, dict_get_set_ne by done.
  unfold subscript in Hdraws. destruct (dict_get p "draws") as [draws|].
  - cbn [bind_result] in Hdraws. by rewrite lift_run, Hdraws.
  - cbn [bind_result] in Hdraws. by injection Hdraws as <-.
Qed.

Lemma ordinal_at_ok ds i p q :
  res (ordinal_at ds i p) = Ok q ->
  exists pdf pdf_i draws draws_i params bins,
    dict_get p "ordinal_pdf" = Some pdf /\ getitem pdf i = Ok pdf_i /\
    dict_get p "draws" = Some draws /\ getitem draws i = Ok draws_i /\
    optional_params_list ds !! i = Some params /\ dict_get params "bins" = Some bins /\
    q = OrdinalPrediction [AVal pdf_i; AVal draws_i; AVal bins] [].
Proof.
  unfold ordinal_at. rewrite pred_item_run.
  destruct (dict_get p "ordinal_pdf") as [pdf|]; [|cbn; intros Hx; discriminate Hx].
  rewrite lift_run. destruct (getitem pdf i) as [pdf_i|] eqn:Hpi; [|cbn; intros Hx; discriminate Hx].
  rewrite pred_item_run. destruct (dict_get p "draws") as [draws|]; [|cbn; intros Hx; discriminate Hx].
  rewrite lift_run. destruct (getitem draws i) as [draws_i|] eqn:Hdi; [|cbn; intros Hx; discriminate Hx].
  rewrite lift_run. unfold list_index.
  destruct (optional_params_list ds !! i) as [params|]; [|cbn; intros Hx; discriminate Hx].
  rewrite lift_run. unfold subscript. destruct (dict_get params "bins") as [bins|] eqn:Hbins;
    [|cbn; intros Hx; discriminate Hx].
  cbn. intros [= <-]. by exists pdf, pdf_i, draws, draws_i, params, bins.
Qed.

Lemma comprehension_ok ds (xs : list nat) p preds :
  res (comprehension (ordinal_at ds) xs p) = Ok preds ->
  Forall2 (fun i q => res (ordinal_at ds i p) = Ok q) xs preds.
Proof.
  revert preds. induction xs as [|x xs IH]; intros preds; cbn [comprehension].
  - cbn. intros [= <-]. constructor.
  - intros Hok. apply bind_res_ok in Hok as (q & Hq & Hok).
    destruct (comprehension_pure ds [x] p) as [_ _].
    assert (Hfin : final (ordinal_at ds x p) = p).
    { destruct (comprehension_pure ds [x] p) as [Hfin _]. cbn [comprehension] in Hfin.
      rewrite (bind_ok _ _ _ _ Hq) in Hfin. cbn [final] in Hfin.
      by rewrite bind_ret in Hfin. }
    rewrite Hfin in Hok. apply bind_res_ok in Hok as (qs & Hqs & Hok).
    cbn in Hok. injection Hok as <-. constructor; [done|by apply IH].
Qed.

(** X22. For a list dataset, a call of [build_prediction] that returns
    gives a [PredictionList] with one [OrdinalPrediction] per element of
    [ordinal_pdf], the i-th built from [ordinal_pdf[i]], [draws[i]] and
    the [bins] of the i-th entry of the dataset's
    [optional_params_list]; the dataset then has at least as many
    parameter entries as [ordinal_pdf] has elements. *)
Theorem build_prediction_list ds args p pdf n w :
  first_satisfied ds args p = Some IsList ->
  dict_get p "ordinal_pdf" = Some pdf -> py_len pdf = Ok n ->
  res (build_prediction ds args p) = Ok w ->
  exists preds,
    w = PredictionList preds /\ length preds = n /\
    (n <= length (optional_params_list ds))%nat /\
    forall i q, preds !! i = Some q ->
      exists pdf_i draws draws_i params bins,
        getitem pdf i = Ok pdf_i /\
        dict_get p "draws" = Some draws /\ getitem draws i = Ok draws_i /\
        optional_params_list ds !! i = Some params /\ dict_get params "bins" = Some bins /\
        q = OrdinalPrediction [AVal pdf_i; AVal draws_i; AVal bins] [].
Proof.
  intros Hf Hpdf Hlen. branch_flags Hf. clear Hf. enter_branch.
  rewrite bind_emit_logged, res_logged, pred_item_run, Hpdf, lift_run, Hlen.
  intros Hok. apply bind_res_ok in Hok as (preds & Hpreds & Hok).
  cbn in Hok. injection Hok as <-. exists preds.
  apply comprehension_ok in Hpreds.
  pose proof (Forall2_length _ _ _ Hpreds) as Hl. rewrite length_seq in Hl.
  assert (Hall : forall i q, preds !! i = Some q ->
            exists pdf_i draws draws_i params bins,
              getitem pdf i = Ok pdf_i /\
              dict_get p "draws" = Some draws /\ getitem draws i = Ok draws_i /\
              optional_params_list ds !! i = Some params /\
              dict_get params "bins" = Some bins /\
              q = OrdinalPrediction [AVal pdf_i; AVal draws_i; AVal bins] []).
  { intros i q Hi.
    assert (Hlt : (i < n)%nat) by (rewrite Hl; by eapply lookup_lt_Some).
    assert (Hs : seq 0 n !! i = Some i) by (by apply lookup_seq).
    pose proof (Forall2_lookup_lr _ _ _ _ _ _ Hpreds Hs Hi) as Hq.
    apply ordinal_at_ok in Hq
      as (pdf' & pdf_i & draws & draws_i & params & bins & Hp' & ? & ? & ? & ? & ? & ?).
    rewrite Hpdf in Hp'. injection Hp' as <-.
    by exists pdf_i, draws, draws_i, params, bins. }
  split; [done|]. split; [done|]. split; [|done].
  destruct n as [|m]; [lia|].
  destruct (lookup_lt_is_Some_2 preds m) as [q Hq]; [lia|].
  destruct (Hall m q Hq) as (? & ? & ? & params & ? & _ & _ & _ & Hp & _).
  apply lookup_lt_Some in Hp. lia.
Qed.

(** The attractor loop, from the middle of a dictionary. *)
Lemma for_items_middle (pre items items' post : dict V) :
  NoDup (dict_keys (pre ++ items ++ post)) ->
  last_steps items = Ok items' ->
  forall rest, for_items (items ++ rest) (pre ++ items ++ post)
               = for_items rest (pre ++ items' ++ post).
Proof.
  revert pre items'. induction items as [|[k v] items IH]; intros pre items' Hnd Hls rest.
  - cbn in Hls. by injection Hls as <-.
  - cbn in Hls. destruct (take_last v) as [v'|e] eqn:Hv; [|discriminate].
    cbn in Hls. destruct (last_steps items) as [items0|e] eqn:Hrest; [|discriminate].
    cbn in Hls. injection Hls as <-.
    cbn [app for_items]. unfold take_last_step. rewrite bind_assoc, lift_run. cbn [fst snd].
    rewrite Hv, pred_setitem_run.
    assert (Hk : k ∉ dict_keys pre).
    { unfold dict_keys in *. rewrite fmap_app in Hnd.
      apply NoDup_app in Hnd as (_ & Hdisj & _). intros Hin.
      apply (Hdisj _ Hin). cbn. left. }
    rewrite dict_set_behind by done.
    replace (pre ++ (k, v') :: items ++ post) with ((pre ++ [(k, v')]) ++ items ++ post)
      by (by rewrite <- app_assoc).
    rewrite (IH (pre ++ [(k, v')]) items0); [by rewrite <- app_assoc| |done].
    unfold dict_keys in *. rewrite <- app_assoc. cbn.
    rewrite !fmap_app in *. cbn in *. by rewrite ?fmap_app.
Qed.

(** X23. The attractor loop updates the raw prediction in place, field by
    field: when a field has no last time step, the exception leaves the
    call with the fields before it already replaced by their last time
    step and that field and the fields after it untouched. *)
Theorem build_prediction_attractor_partial ds args pre pre' k v post e :
  let p := pre ++ (k, v) :: post in
  first_satisfied ds args p = Some IsAttractor ->
  NoDup (dict_keys p) ->
  last_steps pre = Ok pre' -> take_last v = Raise e ->
  build_prediction ds args p
  = Outcome (Raise e) (pre' ++ (k, v) :: post) [IsAttractor].
Proof.
  intros p Hf Hnd Hls Hv. branch_flags Hf. clear Hf. enter_branch.
  rewrite bind_assoc, bind_emit_logged, bind_assoc, bind_get.
  assert (Hloop : for_items p p = Outcome (Raise e) (pre' ++ (k, v) :: post) []).
  { subst p.
    pose proof (for_items_middle [] pre pre' ((k, v) :: post)) as Hm.
    cbn [app] in Hm. rewrite (Hm Hnd Hls ((k, v) :: post)).
    cbn [for_items]. unfold take_last_step. rewrite bind_assoc, lift_run. cbn [fst snd].
    by rewrite Hv. }
  by rewrite (bind_fail _ _ _ _ _ _ Hloop).
Qed.
End BuildPredictionState.

(** ** The properties on the sample inputs *)


Lemma run_tests_result_witness :
  dict_keys [("score_seed_test", 9 # 10)] = result_key <$> [seed_test] /\
  exists o q,
    final (toy_tests_run fitted_toy ∅)
      !! test_prediction_fname (toy_experiment toy_strategy) seed_test = Some (Pickle o) /\
    eval seed_test o = Ok q /\
    dict_get [("score_seed_test", 9 # 10)] (result_key seed_test) = Some q.
Proof.
  assert (Hok : res (toy_tests_run fitted_toy ∅) = Ok [("score_seed_test", 9 # 10)])
    by (vm_compute; reflexivity).
  assert (Hnd : NoDup (result_key <$> [seed_test]))
    by (apply (bool_decide_unpack _); vm_compute; exact I).
  pose proof (run_tests_result no_plot_method toy_predict_kw (toy_experiment toy_strategy)
                fitted_toy [seed_test] (PlotsDict []) [] ∅ _ Hnd Hok) as [Hkeys Hall].
  split; [exact Hkeys|]. exact (Hall seed_test (or_introl eq_refl)).
Defined.

Lemma run_tests_unreadable_prediction_witness :
  unreadable_test_disk !! test_prediction_fname (toy_experiment toy_strategy) seed_test
  = Some (Raw "garbage") /\
  res (toy_tests_run fitted_toy unreadable_test_disk) = Raise UnpicklingError.
Proof.
  assert (Hraw : unreadable_test_disk
                   !! test_prediction_fname (toy_experiment toy_strategy) seed_test
                 = Some (Raw "garbage")) by (vm_compute; reflexivity).
  split; [exact Hraw|].
  exact (proj2 (run_tests_unreadable_prediction no_plot_method toy_predict_kw
                  (toy_experiment toy_strategy) fitted_toy [seed_test] (PlotsDict []) []
                  unreadable_test_disk seed_test "garbage" (or_introl eq_refl) Hraw)
               [] [] eq_refl eq_refl).
Defined.

Lemma loaded_spec_is_constructed_witness :
  exists rest,
    log (toy_point (toy_frame reported_disk))
    = Print (MsgPath (model_fname (toy_experiment toy_strategy) toy_fname))
        :: Print (MsgTraining (OSpec {[ "seed" := Hyper (PInt 3) ]}))
        :: StrategyNew {[ "seed" := Hyper (PInt 3) ]} :: rest.
Proof.
  assert (Hsf : fs (toy_frame reported_disk) !! toy_spec_file
                = Some (Pickle (OSpec {[ "seed" := Hyper (PInt 3) ]})))
    by (vm_compute; reflexivity).
  assert (Hpf : fs (toy_frame reported_disk) !! toy_prediction_file = None)
    by (vm_compute; reflexivity).
  assert (Hmf : fs (toy_frame reported_disk)
                  !! model_fname (toy_experiment toy_strategy) toy_fname = None)
    by (vm_compute; reflexivity).
  pose proof (loaded_spec_is_constructed no_plot_method (toy_experiment toy_strategy)
                [seed_test] ["seed"] 4 2 (PlotsDict []) [] [] "val" []
                (series_for (toy_experiment toy_strategy) "val" None) [PInt 1]
                (toy_frame reported_disk) {[ "seed" := Hyper (PInt 3) ]}) as Hthm.
  cbv zeta in Hthm. exact (Hthm Hsf Hpf Hmf).
Defined.

Lemma cached_model_is_loaded_witness :
  In (StrategyLoad (model_fname (toy_experiment toy_strategy) toy_fname))
     (log (toy_point (toy_frame saved_model_disk))) /\
  forallb (fun e => negb (is_training e)) (log (toy_point (toy_frame saved_model_disk)))
  = true.
Proof.
  assert (Hmiss : cached_prediction toy_spec_file toy_prediction_file
                    (fs (toy_frame saved_model_disk)) = None)
    by (vm_compute; reflexivity).
  assert (Hmf : fs (toy_frame saved_model_disk)
                  !! model_fname (toy_experiment toy_strategy) toy_fname = Some (Raw "x"))
    by (vm_compute; reflexivity).
  pose proof (cached_model_is_loaded no_plot_method (toy_experiment toy_strategy)
                [seed_test] ["seed"] 4 2 (PlotsDict []) [] [] "val" []
                (series_for (toy_experiment toy_strategy) "val" None) [PInt 1]
                (toy_frame saved_model_disk) (Raw "x")) as Hthm.
  cbv zeta in Hthm. destruct (Hthm Hmiss Hmf) as (Hin & Hnone & _).
  split; [exact Hin|exact Hnone].
Defined.

Lemma spec_report_content_witness :
  exists op sp,
    prediction toy_scored = Some op /\
    fs toy_scored !! toy_spec_file = Some (Pickle (OSpec sp)) /\
    (forall t, In t [seed_test] ->
       exists q, eval t op = Ok q /\ sp !! metric t = Some (Score q)) /\
    (forall k, k ∉ metric <$> [seed_test] -> sp !! k = dict_of_zip ["seed"] [PInt 1] !! k).
Proof.
  assert (Hnd : NoDup (metric <$> [seed_test]))
    by (apply (bool_decide_unpack _); vm_compute; exact I).
  assert (Hsp : spec_object (dict_of_zip ["seed"] [PInt 1]) toy_spec_file (fs (toy_frame ∅))
                = OSpec (dict_of_zip ["seed"] [PInt 1])) by (vm_compute; reflexivity).
  assert (Hok : res (toy_point (toy_frame ∅)) = Ok tt) by (vm_compute; reflexivity).
  pose proof (spec_report_content no_plot_method (toy_experiment toy_strategy)
                [seed_test] ["seed"] 4 2 (PlotsDict []) [] [] "val" []
                (series_for (toy_experiment toy_strategy) "val" None) [PInt 1]
                (toy_frame ∅) (dict_of_zip ["seed"] [PInt 1])) as Hthm.
  cbv zeta in Hthm. exact (Hthm Hnd Hsp Hok).
Defined.

Lemma model_input_window_witness :
  model_input
    (final (predict_and_store (toy_experiment toy_strategy) (val_ts (sample_dataset []))
              4 2 [] [] toy_prediction_file (set_model (Some fitted_toy) (toy_frame ∅))))
  = Some [py_slice (val_ts (sample_dataset [])) (4 - 2) 4] /\
  py_slice (val_ts (sample_dataset [])) (4 - 2) 4 = [PInt 12; PInt 13].
Proof.
  split; [|reflexivity].
  pose proof (model_input_window (toy_experiment toy_strategy) (val_ts (sample_dataset []))
                4 2 [] [] toy_prediction_file (set_model (Some fitted_toy) (toy_frame ∅))
                fitted_toy eq_refl eq_refl) as Hthm.
  cbv zeta in Hthm.
  assert (H0 : 0 <= 4 - seed_length (Strategy (toy_experiment toy_strategy)) fitted_toy)
    by (vm_compute; discriminate).
  assert (H1 : 0 <= seed_length (Strategy (toy_experiment toy_strategy)) fitted_toy)
    by (vm_compute; discriminate).
  exact (proj1 (Hthm H0 H1)).
Defined.

Lemma spec_of_configuration_witness :
  dict_of_zip ["seed"; "depth"] [PInt 1; PInt 7] !! "depth" = Some (Hyper (PInt 7)) /\
  dict_of_zip ["seed"; "depth"] [PInt 1; PInt 7] !! "width" = None.
Proof.
  assert (Hnd : NoDup ["seed"; "depth"])
    by (apply (bool_decide_unpack _); vm_compute; exact I).
  assert (Hout : "width" ∉ ["seed"; "depth"])
    by (apply (bool_decide_unpack _); vm_compute; exact I).
  pose proof (spec_of_configuration ["seed"; "depth"] [PInt 1; PInt 7] Hnd) as [Hin Hnot].
  split; [exact (Hin 1%nat "depth" eq_refl)|exact (Hnot "width" Hout)].
Defined.

Lemma report_precedes_plots_witness :
  res (finish_point failing_plot_method (toy_experiment toy_strategy) [seed_test]
         (PlotsDict ([("mean", [])] ++ ("bad", []) :: [])) "val" toy_fname toy_scored)
  = Raise (ExternalError "plot") /\
  fs (final (finish_point failing_plot_method (toy_experiment toy_strategy) [seed_test]
               (PlotsDict ([("mean", [])] ++ ("bad", []) :: [])) "val" toy_fname toy_scored))
    !! toy_spec_file
  = Some (Pickle (scored_object [seed_test] toy_prediction toy_scored_spec)) /\
  last (log (finish_point failing_plot_method (toy_experiment toy_strategy) [seed_test]
               (PlotsDict ([("mean", [])] ++ ("bad", []) :: [])) "val" toy_fname toy_scored))
  = Some (PlotCall "bad").
Proof.
  assert (Hspec : spec toy_scored = Some 0%nat) by (vm_compute; reflexivity).
  assert (Hheap : heap toy_scored !! 0%nat = Some toy_scored_spec)
    by (vm_compute; reflexivity).
  assert (Hpred : prediction toy_scored = Some toy_prediction) by (vm_compute; reflexivity).
  assert (Hscore : res (seq_each [seed_test] score_test toy_scored) = Ok tt)
    by (vm_compute; reflexivity).
  pose proof (report_precedes_plots failing_plot_method (toy_experiment toy_strategy)
                [seed_test] "val" toy_fname toy_scored 0%nat toy_scored_spec toy_prediction
                [("mean", [])] "bad" [] [] (fun _ => Raise (ExternalError "plot"))
                (ExternalError "plot")) as Hthm.
  cbv zeta in Hthm. exact (Hthm Hspec Hheap Hpred Hscore eq_refl eq_refl eq_refl).
Defined.

Lemma unavailable_plots_are_skipped_witness :
  seq_each [("mean", []); ("pdf", [])]
           (render_plot no_plot_method (toy_experiment toy_strategy) "val" toy_fname)
           toy_scored
  = Outcome (Ok tt) toy_scored
            (map (fun item : string * dict pyval => Print (MsgPlotUnavailable item.1))
                 [("mean", []); ("pdf", [])]).
Proof.
  assert (Hpred : prediction toy_scored = Some toy_prediction) by (vm_compute; reflexivity).
  exact (unavailable_plots_are_skipped no_plot_method (toy_experiment toy_strategy)
           "val" toy_fname [("mean", []); ("pdf", [])] toy_scored toy_prediction Hpred
           (fun _ _ => eq_refl)).
Defined.

Lemma Session_init_new_witness :
  res (Session_init "s" ∅) = Ok (session_at (with_slash "s")) /\
  is_dir (norm_path (with_slash "s" ++ "datasets/")) (final (Session_init "s" ∅)) = true /\
  prefix_closed (final (Session_init "s" ∅)).
Proof.
  assert (Hne : "s" <> "") by discriminate.
  assert (Hpc : prefix_closed (∅ : tree)) by (vm_compute; reflexivity).
  assert (Hdir : is_dir (norm_path (with_slash "s")) (∅ : tree) = false)
    by (vm_compute; reflexivity).
  pose proof (Session_init_new "s" ∅) as Hthm. cbv zeta in Hthm.
  destruct (Hthm Hne Hpc Hdir) as (Hres & _ & _ & Hdata & _ & Hclosed).
  split; [exact Hres|]. split; [exact Hdata|exact Hclosed].
Defined.

Lemma Session_init_idempotent_witness :
  Session_init "s" (final (Session_init "s" ∅))
  = Outcome (Ok (session_at "s/")) (final (Session_init "s" ∅))
            [Say ("Opening session: " ++ with_slash "s" ++ "...")].
Proof.
  assert (Hok : res (Session_init "s" ∅) = Ok (session_at "s/")) by (vm_compute; reflexivity).
  exact (proj2 (proj2 (Session_init_idempotent "s" ∅ (session_at "s/") Hok))).
Defined.

Lemma build_prediction_reads_only_witness :
  final (build_prediction (sample_dataset []) [] raw_mixture) = raw_mixture.
Proof.
  assert (Hf : first_satisfied (sample_dataset []) [] raw_mixture
               ∈ [Some MvarXRanges; Some IsList; Some Centroids; Some IsSarimax; None])
    by (apply elem_of_cons; left; vm_compute; reflexivity).
  exact (build_prediction_reads_only (sample_dataset []) [] raw_mixture Hf).
Defined.


Lemma build_prediction_ar_quant_partial_witness :
  build_prediction (sample_dataset []) [("ar_quant", PInt 1)]
                   [("ordinal_pdf", PList [PList [PInt 1]])]
  = Outcome (Raise (KeyError "draws"))
            (dict_set [("ordinal_pdf", PList [PList [PInt 1]])] "ordinal_pdf"
                      (PList [PInt 1]))
            [ArQuant].
Proof.
  assert (Hf : first_satisfied (sample_dataset []) [("ar_quant", PInt 1)]
                 [("ordinal_pdf", PList [PList [PInt 1]])] = Some ArQuant)
    by (vm_compute; reflexivity).
  exact (build_prediction_ar_quant_partial (sample_dataset []) [("ar_quant", PInt 1)]
           [("ordinal_pdf", PList [PList [PInt 1]])] (PList [PList [PInt 1]])
           (PList [PInt 1]) (KeyError "draws") Hf eq_refl eq_refl eq_refl).
Defined.

Lemma build_prediction_list_witness :
  exists preds,
    PredictionList
      [OrdinalPrediction [AVal (PList [PInt 1; PInt 2]); AVal (PInt 7); AVal sample_bins] [];
       OrdinalPrediction [AVal (PList [PInt 3; PInt 4]); AVal (PInt 8);
                          AVal (PList [PInt 5])] []]
    = PredictionList preds /\
    length preds = 2%nat /\ (2 <= length (optional_params_list list_dataset))%nat.
Proof.
  assert (Hf : first_satisfied list_dataset [] raw_fields = Some IsList)
    by (vm_compute; reflexivity).
  assert (Hok : res (build_prediction list_dataset [] raw_fields)
                = Ok (PredictionList
                        [OrdinalPrediction [AVal (PList [PInt 1; PInt 2]); AVal (PInt 7);
                                            AVal sample_bins] [];
                         OrdinalPrediction [AVal (PList [PInt 3; PInt 4]); AVal (PInt 8);
                                            AVal (PList [PInt 5])] []]))
    by (vm_compute; reflexivity).
  destruct (build_prediction_list list_dataset [] raw_fields
              (PList [PList [PInt 1; PInt 2]; PList [PInt 3; PInt 4]]) 2 _
              Hf eq_refl eq_refl Hok) as (preds & Hw & Hlen & Hle & _).
  exists preds. split; [exact Hw|]. split; [exact Hlen|exact Hle].
Defined.

Lemma build_prediction_attractor_partial_witness :
  build_prediction (sample_dataset [("is_attractor", PBool true)]) []
                   ([("a", PList [PInt 1; PInt 2])] ++ ("b", PInt 3) :: [("c", PList [PInt 5])])
  = Outcome (Raise (AttributeError "take"))
            ([("a", PInt 2)] ++ ("b", PInt 3) :: [("c", PList [PInt 5])])
            [IsAttractor].
Proof.
  assert (Hf : first_satisfied (sample_dataset [("is_attractor", PBool true)]) []
                 ([("a", PList [PInt 1; PInt 2])] ++ ("b", PInt 3) :: [("c", PList [PInt 5])])
               = Some IsAttractor) by (vm_compute; reflexivity).
  assert (Hnd : NoDup (dict_keys ([("a", PList [PInt 1; PInt 2])]
                                    ++ ("b", PInt 3) :: [("c", PList [PInt 5])])))
    by (apply (bool_decide_unpack _); vm_compute; exact I).
  pose proof (build_prediction_attractor_partial
                (sample_dataset [("is_attractor", PBool true)]) []
                [("a", PList [PInt 1; PInt 2])] [("a", PInt 2)] "b" (PInt 3)
                [("c", PList [PInt 5])] (AttributeError "take")) as Hthm.
  cbv zeta in Hthm. exact (Hthm Hf Hnd eq_refl eq_refl).
Defined.
